(** * Verification of the AEP agent orchestrator and the query poller

    A shallow embedding of
      - [backend/src/agent/agent.service.js] (turn orchestrator, tool-call
        scan, approval handling, result summarizer, rule-based fallback), and
      - the [POST /queries] route handler (submit, then poll until the job
        reaches a terminal state or the time budget is spent),
      - the schema service of the same file ([aepFetch], the list requests,
        [extractUnionSchemaForAI] and [extractProperties]),
      - the [GET /profiles/lookup] route handler and the route wrapper, and
      - the callers in the frontend ([handleSend] of the panel, [fetchAPI]),
    followed by the properties proved about them.

    JavaScript values are modelled by [Json]; effectful code runs in a
    state-and-exception monad [M] over the module-level [chatHistory], the
    outside world and a ghost log of the calls made to the collaborators. *)

From Stdlib Require Import List String Ascii ZArith Lia Bool PeanoNat DecimalString.
Import ListNotations.

Set Implicit Arguments.
Set Warnings "-register-all".

Local Open Scope string_scope.

(* ===================================================================== *)
(** * JavaScript values *)
(* ===================================================================== *)

(** What the source leaves to the JavaScript number type: doubles are kept
    abstract, with the conversions the code relies on. *)
Class JsNumber : Type := {
  Num : Type;
  num_of_Z : Z -> Num;
  (** [String(n)] *)
  num_to_string : Num -> string;
  (** [!!n]: false for [0], [-0] and [NaN] *)
  num_truthy : Num -> bool;
  (** [n === 0] *)
  num_is_zero : Num -> bool;
  num_is_zero_of_Z : forall z, num_is_zero (num_of_Z z) = Z.eqb z 0
}.

Section Values.
Context {JN : JsNumber}.

(** A JavaScript value as the orchestrator sees it: parsed JSON plus
    [undefined].  [JObject] lists the own enumerable properties in
    [Object.keys] order; keys are distinct.  Strings hold the UTF-8 bytes
    of the JavaScript string. *)
Inductive Json : Type :=
| JUndefined
| JNull
| JBool (b : bool)
| JNum (n : Num)
| JString (s : string)
| JArray (items : list Json)
| JObject (fields : list (string * Json)).

(** The value of a thrown exception, seen through its [message] property,
    the only part of it the source reads. *)
Record JsError : Type := mkError { err_message : Json }.

Inductive Outcome (A : Type) : Type :=
| Ok (a : A)
| Throw (e : JsError).
Arguments Ok {A} a.
Arguments Throw {A} e.

Definition nl : string := String (ascii_of_nat 10) EmptyString.
Definition dquote : string := String (ascii_of_nat 34) EmptyString.

Definition string_of_nat (n : nat) : string :=
  NilEmpty.string_of_uint (Nat.to_uint n).

Fixpoint join (sep : string) (l : list string) : string :=
  match l with
  | [] => ""
  | [x] => x
  | x :: rest => x ++ sep ++ join sep rest
  end.

(** [!!v] *)
Definition truthy (v : Json) : bool :=
  match v with
  | JUndefined | JNull => false
  | JBool b => b
  | JNum n => num_truthy n
  | JString s => negb (String.eqb s "")
  | JArray _ | JObject _ => true
  end.

(** [a || b] *)
Definition js_or (a b : Json) : Json := if truthy a then a else b.

(** [typeof v !== 'object'] *)
Definition not_typeof_object (v : Json) : bool :=
  match v with
  | JNull | JArray _ | JObject _ => false
  | _ => true
  end.

(** [v === 0] *)
Definition strict_is_zero (v : Json) : bool :=
  match v with
  | JNum n => num_is_zero n
  | _ => false
  end.

(** [String(v)], as in a template literal [`${v}`]. *)
Fixpoint toStr (v : Json) : string :=
  match v with
  | JUndefined => "undefined"
  | JNull => "null"
  | JBool true => "true"
  | JBool false => "false"
  | JNum n => num_to_string n
  | JString s => s
  | JArray items =>
      join "," (map (fun x => match x with
                              | JUndefined | JNull => ""
                              | _ => toStr x
                              end) items)
  | JObject _ => "[object Object]"
  end.

Fixpoint lookup (k : string) (fields : list (string * Json)) : Json :=
  match fields with
  | [] => JUndefined
  | (k', v) :: rest => if String.eqb k k' then v else lookup k rest
  end.

(** [{...o, k: v}]: an existing key keeps its place, a new one goes last. *)
Fixpoint set_field (k : string) (v : Json) (fields : list (string * Json))
  : list (string * Json) :=
  match fields with
  | [] => [(k, v)]
  | (k', v') :: rest =>
      if String.eqb k k' then (k, v) :: rest
      else (k', v') :: set_field k v rest
  end.

End Values.

Arguments Ok {JN A} a.
Arguments Throw {JN A} e.

(** What else the source leaves to the host: UTF-16 string primitives,
    dates, [JSON.stringify] and the text of the engine's own errors. *)
Class JsHost {JN : JsNumber} : Type := {
  (** [s.length] *)
  str_length : string -> nat;
  (** [s.substring(from, to)] *)
  str_substring : nat -> nat -> string -> string;
  (** [new Date(v).toLocaleString()] *)
  date_locale_string : Json -> string;
  (** [JSON.stringify(v, null, 2)]; [None] stands for [undefined] *)
  json_stringify : Json -> option string;
  (** the [message] of the [TypeError] raised at the named expression *)
  type_error_text : string -> string
}.

(* ===================================================================== *)
(** * Regular expressions of the fallback matcher *)
(* ===================================================================== *)

(** [RegExp.prototype.test] only reports whether some substring matches, so
    the patterns are given their language semantics and decided with
    Brzozowski derivatives over the bytes of the message. *)
Inductive Regex : Type :=
| REmpty
| REps
| RChar (p : ascii -> bool)
| RCat (r1 r2 : Regex)
| RAlt (r1 r2 : Regex)
| RStar (r : Regex).

Fixpoint nullable (r : Regex) : bool :=
  match r with
  | REmpty => false
  | REps => true
  | RChar _ => false
  | RCat r1 r2 => nullable r1 && nullable r2
  | RAlt r1 r2 => nullable r1 || nullable r2
  | RStar _ => true
  end.

Definition rcat (r1 r2 : Regex) : Regex :=
  match r1, r2 with
  | REmpty, _ => REmpty
  | _, REmpty => REmpty
  | REps, _ => r2
  | _, _ => RCat r1 r2
  end.

Definition ralt (r1 r2 : Regex) : Regex :=
  match r1, r2 with
  | REmpty, _ => r2
  | _, REmpty => r1
  | _, _ => RAlt r1 r2
  end.

Fixpoint deriv (c : ascii) (r : Regex) : Regex :=
  match r with
  | REmpty => REmpty
  | REps => REmpty
  | RChar p => if p c then REps else REmpty
  | RCat r1 r2 =>
      if nullable r1
      then ralt (rcat (deriv c r1) r2) (deriv c r2)
      else rcat (deriv c r1) r2
  | RAlt r1 r2 => ralt (deriv c r1) (deriv c r2)
  | RStar r1 => rcat (deriv c r1) (RStar r1)
  end.

Fixpoint matches (r : Regex) (s : string) : bool :=
  match s with
  | EmptyString => nullable r
  | String c rest => matches (deriv c r) rest
  end.

(** ASCII case folding: with the [i] flag and no [u] flag a pattern letter
    matches exactly its two ASCII cases. *)
Definition lower (c : ascii) : ascii :=
  let n := nat_of_ascii c in
  if ((65 <=? n) && (n <=? 90))%nat then ascii_of_nat (n + 32) else c.

Definition byte_is (n : nat) (c : ascii) : bool := (nat_of_ascii c =? n)%nat.

(** A pattern character under the [i] flag. *)
Definition ci (c : ascii) : Regex :=
  RChar (fun x => Ascii.eqb (lower x) (lower c)).

(** A literal word under the [i] flag. *)
Fixpoint lit (s : string) : Regex :=
  match s with
  | EmptyString => REps
  | String c rest => RCat (ci c) (lit rest)
  end.

(** [.]: any character but a line terminator (LF, CR, U+2028, U+2029; the
    last two are [E2 80 A8] and [E2 80 A9] in UTF-8). *)
Definition dot : Regex :=
  RAlt (RChar (fun c => negb (byte_is 10 c || byte_is 13 c || byte_is 226 c)))
       (RCat (RChar (byte_is 226))
             (RAlt (RChar (fun c => negb (byte_is 128 c || byte_is 10 c
                                          || byte_is 13 c || byte_is 226 c)))
                   (RCat (RChar (byte_is 128))
                         (RChar (fun c => negb (byte_is 168 c || byte_is 169 c
                                                || byte_is 10 c || byte_is 13 c
                                                || byte_is 226 c)))))).

Definition any_star : Regex := RStar (RChar (fun _ => true)).

Fixpoint alts (l : list string) : Regex :=
  match l with
  | [] => REmpty
  | [w] => lit w
  | w :: rest => RAlt (lit w) (alts rest)
  end.

(** [/(a1|a2|..).*(b1|b2|..)/i] *)
Definition then_re (first second : Regex) : Regex :=
  RCat first (RCat (RStar dot) second).

(** [re.test(message)] for a pattern without the [g] flag. *)
Definition test (re : Regex) (message : string) : bool :=
  matches (RCat any_star (RCat re any_star)) message.

(* ===================================================================== *)
(** * Template formatter and action descriptions (pure part) *)
(* ===================================================================== *)

Section Formatting.
Context {JN : JsNumber} {JH : JsHost}.

Definition obind {A B : Type} (o : Outcome A) (f : A -> Outcome B) : Outcome B :=
  match o with
  | Ok a => f a
  | Throw e => Throw e
  end.

Notation "x <~ c1 ;; c2" := (obind c1 (fun x => c2))
  (at level 100, c1 at next level, right associativity).

Definition type_error (what : string) : JsError :=
  mkError (JString (type_error_text what)).

Definition num (z : Z) : Json := JNum (num_of_Z z).

(** [v.k], for a key that is no index, [length] or built-in member. *)
Definition get (v : Json) (k : string) : Outcome Json :=
  match v with
  | JUndefined | JNull => Throw (type_error k)
  | JObject fields => Ok (lookup k fields)
  | _ => Ok JUndefined
  end.

(** [v?.k], same keys. *)
Definition opt_get (v : Json) (k : string) : Json :=
  match v with
  | JObject fields => lookup k fields
  | _ => JUndefined
  end.

(** [v?.substring(0, n)]: only a string has the method. *)
Definition opt_substring (v : Json) (n : nat) : Outcome Json :=
  match v with
  | JUndefined | JNull => Ok JUndefined
  | JString s => Ok (JString (str_substring 0 n s))
  | _ => Throw (type_error "substring")
  end.

(** [v.length] of a value that is not nullish. *)
Definition length_of (v : Json) : Json :=
  match v with
  | JArray items => num (Z.of_nat (List.length items))
  | JString s => num (Z.of_nat (str_length s))
  | JObject fields => lookup "length" fields
  | _ => JUndefined
  end.

(** One line of the [forEach] over the first five failed batches. *)
Definition batch_line (i : nat) (b : Json) : Outcome string :=
  id <~ get b "id" ;;
  short <~ opt_substring id 12 ;;
  created <~ get b "created" ;;
  Ok (toStr (num (Z.of_nat i + 1)) ++ ". Batch `" ++ toStr short
      ++ "...` - Failed at " ++ date_locale_string created ++ nl).

Fixpoint batch_lines (i : nat) (bs : list Json) (msg : string) : Outcome string :=
  match bs with
  | [] => Ok msg
  | b :: rest =>
      line <~ batch_line i b ;;
      batch_lines (S i) rest (msg ++ line)
  end.

Definition format_failed_batches (data : Json) : Outcome string :=
  let batches := js_or (opt_get data "batches") (JArray []) in
  if strict_is_zero (length_of batches) then
    Ok ("✅ **Great news!** No failed batches found. Your ingestion is running smoothly!" ++ nl)
  else
    let msg := "📊 I found **" ++ toStr (length_of batches)
               ++ " failed batches** that need attention:" ++ nl ++ nl in
    match batches with
    | JArray items =>
        msg <~ batch_lines 0 (firstn 5 items) msg ;;
        if (5 <? List.length items)%nat then
          Ok (msg ++ nl ++ "...and " ++ toStr (num (Z.of_nat (List.length items) - 5))
              ++ " more. Would you like me to analyze any specific batch?" ++ nl)
        else Ok msg
    | _ => Throw (type_error "batches.slice(...).forEach")
    end.

Definition format_segment_stats (data : Json) : Outcome string :=
  let total := js_or (js_or (opt_get data "total") (opt_get data "totalSegments")) (num 0) in
  let published :=
    js_or (js_or (opt_get (opt_get data "byState") "published")
                 (opt_get data "published")) (num 0) in
  let draft :=
    js_or (js_or (opt_get (opt_get data "byState") "draft")
                 (opt_get data "draft")) (num 0) in
  Ok ("🎯 **Segment Overview:**" ++ nl
      ++ "• **" ++ toStr total ++ "** total segments in this sandbox" ++ nl
      ++ "• **" ++ toStr published ++ "** are published and active" ++ nl
      ++ "• **" ++ toStr draft ++ "** are in draft status" ++ nl ++ nl
      ++ "Would you like me to show specific segments or help create a new one?" ++ nl).

Definition format_batch_errors (data : Json) : Outcome string :=
  let totalErrors := js_or (opt_get data "totalErrors") (num 0) in
  let topError := opt_get data "topError" in
  if strict_is_zero totalErrors then
    Ok ("✅ No errors found in this batch." ++ nl)
  else
    short <~ opt_substring (opt_get data "batchId") 12 ;;
    let errMsg := "🔬 **Error Analysis for batch " ++ toStr short ++ "...**" ++ nl ++ nl in
    let errMsg := errMsg ++ "Found **" ++ toStr totalErrors ++ " errors** total." ++ nl ++ nl in
    if truthy topError then
      errorCode <~ get topError "errorCode" ;;
      percentage <~ get topError "percentage" ;;
      let errMsg := errMsg ++ "**Most common issue:** `" ++ toStr errorCode ++ "` ("
                    ++ toStr percentage ++ "% of errors)" ++ nl in
      Ok (errMsg ++ "This typically means: "
          ++ toStr (js_or (opt_get data "recommendation")
                          (JString "Check the source data format.")) ++ nl)
    else Ok errMsg.

Definition format_identity_graph (data : Json) : Outcome string :=
  let members := js_or (opt_get data "members") (JArray []) in
  let inputIdentity := opt_get data "inputIdentity" in
  short <~ opt_substring (opt_get inputIdentity "identity") 15 ;;
  let graphMsg := "🔗 **Identity Graph for " ++ toStr (opt_get inputIdentity "namespace")
                  ++ ":" ++ toStr short ++ "...**" ++ nl ++ nl in
  let graphMsg := graphMsg ++ "This identity is linked to **" ++ toStr (length_of members)
                  ++ " other identities**:" ++ nl in
  if truthy (opt_get data "isSharedDevice") then
    Ok (graphMsg ++ nl
        ++ "⚠️ **Warning:** Large cluster detected - this might be a shared device!" ++ nl)
  else Ok graphMsg.

Fixpoint indexed (i : nat) (items : list Json) : list (string * Json) :=
  match items with
  | [] => []
  | x :: rest => (string_of_nat i, x) :: indexed (S i) rest
  end.

(** The pairs [(key, data[key])] for [key] in [Object.keys(data)], when
    [typeof data === 'object' && data !== null]. *)
Definition own_entries (data : Json) : option (list (string * Json)) :=
  match data with
  | JObject fields => Some fields
  | JArray items => Some (indexed 0 items)
  | _ => None
  end.

(** One turn of the loop of the default case. *)
Definition summary_line (summary : string) (entry : string * Json) : string :=
  let (key, val) := entry in
  if not_typeof_object val
  then summary ++ "• " ++ key ++ ": " ++ toStr val ++ nl
  else summary.

Definition success_line (toolName : string) : string :=
  "✅ **" ++ toolName ++ "** completed successfully." ++ nl.

Definition summary_header (toolName : string) : string :=
  "📦 **" ++ toolName ++ " completed:**" ++ nl.

Definition format_default (toolName : string) (data : Json) : string :=
  match own_entries data with
  | Some entries =>
      if (List.length entries <=? 5)%nat then
        fold_left summary_line (firstn 5 entries) (summary_header toolName)
      else success_line toolName
  | None => success_line toolName
  end.

(** The tool names with a case of their own in [formatToolResult]. *)
Definition known_tool (toolName : string) : bool :=
  String.eqb toolName "get_failed_batches"
  || String.eqb toolName "get_segment_stats"
  || String.eqb toolName "analyze_batch_errors"
  || String.eqb toolName "get_identity_graph".

(** A top-level field that the default case prints, and its line. *)
Definition scalar_entry (entry : string * Json) : bool :=
  not_typeof_object (snd entry).

Definition concat_all (l : list string) : string := fold_right append "" l.

Definition render_entry (entry : string * Json) : string :=
  "• " ++ fst entry ++ ": " ++ toStr (snd entry) ++ nl.

(** [formatToolResult(toolName, data)] *)
Definition formatToolResult (toolName : string) (data : Json) : Outcome string :=
  if String.eqb toolName "get_failed_batches" then format_failed_batches data
  else if String.eqb toolName "get_segment_stats" then format_segment_stats data
  else if String.eqb toolName "analyze_batch_errors" then format_batch_errors data
  else if String.eqb toolName "get_identity_graph" then format_identity_graph data
  else Ok (format_default toolName data).

(** [getActionDescription(toolName, args)] *)
Definition getActionDescription (toolName : string) (args : Json) : Outcome string :=
  if String.eqb toolName "execute_sql_query" then
    sql <~ get args "sql" ;;
    short <~ opt_substring sql 100 ;;
    Ok ("Execute SQL query:" ++ nl ++ "```sql" ++ nl ++ toStr short ++ "..." ++ nl ++ "```")
  else if String.eqb toolName "generate_pql_from_description" then
    description <~ get args "description" ;;
    Ok ("Generate PQL segment expression for: " ++ dquote ++ toStr description ++ dquote)
  else if String.eqb toolName "generate_sql_from_intent" then
    intent <~ get args "intent" ;;
    Ok ("Generate SQL query for: " ++ dquote ++ toStr intent ++ dquote)
  else Ok ("Execute " ++ toolName).

(** An entry of the [patterns] table of [handleWithRules]. *)
Record Pattern : Type := mkPattern {
  pat_match : Regex;
  pat_tool : string;
  pat_args : Json
}.

Definition patterns : list Pattern :=
  [ mkPattern (then_re (alts ["failed"; "error"; "fail"]) (alts ["batch"; "ingestion"]))
              "get_failed_batches" (JObject [("limit", num 10)]);
    mkPattern (then_re (lit "batch") (alts ["stat"; "stats"; "statistic"]))
              "get_batch_stats" (JObject [("timeRange", JString "24h")]);
    mkPattern (then_re (lit "schema") (alts ["stat"; "stats"; "registry"]))
              "get_schema_stats" (JObject []);
    mkPattern (then_re (alts ["list"; "show"; "get"]) (alts ["dataset"; "data set"]))
              "list_datasets" (JObject [("limit", num 10)]);
    mkPattern (then_re (alts ["segment"; "audience"])
                       (alts ["stat"; "stats"; "count"; "how many"]))
              "get_segment_stats" (JObject []);
    mkPattern (then_re (alts ["list"; "show"; "get"]) (alts ["sandbox"; "environment"]))
              "list_sandboxes" (JObject []);
    mkPattern (then_re (lit "identity") (alts ["graph"; "link"]))
              "list_namespaces" (JObject []) ].

(** The first pattern whose regular expression matches the message. *)
Definition first_match (message : string) : option Pattern :=
  find (fun p => test (pat_match p) message) patterns.

Definition help_text : string :=
  "👋 I can help you with AEP! Try asking:" ++ nl ++ nl
  ++ "• " ++ dquote ++ "Show me failed batches" ++ dquote ++ nl
  ++ "• " ++ dquote ++ "How many segments are there?" ++ dquote ++ nl
  ++ "• " ++ dquote ++ "Analyze batch errors for [batch-id]" ++ dquote ++ nl
  ++ "• " ++ dquote ++ "Create a segment for users who purchased last week" ++ dquote ++ nl
  ++ "• " ++ dquote ++ "Generate SQL for top 10 orders by revenue" ++ dquote ++ nl.

End Formatting.

(* ===================================================================== *)
(** * Effects: state and exceptions *)
(* ===================================================================== *)

Section Effects.
Context {JN : JsNumber}.
Variable S : Type.

(** An [async] function over a state [S]: it resolves to a value or
    rejects with an error, and leaves a state behind either way. *)
Definition Eff (A : Type) : Type := S -> Outcome A * S.

Definition ret {A : Type} (a : A) : Eff A := fun s => (Ok a, s).

Definition throw {A : Type} (e : JsError) : Eff A := fun s => (Throw e, s).

Definition bind {A B : Type} (m : Eff A) (f : A -> Eff B) : Eff B :=
  fun s =>
    match m s with
    | (Ok a, s') => f a s'
    | (Throw e, s') => (Throw e, s')
    end.

(** [try { body } catch (error) { handler }] *)
Definition try_catch {A : Type} (body : Eff A) (handler : JsError -> Eff A) : Eff A :=
  fun s =>
    match body s with
    | (Ok a, s') => (Ok a, s')
    | (Throw e, s') => handler e s'
    end.

(** A synchronous computation that may throw. *)
Definition lift {A : Type} (o : Outcome A) : Eff A := fun s => (o, s).

End Effects.

Arguments ret {JN S A} a.
Arguments throw {JN S A} e.
Arguments bind {JN S A B} m f.
Arguments try_catch {JN S A} body handler.
Arguments lift {JN S A} o.

(* ===================================================================== *)
(** * Collaborators, state and the orchestrator *)
(* ===================================================================== *)

(** [{ name, arguments }], as returned by [llm.parseToolCalls]. *)
Record ToolCall {JN : JsNumber} : Type := mkCall {
  call_name : string;
  call_arguments : Json
}.

(** An entry of the [messages] array sent to the language model; the
    content of the last entry is the message of the turn, as it came. *)
Record LlmMessage {JN : JsNumber} : Type := mkMsg {
  msg_role : string;
  msg_content : Json
}.

(** The options object of [llm.chatCompletion]; the temperature is kept as
    a ratio (7/10 for [0.7]). *)
Record ChatOptions : Type := mkOptions {
  temperature : Z * Z;
  maxTokens : Z
}.

(** [tools/index.js], imported as [toolRegistry]; [W] is the outside world
    the executors act on. *)
Class ToolRegistry {JN : JsNumber} (W : Type) : Type := {
  getToolDefinitions : Json;
  requiresApproval : string -> bool;
  executeTool : string -> Json -> W -> Outcome Json * W
}.

(** [llm.service.js], imported as [llm]. *)
Class LlmService {JN : JsNumber} (W : Type) : Type := {
  LlmResponse : Type;
  isConfigured : W -> Outcome bool * W;
  chatCompletion :
    list LlmMessage -> option Json -> ChatOptions -> W -> Outcome LlmResponse * W;
  parseToolCalls : LlmResponse -> Outcome (option (list ToolCall));
  getContent : LlmResponse -> Outcome Json
}.

Section Agent.
Context {JN : JsNumber} {JH : JsHost}.
Context {W : Type} {TR : ToolRegistry W} {LLM : LlmService W}.

Notation "x <~ c1 ;; c2" := (obind c1 (fun x => c2))
  (at level 100, c1 at next level, right associativity).

(** An entry of the caller's [history]. *)
Record ChatMessage : Type := mkChat {
  role : string;
  content : string;
  timestamp : string
}.

(** The [approvedAction] of a request: the pending action echoed back. *)
Record ApprovedAction : Type := mkAction {
  toolName : string;
  toolArguments : Json
}.

(** The argument of [processMessage].  The route hands [req.body.message]
    over as it comes, so [message] is any value; a chat client sends a
    string. *)
Record TurnInput : Type := mkInput {
  message : Json;
  autoMode : bool;
  history : list ChatMessage;
  approvedAction : option ApprovedAction
}.

(** An element of [results]: [{ tool, data, args }] or [{ tool, error }]. *)
Inductive ToolResult : Type :=
| ResData (tool : string) (data : Json) (args : option Json)
| ResError (tool : string) (error : Json).

Definition res_tool (r : ToolResult) : string :=
  match r with
  | ResData t _ _ => t
  | ResError t _ => t
  end.

(** [r.data] *)
Definition res_data (r : ToolResult) : Json :=
  match r with
  | ResData _ d _ => d
  | ResError _ _ => JUndefined
  end.

(** [r.error] *)
Definition res_error (r : ToolResult) : Json :=
  match r with
  | ResData _ _ _ => JUndefined
  | ResError _ e => e
  end.

(** What [processMessage] resolves to: [{ content, data?, toolsUsed }] or
    [{ requiresApproval: true, toolName, toolArguments, actionDescription }]. *)
Inductive AgentResponse : Type :=
| Answer (content : Json) (data : option Json) (toolsUsed : list string)
| PendingApproval (toolName : string) (toolArguments : Json)
                  (actionDescription : string).

(** [response.content], [response.data], [response.toolsUsed]: [None] when
    the response has no such property. *)
Definition response_content (r : AgentResponse) : option Json :=
  match r with
  | Answer c _ _ => Some c
  | PendingApproval _ _ _ => None
  end.

Definition response_data (r : AgentResponse) : option Json :=
  match r with
  | Answer _ d _ => d
  | PendingApproval _ _ _ => None
  end.

Definition response_toolsUsed (r : AgentResponse) : option (list string) :=
  match r with
  | Answer _ _ t => Some t
  | PendingApproval _ _ _ => None
  end.

(** The module state ([let chatHistory]), the outside world, and a ghost
    log of the calls made: tools executed and prompts sent to the model. *)
Record State : Type := mkState {
  world : W;
  chatHistory : list ChatMessage;
  executed : list ToolCall;
  asked : list (list LlmMessage)
}.

Definition M (A : Type) : Type := Eff State A.

Notation "x <- c1 ;; c2" := (bind c1 (fun x => c2))
  (at level 100, c1 at next level, right associativity).

Definition with_world (s : State) (w : W) : State :=
  mkState w (chatHistory s) (executed s) (asked s).

(** [await toolRegistry.executeTool(name, args)] *)
Definition run_tool (name : string) (args : Json) : M Json :=
  fun s =>
    let (r, w) := executeTool name args (world s) in
    (r, mkState w (chatHistory s) (executed s ++ [mkCall name args]) (asked s)).

(** [llm.isConfigured()] *)
Definition llm_configured : M bool :=
  fun s => let (r, w) := isConfigured (world s) in (r, with_world s w).

(** [await llm.chatCompletion(messages, tools, options)] *)
Definition ask_llm (messages : list LlmMessage) (tools : option Json)
    (options : ChatOptions) : M LlmResponse :=
  fun s =>
    let (r, w) := chatCompletion messages tools options (world s) in
    (r, mkState w (chatHistory s) (executed s) (asked s ++ [messages])).

Definition SYSTEM_PROMPT : string :=
  "You are an expert AI assistant for Adobe Experience Platform (AEP). You help users explore, analyze, AND create/manage their AEP resources.

CAPABILITIES:
- Query and analyze batch ingestion status and errors
- Search, explore, and explain schemas
- Look up profiles by identity
- Execute SQL queries against AEP Data Lake
- View, debug, and CREATE segments/audiences
- Analyze identity graphs and detect issues
- Diagnose ingestion failures with root cause analysis
- Generate PQL expressions from natural language
- Generate SQL queries from natural language

AUTONOMOUS BEHAVIOR:
1. When asked to create something (segment, query, etc.), gather all needed info first
2. Search for relevant schemas, namespaces, and reference data
3. Build the proper payload/syntax
4. Explain what you're creating before doing it
5. If something fails, diagnose and suggest fixes

RESPONSE STYLE:
- NEVER show raw JSON to users - always summarize and explain
- Use natural language to explain data and results
- Highlight key insights, anomalies, or concerns
- Suggest next steps or related actions
- Use emojis sparingly for visual cues
- Format with markdown: bullets, bold, code blocks when helpful

GUIDELINES:
1. Be conversational and helpful
2. Summarize data in plain English with key metrics
3. When showing counts/stats, explain what they mean
4. If there are issues, explain the likely cause
5. Offer to dig deeper or take related actions
6. If creating something, explain the structure you'll use

RESTRICTIONS:
- You CANNOT delete any resources
- Write operations require user approval (unless auto-mode)

Remember: You are an expert. Explain things like a helpful colleague, not a machine.".

(** [formatResultsBasic]: the loop, then the object it returns. *)
Fixpoint format_results (results : list ToolResult) (content : string) (data : Json)
  : Outcome (string * Json) :=
  match results with
  | [] => Ok (content, data)
  | result :: rest =>
      if truthy (res_error result) then
        format_results rest
          (content ++ "⚠️ " ++ res_tool result ++ " failed: "
           ++ toStr (res_error result) ++ nl ++ nl) data
      else
        text <~ formatToolResult (res_tool result) (res_data result) ;;
        format_results rest (content ++ text) (res_data result)
  end.

Definition formatResultsBasic (results : list ToolResult) (toolsUsed : list string)
  : Outcome AgentResponse :=
  cd <~ format_results results "" JNull ;;
  Ok (Answer (JString (fst cd)) (Some (snd cd)) toolsUsed).

(** The body of the loop that builds [resultContext]. *)
Definition result_context_step (resultContext : string) (result : ToolResult)
  : Outcome string :=
  if truthy (res_error result) then
    Ok (resultContext ++ nl ++ "Tool " ++ res_tool result ++ " failed: "
        ++ toStr (res_error result) ++ nl)
  else
    match json_stringify (res_data result) with
    | None => Throw (type_error "dataStr.length")
    | Some dataStr =>
        let truncated :=
          if (3000 <? str_length dataStr)%nat
          then str_substring 0 3000 dataStr ++ "..."
          else dataStr in
        Ok (resultContext ++ nl ++ "=== " ++ res_tool result ++ " Result ===" ++ nl
            ++ truncated ++ nl)
    end.

Fixpoint result_context (results : list ToolResult) (resultContext : string)
  : Outcome string :=
  match results with
  | [] => Ok resultContext
  | result :: rest =>
      ctx <~ result_context_step resultContext result ;;
      result_context rest ctx
  end.

Definition summaryMessages (originalMessage : Json) (resultContext : string)
  : list LlmMessage :=
  [ mkMsg "system"
      (JString "You are an expert at explaining Adobe Experience Platform data. Summarize tool results in clear, natural language. Never show raw JSON. Focus on key insights and actionable information. Be conversational but concise. Use markdown formatting.");
    mkMsg "user"
      (JString
         ("The user asked: " ++ dquote ++ toStr originalMessage ++ dquote ++ nl ++ nl
          ++ "The following tools were called and returned data:" ++ nl ++ nl
          ++ resultContext ++ nl ++ nl
          ++ "Provide a helpful, natural language response that answers the user's question. Highlight key metrics, any issues found, and suggest next steps if relevant. Do NOT show raw JSON - explain the data in plain English.")) ].

(** [results.length === 1 ? results[0].data : results.map(r => r.data)] *)
Definition summary_data (results : list ToolResult) : Json :=
  match results with
  | [r] => res_data r
  | _ => JArray (map res_data results)
  end.

(** [summarizeResultsWithLLM(results, toolsUsed, originalMessage)] *)
Definition summarizeResultsWithLLM (results : list ToolResult)
    (toolsUsed : list string) (originalMessage : Json) : M AgentResponse :=
  configured <- llm_configured ;;
  if negb configured then lift (formatResultsBasic results toolsUsed)
  else
    try_catch
      (resultContext <- lift (result_context results "") ;;
       summaryResponse <- ask_llm (summaryMessages originalMessage resultContext) None
                                  (mkOptions (5, 10)%Z 1024%Z) ;;
       summary <- lift (getContent summaryResponse) ;;
       content <- (if truthy summary then ret summary
                   else basic <- lift (formatResultsBasic results toolsUsed) ;;
                        ret (match response_content basic with
                             | Some c => c
                             | None => JUndefined
                             end)) ;;
       ret (Answer content (Some (summary_data results)) toolsUsed))
      (fun error => lift (formatResultsBasic results toolsUsed)).

(** The [for ... of] loop of [handleToolCalls], with its [break]: the scan
    returns [results], [toolsUsed] and [pendingTool]. *)
Fixpoint scan_tool_calls (toolCalls : list ToolCall) (autoMode : bool)
    (results : list ToolResult) (toolsUsed : list string)
  : M (list ToolResult * list string * option ToolCall) :=
  match toolCalls with
  | [] => ret (results, toolsUsed, None)
  | call :: rest =>
      let toolsUsed := (toolsUsed ++ [call_name call])%list in
      if requiresApproval (call_name call) && negb autoMode then
        ret (results, toolsUsed, Some call)
      else
        r <- try_catch
               (result <- run_tool (call_name call) (call_arguments call) ;;
                ret (ResData (call_name call) result (Some (call_arguments call))))
               (fun error => ret (ResError (call_name call) (err_message error))) ;;
        scan_tool_calls rest autoMode (results ++ [r]) toolsUsed
  end.

(** [handleToolCalls(toolCalls, autoMode, originalMessage)] *)
Definition handleToolCalls (toolCalls : list ToolCall) (autoMode : bool)
    (originalMessage : Json) : M AgentResponse :=
  scanned <- scan_tool_calls toolCalls autoMode [] [] ;;
  match scanned with
  | (_, _, Some pendingTool) =>
      description <- lift (getActionDescription (call_name pendingTool)
                                                (call_arguments pendingTool)) ;;
      ret (PendingApproval (call_name pendingTool) (call_arguments pendingTool)
                           description)
  | (results, toolsUsed, None) =>
      summarizeResultsWithLLM results toolsUsed originalMessage
  end.

(** [executeApprovedAction(action)].  The tool runs inside the [try]; the
    summarizer is returned without [await], so what it throws is outside. *)
Definition executeApprovedAction (action : ApprovedAction) : M AgentResponse :=
  r <- try_catch
         (result <- run_tool (toolName action) (toolArguments action) ;;
          ret (inl result))
         (fun error =>
            ret (inr (Answer (JString ("❌ Error executing " ++ toolName action ++ ": "
                                       ++ toStr (err_message error)))
                             None [toolName action]))) ;;
  match r with
  | inl result =>
      summarizeResultsWithLLM [ResData (toolName action) result None]
                              [toolName action]
                              (JString ("Execute " ++ toolName action))
  | inr response => ret response
  end.

(** The loop of [handleWithRules] over a pattern table; [message] is the
    text that [pattern.match.test(message)] reads. *)
Fixpoint rules_loop (ps : list Pattern) (message : string) : M AgentResponse :=
  match ps with
  | [] => ret (Answer (JString help_text) None [])
  | pattern :: rest =>
      if test (pat_match pattern) message then
        try_catch
          (data <- run_tool (pat_tool pattern) (pat_args pattern) ;;
           text <- lift (formatToolResult (pat_tool pattern) data) ;;
           ret (Answer (JString text) (Some data) [pat_tool pattern]))
          (fun error =>
             ret (Answer (JString ("❌ Error: " ++ toStr (err_message error)))
                         None [pat_tool pattern]))
      else rules_loop rest message
  end.

(** [message.toLowerCase()], the first statement of [handleWithRules]: a
    TypeError unless [message] is a string.  Its value, [lowerMsg], is not
    used: the patterns are tested on [message] itself. *)
Definition toLowerCase (message : Json) : Outcome unit :=
  match message with
  | JString _ => Ok tt
  | _ => Throw (type_error "toLowerCase")
  end.

(** [handleWithRules(message)] *)
Definition handleWithRules (message : Json) : M AgentResponse :=
  _ <- lift (toLowerCase message) ;;
  rules_loop patterns (toStr message).

(** [history.slice(-n)] *)
Definition slice_last {A : Type} (n : nat) (l : list A) : list A :=
  skipn (List.length l - n) l.

(** The [messages] array built by [processMessage]. *)
Definition build_messages (stored : list ChatMessage) (message : Json)
  : list LlmMessage :=
  (mkMsg "system" (JString SYSTEM_PROMPT)
   :: map (fun m => mkMsg (role m) (JString (content m))) stored
   ++ [mkMsg "user" message])%list.

(** How the [try] block of [processMessage] ends: with a response of its
    own, or by returning, without [await], the promise of one of the two
    handlers, whose failures the [catch] therefore does not see. *)
Inductive Step : Type :=
| Respond (response : AgentResponse)
| ToRules
| ToToolCalls (toolCalls : list ToolCall).

(** [chatHistory = h] *)
Definition remember (h : list ChatMessage) : M unit :=
  fun s => (Ok tt, mkState (world s) h (executed s) (asked s)).

(** [getHistory()], also the plain read of [chatHistory]. *)
Definition getHistory : M (list ChatMessage) :=
  fun s => (Ok (chatHistory s), s).

(** [clearHistory()] *)
Definition clearHistory : M unit := remember [].

(** The body of the [try] block of [processMessage]. *)
Definition consult_model (messages : list LlmMessage) (tools : Json) : M Step :=
  configured <- llm_configured ;;
  if negb configured then ret ToRules
  else
    response <- ask_llm messages (Some tools) (mkOptions (7, 10)%Z 4096%Z) ;;
    toolCalls <- lift (parseToolCalls response) ;;
    match toolCalls with
    | Some (call :: rest) => ret (ToToolCalls (call :: rest))
    | _ =>
        text <- lift (getContent response) ;;
        ret (Respond (Answer text None []))
    end.

(** [processMessage({ message, autoMode, history, approvedAction })] *)
Definition processMessage (input : TurnInput) : M AgentResponse :=
  match approvedAction input with
  | Some action => executeApprovedAction action
  | None =>
      _ <- remember (slice_last 20 (history input)) ;;
      stored <- getHistory ;;
      let messages := build_messages stored (message input) in
      let tools := getToolDefinitions in
      step <- try_catch (consult_model messages tools)
                (fun error =>
                   if truthy (err_message error) then ret ToRules
                   else throw error) ;;
      match step with
      | Respond response => ret response
      | ToRules => handleWithRules (message input)
      | ToToolCalls toolCalls =>
          handleToolCalls toolCalls (autoMode input) (message input)
      end
  end.

(** The approval gate: the test made on each call of the scan. *)
Definition needsApproval (name : string) (autoMode : bool) : bool :=
  requiresApproval name && negb autoMode.

(** [data] as [formatResultsBasic] leaves it: that of the last result
    without an error, [null] when there is none. *)
Definition last_data (results : list ToolResult) : Json :=
  fold_left (fun data r => if truthy (res_error r) then data else res_data r)
            results JNull.

(** A computation that leaves a component [f] of the state as it found it. *)
Definition keeps {X A : Type} (f : State -> X) (m : M A) : Prop :=
  forall s, f (snd (m s)) = f s.

(** One turn of the scan on a call that passes the gate: the tool runs
    once and its outcome, data or error, becomes a result. *)
Definition scan_one (call : ToolCall) : M ToolResult :=
  try_catch
    (bind (run_tool (call_name call) (call_arguments call))
          (fun result => ret (ResData (call_name call) result
                                      (Some (call_arguments call)))))
    (fun error => ret (ResError (call_name call) (err_message error))).

(** What follows the assignment to [chatHistory] in [processMessage]. *)
Definition after_remember (input : TurnInput) : M AgentResponse :=
  bind getHistory (fun stored =>
    bind (try_catch (consult_model (build_messages stored (message input))
                                   getToolDefinitions)
            (fun error => if truthy (err_message error) then ret ToRules
                          else throw error))
         (fun step =>
            match step with
            | Respond response => ret response
            | ToRules => handleWithRules (message input)
            | ToToolCalls toolCalls =>
                handleToolCalls toolCalls (autoMode input) (message input)
            end)).

(** The state with another stored history. *)
Definition with_history (h : list ChatMessage) (s : State) : State :=
  mkState (world s) h (executed s) (asked s).

(** A computation that does not read the stored history: run from a state
    with another history, it does the same and leaves that history. *)
Definition blind {A : Type} (m : M A) : Prop :=
  forall h s, m (with_history h s) = (fst (m s), with_history h (snd (m s))).

(** A computation that only adds prompts satisfying [P] to those sent to
    the model. *)
Definition grows {A : Type} (P : list LlmMessage -> Prop) (m : M A) : Prop :=
  forall s, exists extra,
    asked (snd (m s)) = (asked s ++ extra)%list /\ Forall P extra.

(** The model contexts a turn may build: the conversation, from a stored
    history [h], or a summary request, which holds no history. *)
Definition turn_prompt (h : list ChatMessage) (message : Json)
    (prompt : list LlmMessage) : Prop :=
  prompt = build_messages h message
  \/ exists originalMessage resultContext,
       prompt = summaryMessages originalMessage resultContext.

End Agent.

Arguments State {JN} W.
Arguments M {JN} W A.
Arguments blind {JN W A} m.
Arguments keeps {JN W X A} f m.
Arguments grows {JN W A} P m.
Arguments with_history {JN W} h s.

(* ===================================================================== *)
(** * The [POST /queries] handler: submit, then poll *)
(* ===================================================================== *)

(** [query.service.js], imported as [queryService]. *)
Class QueryService {JN : JsNumber} (W : Type) : Type := {
  createQuery : Json -> W -> Outcome Json * W;
  getQueryDetails : Json -> W -> Outcome Json * W
}.

(** The wall clock of the world, in milliseconds, and the timer. *)
Class Runtime (W : Type) : Type := {
  (** [Date.now()] *)
  now : W -> Z;
  (** [await new Promise(r => setTimeout(r, ms))] *)
  sleep : Z -> W -> W
}.

Section Poller.
Context {JN : JsNumber} {JH : JsHost}.
Context {W : Type} {QS : QueryService W} {RT : Runtime W}.

Notation "x <- c1 ;; c2" := (bind c1 (fun x => c2))
  (at level 100, c1 at next level, right associativity).

(** [req.body] *)
Record QueryBody : Type := mkBody {
  body_sql : Json;
  body_name : Json;
  body_description : Json
}.

(** What the handler sends: [res.status(code).json(body)]. *)
Record HttpResponse : Type := mkHttp {
  http_status : nat;
  http_body : Json
}.

Inductive PollEvent : Type :=
| Submitted (queryData : Json)
| Slept (ms : Z)
| Fetched (id : Json).

(** The world and a ghost trace of the calls the handler made. *)
Record PollState : Type := mkPoll {
  poll_world : W;
  trace : list PollEvent
}.

Definition date_now : Eff PollState Z :=
  fun s => (Ok (now (poll_world s)), s).

(** [await queryService.createQuery(queryData)] *)
Definition submit (queryData : Json) : Eff PollState Json :=
  fun s =>
    let (r, w) := createQuery queryData (poll_world s) in
    (r, mkPoll w (trace s ++ [Submitted queryData])).

(** [await new Promise(r => setTimeout(r, ms))] *)
Definition wait (ms : Z) : Eff PollState unit :=
  fun s => (Ok tt, mkPoll (sleep ms (poll_world s)) (trace s ++ [Slept ms])).

(** [await queryService.getQueryDetails(id)] *)
Definition fetch (id : Json) : Eff PollState Json :=
  fun s =>
    let (r, w) := getQueryDetails id (poll_world s) in
    (r, mkPoll w (trace s ++ [Fetched id])).

Definition timeout : Z := 30000.
Definition pollInterval : Z := 2000.

(** [['SUBMITTED', 'IN_PROGRESS', 'PENDING'].includes(state)] *)
Definition non_terminal (state : Json) : bool :=
  match state with
  | JString s =>
      String.eqb s "SUBMITTED" || String.eqb s "IN_PROGRESS" || String.eqb s "PENDING"
  | _ => false
  end.

(** [{ ...result, message: '...', polling: true }] *)
Definition still_running (result : Json) : Json :=
  let fields := match result with
                | JObject fields => fields
                | JArray items => indexed 0 items
                | _ => []
                end in
  JObject (set_field "polling" (JBool true)
             (set_field "message" (JString "Query is still running. Check back later.")
                        fields)).

(** The [while] loop; [None] when [fuel] turns of the loop were not enough
    to leave it. *)
Fixpoint poll (fuel : nat) (startTime : Z) (result : Json)
  : Eff PollState (option HttpResponse) :=
  match fuel with
  | O => ret None
  | S fuel' =>
      state <- lift (get result "state") ;;
      if non_terminal state then
        t <- date_now ;;
        if (t - startTime >? timeout)%Z then
          ret (Some (mkHttp 200 (still_running result)))
        else
          _ <- wait pollInterval ;;
          id <- lift (get result "id") ;;
          result' <- fetch id ;;
          poll fuel' startTime result'
      else ret (Some (mkHttp 200 result))
  end.

(** The [queryData] object; [t] is [Date.now()], read for a default name. *)
Definition query_data (body : QueryBody) (t : Z) : Json :=
  JObject [ ("dbName", JString "prod:all");
            ("sql", body_sql body);
            ("name", js_or (body_name body) (JString ("Query_" ++ toStr (num t))));
            ("description", js_or (body_description body)
                                  (JString "Executed from AEP Monitor")) ].

(** The handler of [router.post('/queries', ...)]. *)
Definition post_queries (fuel : nat) (body : QueryBody)
  : Eff PollState (option HttpResponse) :=
  if negb (truthy (body_sql body)) then
    ret (Some (mkHttp 400 (JObject [("error", JString "SQL query is required")])))
  else
    t <- date_now ;;
    createdQuery <- submit (query_data body t) ;;
    startTime <- date_now ;;
    poll fuel startTime createdQuery.

(** A job the loop goes on polling: its [state] is one of the three. *)
Definition running (job : Json) : bool :=
  match get job "state" with
  | Ok state => non_terminal state
  | Throw _ => false
  end.

(** How many times an event of each kind occurs in a trace. *)
Definition is_submit (e : PollEvent) : bool :=
  match e with Submitted _ => true | _ => false end.

Definition is_sleep (e : PollEvent) : bool :=
  match e with Slept _ => true | _ => false end.

Definition submits (tr : list PollEvent) : nat := List.length (filter is_submit tr).
Definition sleeps (tr : list PollEvent) : nat := List.length (filter is_sleep tr).

End Poller.

Arguments PollState {JN} W.

(* ===================================================================== *)
(** * Vocabulary for further properties *)
(* ===================================================================== *)

Section MoreVocabulary.
Context {JN : JsNumber} {JH : JsHost}.

(** [v === undefined || v === null] *)
Definition nullish (v : Json) : bool :=
  match v with
  | JUndefined | JNull => true
  | _ => false
  end.

(** [typeof v === 'string'] *)
Definition is_string (v : Json) : bool :=
  match v with
  | JString _ => true
  | _ => false
  end.

(** The tool names with a case of their own in [getActionDescription]. *)
Definition described_tool (toolName : string) : bool :=
  String.eqb toolName "execute_sql_query"
  || String.eqb toolName "generate_pql_from_description"
  || String.eqb toolName "generate_sql_from_intent".

(** A batch that the [forEach] of the failed-batches case can print: not
    nullish, with an [id] that is a string or nullish. *)
Definition printable_batch (b : Json) : bool :=
  negb (nullish b) && (is_string (opt_get b "id") || nullish (opt_get b "id")).

End MoreVocabulary.

Section MoreAgentVocabulary.
Context {JN : JsNumber} {JH : JsHost}.
Context {W : Type} {TR : ToolRegistry W} {LLM : LlmService W}.

(** What [formatResultsBasic] adds to [content] for a failed result. *)
Definition warning_line (r : ToolResult) : string :=
  "⚠️ " ++ res_tool r ++ " failed: " ++ toStr (res_error r) ++ nl ++ nl.

(** What [formatResultsBasic] writes for one result. *)
Definition rendered (r : ToolResult) (text : string) : Prop :=
  if truthy (res_error r) then text = warning_line r
  else formatToolResult (res_tool r) (res_data r) = Ok text.

(** The state after [await toolRegistry.executeTool(name, args)] left the
    world [w]. *)
Definition after_tool (s : State W) (name : string) (args : Json) (w : W) : State W :=
  mkState w (chatHistory s) (executed s ++ [mkCall name args])%list (asked s).

(** The [catch] line of [handleWithRules]. *)
Definition rule_error (tool : string) (e : JsError) : AgentResponse :=
  Answer (JString ("❌ Error: " ++ toStr (err_message e))) None [tool].

End MoreAgentVocabulary.

Section MorePollerVocabulary.
Context {JN : JsNumber} {JH : JsHost}.
Context {W : Type} {QS : QueryService W} {RT : Runtime W}.

(** The wrapper of every route: what the handler threw is answered with
    status 500 and its message. *)
Definition asyncHandler {S : Type} (fn : Eff S (option HttpResponse))
  : S -> option HttpResponse * S :=
  fun s =>
    match fn s with
    | (Ok sent, s') => (sent, s')
    | (Throw err, s') =>
        (Some (mkHttp 500 (JObject [("error", err_message err)])), s')
    end.

(** The trace of the rounds of the loop that fetched with these ids. *)
Definition rounds (ids : list Json) : list PollEvent :=
  flat_map (fun id => [Slept pollInterval; Fetched id]) ids.

(** A job in a terminal state. *)
Definition terminal (job : Json) : bool :=
  match get job "state" with
  | Ok state => negb (non_terminal state)
  | Throw _ => false
  end.

(** The course of a job that ends: from the world [w], where it is [job],
    each status fetch made in time, after a sleep and with the id of the
    job as last seen, reports it running, until one reports it in a
    terminal state; [ids] are the ids fetched with. *)
Inductive ends_after (startTime : Z) : W -> Json -> list Json -> W -> Json -> Prop :=
| ends_now (w : W) (job : Json) :
    terminal job = true ->
    ends_after startTime w job [] w job
| ends_later (w w' wf : W) (job id job' jf : Json) (ids : list Json) :
    running job = true ->
    (now w - startTime <= timeout)%Z ->
    get job "id" = Ok id ->
    getQueryDetails id (sleep pollInterval w) = (Ok job', w') ->
    ends_after startTime w' job' ids wf jf ->
    ends_after startTime w job (id :: ids) wf jf.

(** The course of a job whose status cannot be had in the end: from the
    world [w], where it is [job], each status fetch made in time, after a
    sleep and with the id of the job as last seen, reports it running,
    until one throws [e]; [ids] are the ids fetched with, that of the
    failing fetch last. *)
Inductive fails_after (startTime : Z) : W -> Json -> list Json -> W -> JsError -> Prop :=
| fails_now (w wf : W) (job id : Json) (e : JsError) :
    running job = true ->
    (now w - startTime <= timeout)%Z ->
    get job "id" = Ok id ->
    getQueryDetails id (sleep pollInterval w) = (Throw e, wf) ->
    fails_after startTime w job [id] wf e
| fails_later (w w' wf : W) (job id job' : Json) (ids : list Json) (e : JsError) :
    running job = true ->
    (now w - startTime <= timeout)%Z ->
    get job "id" = Ok id ->
    getQueryDetails id (sleep pollInterval w) = (Ok job', w') ->
    fails_after startTime w' job' ids wf e ->
    fails_after startTime w job (id :: ids) wf e.

End MorePollerVocabulary.

(** The code units of a string, each as a string of its own: what
    [Object.entries] and indexing see of a string. *)
Class JsText : Type := {
  str_units : string -> list string;
  (** the code points, which [for ... of] goes through *)
  str_points : string -> list string
}.

Section SchemaExtraction.
Context {JN : JsNumber} {JH : JsHost} {JT : JsText}.

Notation "x <~ c1 ;; c2" := (obind c1 (fun x => c2))
  (at level 100, c1 at next level, right associativity).

(** [Object.entries(v)] *)
Definition entries_of (v : Json) : Outcome (list (string * Json)) :=
  match v with
  | JUndefined | JNull => Throw (type_error "Object.entries")
  | JObject fields => Ok fields
  | JArray items => Ok (indexed 0 items)
  | JString s => Ok (indexed 0 (map JString (str_units s)))
  | JBool _ | JNum _ => Ok []
  end.

(** [extracted[key] = entry] on a plain object: the key [__proto__] sets
    the prototype and adds no property of its own. *)
Definition assign (key : string) (entry : Json) (extracted : list (string * Json))
  : list (string * Json) :=
  if String.eqb key "__proto__" then extracted else set_field key entry extracted.

(** What the body of the loop of [extractProperties] makes of one value;
    [recur] is the call for the nested properties. *)
Definition extract_entry (recur : Json -> Outcome Json) (value : Json) : Outcome Json :=
  type <~ get value "type" ;;
  title <~ get value "title" ;;
  description <~ get value "description" ;;
  let entry := [("type", type); ("title", title); ("description", description)] in
  properties <~ get value "properties" ;;
  entry <~ (if truthy properties
            then nested <~ recur properties ;;
                 Ok (entry ++ [("properties", nested)])%list
            else Ok entry) ;;
  items <~ get value "items" ;;
  entry <~ (if truthy items
            then itemType <~ get items "type" ;;
                 Ok (entry ++ [("items", js_or itemType (JString "object"))])%list
            else Ok entry) ;;
  Ok (JObject entry).

Fixpoint extract_loop (recur : Json -> Outcome Json) (entries : list (string * Json))
    (extracted : list (string * Json)) : Outcome (list (string * Json)) :=
  match entries with
  | [] => Ok extracted
  | (key, value) :: rest =>
      entry <~ extract_entry recur value ;;
      extract_loop recur rest (assign key entry extracted)
  end.

(** [extractProperties] with [budget] levels left before [depth > 5]. *)
Fixpoint extract (budget : nat) (properties : Json) : Outcome Json :=
  match budget with
  | O => Ok (JObject [])
  | S budget' =>
      entries <~ entries_of properties ;;
      extracted <~ extract_loop (extract budget') entries [] ;;
      Ok (JObject extracted)
  end.

(** [extractProperties(properties, depth)] *)
Definition extractProperties (properties : Json) (depth : nat) : Outcome Json :=
  extract (6 - depth) properties.

Section Nesting.
Variable depth_of : Json -> nat.

Fixpoint fields_nesting (entry : list (string * Json)) : nat :=
  match entry with
  | [] => 0
  | (k, p) :: rest =>
      Nat.max (if String.eqb k "properties" then S (depth_of p) else 0)
              (fields_nesting rest)
  end.

Fixpoint entries_nesting (fields : list (string * Json)) : nat :=
  match fields with
  | [] => 0
  | (_, JObject entry) :: rest => Nat.max (fields_nesting entry) (entries_nesting rest)
  | _ :: rest => entries_nesting rest
  end.

End Nesting.

(** How deep a value nests [properties] inside the entries of an object:
    0 when no entry has any, 1 when some have but theirs have none, ... *)
Fixpoint nesting (v : Json) : nat :=
  match v with
  | JObject fields => entries_nesting nesting fields
  | _ => 0
  end.

(** A key that [assign] adds as a property. *)
Definition own_key (k : string) : bool := negb (String.eqb k "__proto__").

(** An entry of the result: an object that starts with [type], [title]
    and [description]. *)
Definition described_entry (e : string * Json) : Prop :=
  exists type title description more,
    snd e = JObject (("type", type) :: ("title", title)
                     :: ("description", description) :: more).

End SchemaExtraction.

(* ===================================================================== *)
(** * The schema service: requests to the platform *)
(* ===================================================================== *)

(** What the source leaves to the host of URLs: [encodeURIComponent],
    which throws a URIError on a lone surrogate, and the text of a
    [URLSearchParams] to which these pairs were appended, in this order. *)
Class JsUrl {JN : JsNumber} : Type := {
  encodeURIComponent : string -> Outcome string;
  search_params : list (string * string) -> string
}.

(** What [aepFetch] reads of the response of [fetch]: [ok], [status], and
    what [text()] and [json()] resolve to. *)
Record FetchResponse {JN : JsNumber} : Type := mkResponse {
  resp_ok : bool;
  resp_status : Json;
  resp_text : Outcome string;
  resp_json : Outcome Json
}.

(** [auth.service.js], [node-fetch], the fields of [config] that the
    service reads, and [new Date().toISOString()]. *)
Class Platform {JN : JsNumber} (W : Type) : Type := {
  getAccessToken : W -> Outcome Json * W;
  node_fetch : string -> Json -> W -> Outcome FetchResponse * W;
  apiKey : Json;
  imsOrg : Json;
  sandboxName : Json;
  platformUrl : string;
  toISOString : W -> string
}.

Section SchemaService.
Context {JN : JsNumber} {JH : JsHost} {JT : JsText} {JU : JsUrl}.
Context {W : Type} {PF : Platform W}.

Notation "x <- c1 ;; c2" := (bind c1 (fun x => c2))
  (at level 100, c1 at next level, right associativity).
Notation "x <~ c1 ;; c2" := (obind c1 (fun x => c2))
  (at level 100, c1 at next level, right associativity).

(** The world and a ghost log of the requests sent: URL and init object. *)
Record NetState : Type := mkNet {
  net_world : W;
  requests : list (string * Json)
}.

(** [await getAccessToken()] *)
Definition access_token : Eff NetState Json :=
  fun s =>
    let (r, w) := getAccessToken (net_world s) in
    (r, mkNet w (requests s)).

(** [await fetch(url, init)] *)
Definition send (url : string) (init : Json) : Eff NetState FetchResponse :=
  fun s =>
    let (r, w) := node_fetch url init (net_world s) in
    (r, mkNet w (requests s ++ [(url, init)])).

(** The own enumerable properties that [...source] copies. *)
Definition spread_entries (source : Json) : list (string * Json) :=
  match source with
  | JObject fields => fields
  | JArray items => indexed 0 items
  | JString s => indexed 0 (map JString (str_units s))
  | _ => []
  end.

(** [{ <target>, ...source }] *)
Definition spread (source : Json) (target : list (string * Json))
  : list (string * Json) :=
  fold_left (fun t kv => set_field (fst kv) (snd kv) t) (spread_entries source) target.

(** The [headers] object of [aepFetch]. *)
Definition request_headers (token : Json) (options : list (string * Json))
  : list (string * Json) :=
  spread (lookup "headers" options)
         [ ("Authorization", JString ("Bearer " ++ toStr token));
           ("x-api-key", apiKey);
           ("x-gw-ims-org-id", imsOrg);
           ("x-sandbox-name", sandboxName);
           ("Accept", js_or (lookup "accept" options) (JString "application/json")) ].

(** [new Error(`API Error ${status}: ${errorText}`)] *)
Definition api_error (status : Json) (errorText : string) : JsError :=
  mkError (JString ("API Error " ++ toStr status ++ ": " ++ errorText)).

(** [aepFetch(endpoint, options)]; every call in the file passes an
    object literal, or nothing, for [options]. *)
Definition aepFetch (endpoint : string) (options : list (string * Json))
  : Eff NetState Json :=
  token <- access_token ;;
  let headers := request_headers token options in
  response <- send (platformUrl ++ endpoint)
                   (JObject (set_field "headers" (JObject headers) options)) ;;
  if negb (resp_ok response) then
    errorText <- lift (resp_text response) ;;
    throw (api_error (resp_status response) errorText)
  else lift (resp_json response).

(** A parameter with a default value: [v = d] in a parameter list. *)
Definition default_to (d v : Json) : Json :=
  match v with
  | JUndefined => d
  | _ => v
  end.

(** [if (filters.key) params.append(name, filters.key)] *)
Definition append_filter (filters : Json) (key name : string)
    (params : list (string * string)) : Outcome (list (string * string)) :=
  value <~ get filters key ;;
  Ok (if truthy value then (params ++ [(name, toStr value)])%list else params).

(** [if (!filters.limit) params.append('limit', '50')] *)
Definition default_limit (filters : Json) (params : list (string * string))
  : Outcome (list (string * string)) :=
  limit <~ get filters "limit" ;;
  Ok (if truthy limit then params else (params ++ [("limit", "50")])%list).

(** The parameters of [listSchemas]. *)
Definition schema_params (filters : Json) : Outcome (list (string * string)) :=
  params <~ append_filter filters "limit" "limit" [] ;;
  params <~ append_filter filters "start" "start" params ;;
  params <~ append_filter filters "orderby" "orderby" params ;;
  params <~ append_filter filters "property" "property" params ;;
  default_limit filters params.

(** The parameters of [listFieldGroups], [listClasses] and
    [listDataTypes]. *)
Definition page_params (filters : Json) : Outcome (list (string * string)) :=
  params <~ append_filter filters "limit" "limit" [] ;;
  params <~ append_filter filters "start" "start" params ;;
  default_limit filters params.

(** The parameters of [listDescriptors]. *)
Definition descriptor_params (filters : Json) : Outcome (list (string * string)) :=
  params <~ append_filter filters "limit" "limit" [] ;;
  params <~ append_filter filters "start" "start" params ;;
  append_filter filters "schemaId" "xdm:sourceSchema" params.

Definition registry : string := "/data/foundation/schemaregistry/".

Definition accept_ids : list (string * Json) :=
  [("accept", JString "application/vnd.adobe.xed-id+json")].

Definition accept_full : list (string * Json) :=
  [("accept", JString "application/vnd.adobe.xed-full+json; version=1")].

(** The list functions: parameters from the filters, then one request. *)
Definition list_resources (make : Json -> Outcome (list (string * string)))
    (resource : string) (container filters : Json) : Eff NetState Json :=
  let container := default_to (JString "tenant") container in
  let filters := default_to (JObject []) filters in
  params <- lift (make filters) ;;
  aepFetch (registry ++ toStr container ++ "/" ++ resource ++ "?" ++ search_params params)
           accept_ids.

(** [listSchemas(container, filters)] *)
Definition listSchemas : Json -> Json -> Eff NetState Json :=
  list_resources schema_params "schemas".

(** [listFieldGroups(container, filters)] *)
Definition listFieldGroups : Json -> Json -> Eff NetState Json :=
  list_resources page_params "fieldgroups".

(** [listClasses(container, filters)] *)
Definition listClasses : Json -> Json -> Eff NetState Json :=
  list_resources page_params "classes".

(** [listDataTypes(container, filters)] *)
Definition listDataTypes : Json -> Json -> Eff NetState Json :=
  list_resources page_params "datatypes".

(** [listDescriptors(filters)] *)
Definition listDescriptors (filters : Json) : Eff NetState Json :=
  list_resources descriptor_params "descriptors" (JString "tenant") filters.

(** [getRegistryStats()] *)
Definition getRegistryStats : Eff NetState Json :=
  aepFetch (registry ++ "stats") [].

(** [listUnionSchemas()] *)
Definition listUnionSchemas : Eff NetState Json :=
  aepFetch (registry ++ "tenant/unions") accept_ids.

(** [getUnionSchemaDetails(unionId)] *)
Definition getUnionSchemaDetails (unionId : Json) : Eff NetState Json :=
  encodedId <- lift (encodeURIComponent (toStr unionId)) ;;
  aepFetch (registry ++ "tenant/unions/" ++ encodedId) accept_full.

(** [getSchemaDetails(schemaId, container)] *)
Definition getSchemaDetails (schemaId container : Json) : Eff NetState Json :=
  let container := default_to (JString "tenant") container in
  encodedId <- lift (encodeURIComponent (toStr schemaId)) ;;
  aepFetch (registry ++ toStr container ++ "/schemas/" ++ encodedId) accept_full.

(** What [for (const x of v)] goes through. *)
Definition iterable_items (v : Json) : Outcome (list Json) :=
  match v with
  | JArray items => Ok items
  | JString s => Ok (map JString (str_points s))
  | _ => Throw (type_error "Symbol.iterator")
  end.

(** The body of the inner [try] of [extractUnionSchemaForAI]: the object
    pushed for one union. *)
Definition union_schema (union : Json) : Eff NetState Json :=
  altId <- lift (get union "meta:altId") ;;
  unionId <- (if truthy altId then ret altId else lift (get union "$id")) ;;
  details <- getUnionSchemaDetails unionId ;;
  id <- lift (get details "$id") ;;
  title <- lift (get details "title") ;;
  description <- lift (get details "description") ;;
  type <- lift (get details "type") ;;
  properties <- lift (get details "properties") ;;
  extracted <- lift (extractProperties (js_or properties (JObject [])) 0) ;;
  required <- lift (get details "required") ;;
  ret (JObject [ ("id", id); ("title", title); ("description", description);
                 ("type", type); ("properties", extracted);
                 ("required", js_or required (JArray [])) ]).

(** The [for] loop of [extractUnionSchemaForAI]; the [catch] of a turn
    reads [union.$id] for its log line. *)
Fixpoint union_loop (unions : list Json) (extractedSchemas : list Json)
  : Eff NetState (list Json) :=
  match unions with
  | [] => ret extractedSchemas
  | union :: rest =>
      extractedSchemas <-
        try_catch (schema <- union_schema union ;;
                   ret (extractedSchemas ++ [schema])%list)
                  (fun err => _ <- lift (get union "$id") ;; ret extractedSchemas) ;;
      union_loop rest extractedSchemas
  end.

(** [new Date().toISOString()] *)
Definition iso_now : Eff NetState string :=
  fun s => (Ok (toISOString (net_world s)), s).

(** [new Error(`Failed to extract union schemas: ${error.message}`)] *)
Definition extraction_error (error : JsError) : JsError :=
  mkError (JString ("Failed to extract union schemas: " ++ toStr (err_message error))).

(** [extractUnionSchemaForAI()] *)
Definition extractUnionSchemaForAI : Eff NetState Json :=
  try_catch
    (unions <- listUnionSchemas ;;
     results <- lift (get unions "results") ;;
     items <- lift (iterable_items (js_or results (JArray []))) ;;
     extractedSchemas <- union_loop items [] ;;
     extractedAt <- iso_now ;;
     ret (JObject [ ("extractedAt", JString extractedAt);
                    ("sandbox", sandboxName);
                    ("schemas", JArray extractedSchemas) ]))
    (fun error => throw (extraction_error error)).

(** An element of [schemas]: the six fields in their order, [properties]
    being an object cut at six levels. *)
Definition extracted_schema (schema : Json) : Prop :=
  exists id title description type properties required,
    schema = JObject [ ("id", id); ("title", title); ("description", description);
                       ("type", type); ("properties", JObject properties);
                       ("required", required) ]
    /\ nesting (JObject properties) <= 6.

(** How many parameters of a name a request carries. *)
Definition count_param (name : string) (params : list (string * string)) : nat :=
  List.length (filter (fun p => String.eqb (fst p) name) params).

(** The value of the [limit] parameter of a list request. *)
Definition page_size (filters : Json) : string :=
  let limit := opt_get filters "limit" in
  if truthy limit then toStr limit else "50".

(** A computation that sends at most [n] requests and forgets none. *)
Definition sends {A : Type} (n : nat) (m : Eff NetState A) : Prop :=
  forall s, exists extra,
    requests (snd (m s)) = (requests s ++ extra)%list /\ List.length extra <= n.

End SchemaService.

Arguments NetState {JN} W.
Arguments sends {JN W A} n m.

(* ===================================================================== *)
(** * The [GET /profiles/lookup] route *)
(* ===================================================================== *)

(** [profile.service.js], imported as [profileService]. *)
Class ProfileService {JN : JsNumber} (W : Type) : Type := {
  lookupProfile : Json -> Json -> Json -> W -> Outcome Json * W
}.

Section ProfileRoute.
Context {JN : JsNumber} {JH : JsHost}.
Context {W : Type} {PS : ProfileService W}.

Notation "x <- c1 ;; c2" := (bind c1 (fun x => c2))
  (at level 100, c1 at next level, right associativity).

(** [const { a, b, ...rest } = object]: the rest. *)
Definition rest_without (names : list string) (fields : list (string * Json))
  : list (string * Json) :=
  filter (fun kv => negb (existsb (String.eqb (fst kv)) names)) fields.

(** The handler of [router.get('/profiles/lookup', ...)]; [query] holds
    the properties of [req.query], which Express makes an object. *)
Definition get_profiles_lookup (query : list (string * Json))
  : Eff W (option HttpResponse) :=
  let entityId := lookup "entityId" query in
  let entityIdNS := lookup "entityIdNS" query in
  let options := rest_without ["entityId"; "entityIdNS"] query in
  if negb (truthy entityId) || negb (truthy entityIdNS) then
    ret (Some (mkHttp 400 (JObject [("error",
                                     JString "entityId and entityIdNS are required")])))
  else
    profile <- lookupProfile entityId entityIdNS (JObject options) ;;
    ret (Some (mkHttp 200 profile)).

End ProfileRoute.

(* ===================================================================== *)
(** * The panel and its API client *)
(* ===================================================================== *)

(** The [fetch] of the browser. *)
Class Browser {JN : JsNumber} (W : Type) : Type := {
  browser_fetch : string -> Json -> W -> Outcome FetchResponse * W
}.

Section Panel.
Context {JN : JsNumber} {JH : JsHost} {JT : JsText}.
Context {W : Type} {BR : Browser W}.

Notation "x <- c1 ;; c2" := (bind c1 (fun x => c2))
  (at level 100, c1 at next level, right associativity).

(** What [handleSend] of [AgentPanel.jsx] sends for a turn: the trimmed
    input, the auto-mode switch and [messages.slice(-10)]. *)
Definition send_payload (messages : list ChatMessage) (text : string)
    (autoMode : bool) : TurnInput :=
  mkInput (JString text) autoMode (slice_last 10 messages) None.

Definition API_BASE : string := "http://localhost:3001/api".

(** [new Error(value)], for a value that is not [undefined]. *)
Definition new_error (value : Json) : JsError := mkError (JString (toStr value)).

(** [await response.json().catch(() => ({ error: 'Network error' }))] *)
Definition error_body (response : FetchResponse) : Json :=
  match resp_json response with
  | Ok body => body
  | Throw _ => JObject [("error", JString "Network error")]
  end.

(** The second argument of the [fetch] of [fetchAPI]: the options with
    [headers] replaced by the content type and the caller's headers. *)
Definition client_init (options : list (string * Json)) : Json :=
  let headers := spread (lookup "headers" options)
                        [("Content-Type", JString "application/json")] in
  JObject (set_field "headers" (JObject headers) options).

(** [fetchAPI(endpoint, options)] of [agent-api.js]; every call in the
    file passes an object literal, or nothing, for [options]. *)
Definition fetchAPI (endpoint : string) (options : list (string * Json))
  : Eff W Json :=
  response <- browser_fetch (API_BASE ++ endpoint) (client_init options) ;;
  if negb (resp_ok response) then
    field <- lift (get (error_body response) "error") ;;
    throw (new_error (js_or field
                            (JString ("API Error: " ++ toStr (resp_status response)))))
  else lift (resp_json response).

(** The message of the error that [fetchAPI] throws for a response that
    is not [ok]. *)
Definition refusal_message (response : FetchResponse) : string :=
  match resp_json response with
  | Throw _ => "Network error"
  | Ok body =>
      if nullish body then type_error_text "error"
      else if truthy (opt_get body "error") then toStr (opt_get body "error")
      else "API Error: " ++ toStr (resp_status response)
  end.

End Panel.

(* ===================================================================== *)
(** * Scripted collaborators *)
(* ===================================================================== *)

(** Integers as the numbers of a run. *)
#[export] Instance ZNumber : JsNumber := {|
  Num := Z;
  num_of_Z := fun z => z;
  num_to_string := fun z => NilEmpty.string_of_int (Z.to_int z);
  num_truthy := fun z => negb (Z.eqb z 0);
  num_is_zero := fun z => Z.eqb z 0;
  num_is_zero_of_Z := fun z => eq_refl
|}.

(** A host for ASCII text, where a UTF-16 code unit is a byte; dates and
    JSON text are stood in for by [toStr]. *)
#[export] Instance AsciiHost : JsHost := {|
  str_length := String.length;
  str_substring := fun from to s => String.substring from (to - from) s;
  date_locale_string := fun v => toStr v;
  json_stringify := fun v => match v with
                             | JUndefined => None
                             | _ => Some (toStr v)
                             end;
  type_error_text := fun what => "Cannot read properties (reading '" ++ what ++ "')"
|}.

(** A world that answers from a script: what the model says when asked,
    and what each tool returns. *)
Record Script : Type := mkScript {
  scr_configured : Outcome bool;
  scr_completion : list LlmMessage -> option Json
                   -> Outcome (option (list ToolCall) * Json);
  scr_tool : string -> Json -> Outcome Json
}.

#[export] Instance ScriptedRegistry : ToolRegistry Script := {|
  getToolDefinitions := JArray [];
  requiresApproval := fun name =>
    String.eqb name "execute_sql_query" || String.eqb name "create_segment";
  executeTool := fun name args w => (scr_tool w name args, w)
|}.

#[export] Instance ScriptedLlm : LlmService Script := {|
  LlmResponse := option (list ToolCall) * Json;
  isConfigured := fun w => (scr_configured w, w);
  chatCompletion := fun messages tools _ w => (scr_completion w messages tools, w);
  parseToolCalls := fun r => Ok (fst r);
  getContent := fun r => Ok (snd r)
|}.

(** The data of a tool that found no failed batch. *)
Definition empty_batches : Json := JObject [("batches", JArray [])].

(** No language model is configured; every tool returns [{ batches: [] }]. *)
Definition offline : Script :=
  mkScript (Ok false)
           (fun _ _ => Throw (mkError (JString "not configured")))
           (fun _ _ => Ok empty_batches).

(** The module as loaded: no stored history, nothing called yet. *)
Definition start (w : Script) : State Script := mkState w [] [] [].

(** A configured model whose client fails without a message. *)
Definition silent_failure : Script :=
  mkScript (Ok true)
           (fun _ _ => Throw (mkError (JString "")))
           (fun _ _ => Ok empty_batches).

(** A configured model whose client fails with a message. *)
Definition quota_failure : Script :=
  mkScript (Ok true)
           (fun _ _ => Throw (mkError (JString "quota exceeded")))
           (fun _ _ => Ok empty_batches).

Definition call_failed_batches : ToolCall :=
  mkCall "get_failed_batches" (JObject [("limit", num 10)]).

Definition call_sql : ToolCall :=
  mkCall "execute_sql_query" (JObject [("sql", JString "SELECT 1")]).

Definition call_datasets : ToolCall :=
  mkCall "list_datasets" (JObject []).

(** A configured model: offered the tools it calls for two reads, asked
    for a summary it says "Two tools ran."; each tool returns its name. *)
Definition online : Script :=
  mkScript (Ok true)
           (fun _ tools =>
              match tools with
              | Some _ => Ok (Some [call_failed_batches; call_datasets], JUndefined)
              | None => Ok (None, JString "Two tools ran.")
              end)
           (fun name _ => Ok (JObject [("tool", JString name)])).

(** The pending action for [call_sql], echoed back with auto-mode off. *)
Definition approve_sql : TurnInput :=
  mkInput (JString "__EXECUTE_APPROVED__") false []
          (Some (mkAction "execute_sql_query" (JObject [("sql", JString "SELECT 1")]))).

(** A first message, with one earlier entry of history. *)
Definition greeting : TurnInput :=
  mkInput (JString "hello there") false [mkChat "user" "hi" "09:00"] None.

(** A remote query service: [createQuery] reports the job in [job_state];
    every later status fetch takes [latency] milliseconds and reports the
    job in progress. *)
Record Remote : Type := mkRemote {
  clock : Z;
  job_state : string
}.

Definition remote_job (state : string) : Json :=
  JObject [("id", JString "q1"); ("state", JString state)].

Definition RemoteQueries (latency : Z) : QueryService Remote := {|
  createQuery := fun _ w => (Ok (remote_job (job_state w)), w);
  getQueryDetails := fun _ w =>
    (Ok (remote_job "IN_PROGRESS"), mkRemote (clock w + latency) (job_state w))
|}.

#[export] Instance RemoteClock : Runtime Remote := {|
  now := clock;
  sleep := fun ms w => mkRemote (clock w + ms) (job_state w)
|}.

(** A request to run a query. *)
Definition select_one : QueryBody :=
  mkBody (JString "SELECT 1") (JString "probe") JUndefined.

Definition at_midnight (w : Remote) : PollState Remote := mkPoll w [].

(** A configured model that asks for a read, a query and another read. *)
Definition asks_for_sql : Script :=
  mkScript (Ok true)
           (fun _ tools =>
              match tools with
              | Some _ => Ok (Some [call_failed_batches; call_sql; call_datasets], JUndefined)
              | None => Ok (None, JString "Done.")
              end)
           (fun name _ => Ok (JObject [("tool", JString name)])).

(** A configured model that answers in text. *)
Definition chatty : Script :=
  mkScript (Ok true) (fun _ _ => Ok (Some [], JString "Hello!")) (fun _ _ => Ok JNull).

(** Six batches: five printable ones, then a null one. *)
Definition six_batches : list Json :=
  [ JObject [("id", JString "b1")]; JObject [("id", JString "b2")];
    JObject [("id", JString "b3")]; JObject []; JObject [("id", JNull)]; JNull ].

(** Strings of ASCII text: a code unit is a character. *)
#[export] Instance AsciiText : JsText := {|
  str_units := fun s => map (fun c => String c EmptyString) (list_ascii_of_string s);
  str_points := fun s => map (fun c => String c EmptyString) (list_ascii_of_string s)
|}.

(** A schema with a nested object, an array and a prototype key. *)
Definition person_schema : list (string * Json) :=
  [ ("name", JObject [("type", JString "string"); ("title", JString "Name")]);
    ("address",
     JObject [("type", JString "object");
              ("properties",
               JObject [("city", JObject [("type", JString "string")])])]);
    ("__proto__", JObject [("type", JString "object")]);
    ("emails", JObject [("type", JString "array");
                        ("items", JObject [("type", JString "string")])]) ].

(** A remote query service whose job is in progress for [left] more status
    fetches and has succeeded after them; a fetch takes no time. *)
Record Countdown : Type := mkCountdown {
  cd_clock : Z;
  cd_left : nat
}.

Definition countdown_job (left : nat) : Json :=
  remote_job (match left with O => "SUCCESS" | S _ => "IN_PROGRESS" end).

Definition CountdownQueries : QueryService Countdown := {|
  createQuery := fun _ w => (Ok (countdown_job (cd_left w)), w);
  getQueryDetails := fun _ w =>
    (Ok (countdown_job (Nat.pred (cd_left w))),
     mkCountdown (cd_clock w) (Nat.pred (cd_left w)))
|}.

Definition CountdownClock : Runtime Countdown := {|
  now := cd_clock;
  sleep := fun ms w => mkCountdown (cd_clock w + ms) (cd_left w)
|}.

(** A remote query service whose job is in progress for [left] more status
    fetches, after which the service is down. *)
Definition FlakyQueries : QueryService Countdown := {|
  createQuery := fun _ w => (Ok (remote_job "IN_PROGRESS"), w);
  getQueryDetails := fun _ w =>
    match cd_left w with
    | O => (Throw (mkError (JString "API Error 503: down")), w)
    | S fewer => (Ok (remote_job "IN_PROGRESS"), mkCountdown (cd_clock w) fewer)
    end
|}.

(** A remote query service that is down. *)
Definition DownQueries : QueryService Remote := {|
  createQuery := fun _ w => (Throw (mkError (JString "API Error 503: down")), w);
  getQueryDetails := fun _ w => (Throw (mkError (JString "API Error 503: down")), w)
|}.

(** Percent-encoding and query strings of unreserved ASCII text. *)
#[export] Instance AsciiUrl : JsUrl := {|
  encodeURIComponent := fun s => Ok s;
  search_params := fun params =>
    join "&" (map (fun p => fst p ++ "=" ++ snd p) params)
|}.

(** A platform whose token service and replies are scripted by URL. *)
Record Net : Type := mkNetWorld {
  net_token : Outcome Json;
  net_reply : string -> Outcome FetchResponse
}.

#[export] Instance ScriptedPlatform : Platform Net := {|
  getAccessToken := fun w => (net_token w, w);
  node_fetch := fun url _ w => (net_reply w url, w);
  apiKey := JString "key";
  imsOrg := JString "org@AdobeOrg";
  sandboxName := JString "prod";
  platformUrl := "https://platform.adobe.io";
  toISOString := fun _ => "2025-01-01T00:00:00.000Z"
|}.

Definition net_start (w : Net) : NetState Net := mkNet w [].

Definition reply (body : Json) : Outcome FetchResponse :=
  Ok (mkResponse true (num 200) (Ok "{}") (Ok body)).

Definition not_found : Outcome FetchResponse :=
  Ok (mkResponse false (num 404) (Ok "Not Found")
                 (Throw (mkError (JString "Unexpected token N in JSON")))).

Definition unions_url : string :=
  "https://platform.adobe.io/data/foundation/schemaregistry/tenant/unions".

(** Three unions are listed; the details of the second cannot be had. *)
Definition listed_unions : list Json :=
  [ JObject [("meta:altId", JString "_xdm.context.profile__union")];
    JObject [("$id", JString "gone")];
    JObject [("$id", JString "event")] ].

Definition three_unions : Net :=
  mkNetWorld
    (Ok (JString "t0k3n"))
    (fun url =>
       if String.eqb url unions_url
       then reply (JObject [("results", JArray listed_unions)])
       else if String.eqb url (unions_url ++ "/_xdm.context.profile__union")
       then reply (JObject [ ("$id", JString "profile"); ("title", JString "Profile");
                             ("properties", JObject person_schema) ])
       else if String.eqb url (unions_url ++ "/event")
       then reply (JObject [("$id", JString "event")])
       else not_found).

(** A list of unions with a null in it. *)
Definition holed_unions : Net :=
  mkNetWorld
    (Ok (JString "t0k3n"))
    (fun url =>
       if String.eqb url unions_url
       then reply (JObject [("results", JArray [JObject [("$id", JString "event")]; JNull])])
       else reply (JObject [("$id", JString "event")])).

(** The browser of a scripted network. *)
#[export] Instance NetBrowser : Browser Net := {|
  browser_fetch := fun url _ w => (net_reply w url, w)
|}.

(** A backend that answers every request with status 500 and the error of
    a service that is down. *)
Definition backend_down : Net :=
  mkNetWorld
    (Ok JUndefined)
    (fun _ => Ok (mkResponse false (num 500) (Ok "{}")
                             (Ok (JObject [("error", JString "API Error 503: down")])))).

(* ===================================================================== *)
(** * The model at work *)
(* ===================================================================== *)

Example pattern_ignores_case :
  option_map pat_tool (first_match "Show me FAILED batches") = Some "get_failed_batches".
Proof. vm_compute. reflexivity. Qed.

Example pattern_needs_its_order :
  first_match "batch failed" = None /\ first_match "how many segments" = None.
Proof. split; vm_compute; reflexivity. Qed.

Example dot_stops_at_a_line_break :
  test (then_re (lit "failed") (lit "batch")) ("failed" ++ nl ++ "batch") = false
  /\ test (then_re (lit "failed") (lit "batch")) "failed — batch" = true.
Proof. split; vm_compute; reflexivity. Qed.

Example one_failed_batch :
  formatToolResult "get_failed_batches"
    (JObject [("batches",
               JArray [JObject [("id", JString "0123456789abcdef"); ("created", num 17)]])])
  = Ok ("📊 I found **1 failed batches** that need attention:" ++ nl ++ nl
        ++ "1. Batch `0123456789ab...` - Failed at 17" ++ nl).
Proof. reflexivity. Qed.

Example null_batch_throws :
  formatToolResult "get_failed_batches" (JObject [("batches", JArray [JNull])])
  = Throw (type_error "id").
Proof. reflexivity. Qed.

Example array_data_lists_indices :
  formatToolResult "list_namespaces" (JArray [num 1; JNull; JString "x"])
  = Ok ("📦 **list_namespaces completed:**" ++ nl ++ "• 0: 1" ++ nl ++ "• 2: x" ++ nl).
Proof. reflexivity. Qed.

Example numeric_sql_cannot_be_described :
  getActionDescription "execute_sql_query" (JObject [("sql", num 5)])
  = Throw (type_error "substring").
Proof. reflexivity. Qed.

Example model_text_is_the_answer :
  fst (processMessage (mkInput (JString "hello") true [] None)
         (start (mkScript (Ok true) (fun _ _ => Ok (None, JString "Hi!"))
                          (fun _ _ => Ok JNull))))
  = Ok (Answer (JString "Hi!") None []).
Proof. reflexivity. Qed.

(* ===================================================================== *)
(** * Properties of the template formatter *)
(* ===================================================================== *)

Section FormatterFacts.
Context {JN : JsNumber} {JH : JsHost}.

Lemma formatToolResult_default (toolName : string) (data : Json) :
  known_tool toolName = false ->
  formatToolResult toolName data = Ok (format_default toolName data).
Proof.
  unfold known_tool, formatToolResult. intros H.
  repeat (apply orb_false_elim in H; destruct H as [H ?]).
  now repeat match goal with E : String.eqb _ _ = false |- _ => rewrite E; clear E end.
Qed.

Lemma append_assoc (a b c : string) : (a ++ b) ++ c = a ++ b ++ c.
Proof. induction a as [|x a IH]; simpl; [reflexivity | now rewrite IH]. Qed.

Lemma append_empty (t : string) : t ++ "" = t.
Proof. induction t as [|c t IHt]; simpl; [reflexivity | now rewrite IHt]. Qed.

Lemma fold_summary_line (entries : list (string * Json)) (summary : string) :
  fold_left summary_line entries summary
  = summary ++ concat_all (map render_entry (filter scalar_entry entries)).
Proof.
  revert summary. induction entries as [|[key val] rest IH]; intros summary; simpl.
  - now rewrite append_empty.
  - rewrite IH. unfold summary_line.
    change (scalar_entry (key, val)) with (not_typeof_object val).
    destruct (not_typeof_object val); [|reflexivity].
    cbn [map concat_all fold_right]. rewrite append_assoc. reflexivity.
Qed.

End FormatterFacts.

Section DefaultCase.
Context {JN : JsNumber} {JH : JsHost}.

(** C9 (amended).  For a tool name outside the four known cases: when the
    data is a non-null object (or array) with at most five top-level keys,
    the text is the header line followed by one "key: value" line for each
    top-level field whose value is not an object, an array or null --
    possibly none, which leaves the header alone; when the data has more
    than five keys, or is not an object, the text is the bare success line. *)
Theorem default_case_lists_scalar_fields (toolName : string) (data : Json) :
  known_tool toolName = false ->
  (forall entries, own_entries data = Some entries ->
     (List.length entries <= 5)%nat ->
     formatToolResult toolName data
     = Ok (summary_header toolName
           ++ concat_all (map render_entry (filter scalar_entry entries)))
     /\ (List.length (filter scalar_entry entries) <= 5)%nat)
  /\ (forall entries, own_entries data = Some entries ->
        (5 < List.length entries)%nat ->
        formatToolResult toolName data = Ok (success_line toolName))
  /\ (own_entries data = None ->
        formatToolResult toolName data = Ok (success_line toolName)).
Proof.
  intros Hk. rewrite (formatToolResult_default _ data Hk). unfold format_default.
  split; [|split].
  - intros entries Hentries Hfew. rewrite Hentries. split.
    + apply Nat.leb_le in Hfew. rewrite Hfew.
      rewrite firstn_all2 by (apply Nat.leb_le; exact Hfew).
      now rewrite fold_summary_line.
    + pose proof (filter_length_le scalar_entry entries). lia.
  - intros entries Hentries Hmany. rewrite Hentries.
    now replace (List.length entries <=? 5)%nat with false
      by (symmetry; apply Nat.leb_gt; exact Hmany).
  - intros Hnone. now rewrite Hnone.
Qed.

End DefaultCase.

(** Witness: an object with one
    scalar field and one nested object. *)
Lemma default_case_lists_scalar_fields_witness :
  known_tool "list_sandboxes" = false
  /\ own_entries (JObject [("total", num 2); ("page", JObject [("next", JNull)])])
     = Some [("total", num 2); ("page", JObject [("next", JNull)])]
  /\ formatToolResult "list_sandboxes"
       (JObject [("total", num 2); ("page", JObject [("next", JNull)])])
     = Ok (summary_header "list_sandboxes" ++ "• total: 2" ++ nl).
Proof.
  split; [reflexivity|]. split; [reflexivity|].
  destruct (default_case_lists_scalar_fields "list_sandboxes"
              (JObject [("total", num 2); ("page", JObject [("next", JNull)])])
              eq_refl) as [Hlist _].
  destruct (Hlist _ eq_refl) as [Htext _]; [simpl; lia | exact Htext].
Defined.

(** C9, counterexample.  An object whose only field is an array has no
    scalar field, yet the text is the header alone, not the success line;
    and an object with six scalar fields gets the success line, not a
    listing. *)
Lemma default_case_counterexample :
  formatToolResult "list_datasets" (JObject [("datasets", JArray [])])
  = Ok ("📦 **list_datasets completed:**" ++ nl)
  /\ filter scalar_entry [("datasets", JArray [])] = []
  /\ formatToolResult "list_datasets" (JObject [("datasets", JArray [])])
     <> Ok ("✅ **list_datasets** completed successfully." ++ nl)
  /\ formatToolResult "get_batch_stats"
       (JObject [("a", num 1); ("b", num 2); ("c", num 3);
                 ("d", num 4); ("e", num 5); ("f", num 6)])
     = Ok ("✅ **get_batch_stats** completed successfully." ++ nl).
Proof.
  repeat split; try reflexivity. discriminate.
Qed.

(* ===================================================================== *)
(** * Properties of the orchestrator *)
(* ===================================================================== *)

Section AgentFacts.
Context {JN : JsNumber} {JH : JsHost}.
Context {W : Type} {TR : ToolRegistry W} {LLM : LlmService W}.

Lemma failed_batches_pattern_matches :
  test (then_re (alts ["failed"; "error"; "fail"]) (alts ["batch"; "ingestion"]))
       "show me failed batches" = true.
Proof. vm_compute. reflexivity. Qed.

Lemma format_empty_batches :
  formatToolResult "get_failed_batches" (JObject [("batches", JArray [])])
  = Ok ("✅ **Great news!** No failed batches found. Your ingestion is running smoothly!"
        ++ nl).
Proof.
  unfold formatToolResult. cbn [String.eqb Ascii.eqb Bool.eqb].
  unfold format_failed_batches. cbn [opt_get lookup String.eqb Ascii.eqb Bool.eqb].
  unfold js_or. cbn [truthy length_of List.length Z.of_nat strict_is_zero num].
  now rewrite num_is_zero_of_Z.
Qed.

(** C8.  With no language model configured, "show me failed batches"
    matches the first pattern of the fallback, [get_failed_batches] runs
    with its static arguments, and when it returns [{ batches: [] }] the
    content is exactly the "Great news" line. *)
Theorem show_me_failed_batches_offline
    (autoMode : bool) (history : list ChatMessage) (s : State W) (w1 w2 : W) :
  isConfigured (world s) = (Ok false, w1) ->
  executeTool "get_failed_batches" (JObject [("limit", num 10)]) w1
  = (Ok (JObject [("batches", JArray [])]), w2) ->
  processMessage (mkInput (JString "show me failed batches") autoMode history None) s
  = (Ok (Answer
           (JString ("✅ **Great news!** No failed batches found. Your ingestion is running smoothly!"
                     ++ nl))
           (Some (JObject [("batches", JArray [])]))
           ["get_failed_batches"]),
     mkState w2 (slice_last 20 history)
             (executed s ++ [mkCall "get_failed_batches" (JObject [("limit", num 10)])])
             (asked s)).
Proof.
  intros Hconf Htool.
  unfold processMessage. cbn [approvedAction message].
  unfold bind at 1. unfold remember at 1.
  unfold bind at 1. unfold getHistory at 1.
  unfold bind at 1. unfold try_catch, consult_model.
  unfold bind at 1. unfold llm_configured. cbn [world]. rewrite Hconf.
  cbn [negb]. unfold ret at 1.
  change (handleWithRules (JString "show me failed batches"))
    with (rules_loop patterns "show me failed batches").
  unfold patterns. cbn [rules_loop pat_match].
  rewrite failed_batches_pattern_matches.
  unfold try_catch, bind, run_tool. cbn [world with_world pat_tool pat_args].
  rewrite Htool. unfold lift. rewrite format_empty_batches. unfold ret.
  reflexivity.
Qed.

End AgentFacts.

(** Witness: the scripted world with
    no model, whose tools return [{ batches: [] }]. *)
Lemma show_me_failed_batches_offline_witness :
  isConfigured (world (start offline)) = (Ok false, offline)
  /\ executeTool "get_failed_batches" (JObject [("limit", num 10)]) offline
     = (Ok (JObject [("batches", JArray [])]), offline)
  /\ fst (processMessage (mkInput (JString "show me failed batches") false [] None) (start offline))
     = Ok (Answer
             (JString ("✅ **Great news!** No failed batches found. Your ingestion is running smoothly!"
                       ++ nl))
             (Some (JObject [("batches", JArray [])]))
             ["get_failed_batches"]).
Proof.
  split; [reflexivity|]. split; [reflexivity|].
  rewrite (show_me_failed_batches_offline false [] (start offline)
             (w1 := offline) (w2 := offline)); reflexivity.
Defined.

Section OrchestratorFacts.
Local Open Scope list_scope.
Context {JN : JsNumber} {JH : JsHost}.
Context {W : Type} {TR : ToolRegistry W} {LLM : LlmService W}.

Lemma keeps_ret {X A : Type} (f : State W -> X) (a : A) : keeps f (ret a).
Proof. intros s. reflexivity. Qed.

Lemma keeps_throw {X A : Type} (f : State W -> X) (e : JsError) :
  keeps f (throw (A := A) e).
Proof. intros s. reflexivity. Qed.

Lemma keeps_lift {X A : Type} (f : State W -> X) (o : Outcome A) : keeps f (lift o).
Proof. intros s. reflexivity. Qed.

Lemma keeps_bind {X A B : Type} (f : State W -> X) (m : M W A) (k : A -> M W B) :
  keeps f m -> (forall a, keeps f (k a)) -> keeps f (bind m k).
Proof.
  intros Hm Hk s. unfold bind. specialize (Hm s).
  destruct (m s) as [[a|e] s1]; cbn [snd] in *.
  - now rewrite Hk.
  - exact Hm.
Qed.

Lemma keeps_try_catch {X A : Type} (f : State W -> X) (m : M W A) (h : JsError -> M W A) :
  keeps f m -> (forall e, keeps f (h e)) -> keeps f (try_catch m h).
Proof.
  intros Hm Hh s. unfold try_catch. specialize (Hm s).
  destruct (m s) as [[a|e] s1]; cbn [snd] in *.
  - exact Hm.
  - now rewrite Hh.
Qed.

Lemma keeps_if {X A : Type} (f : State W -> X) (b : bool) (m1 m2 : M W A) :
  keeps f m1 -> keeps f m2 -> keeps f (if b then m1 else m2).
Proof. now destruct b. Qed.

Lemma llm_configured_keeps_executed : keeps executed llm_configured.
Proof. intros s. unfold llm_configured. now destruct (isConfigured (world s)). Qed.

Lemma llm_configured_keeps_asked : keeps asked llm_configured.
Proof. intros s. unfold llm_configured. now destruct (isConfigured (world s)). Qed.

Lemma llm_configured_keeps_history : keeps chatHistory llm_configured.
Proof. intros s. unfold llm_configured. now destruct (isConfigured (world s)). Qed.

Lemma ask_llm_keeps_executed messages tools options :
  keeps executed (ask_llm messages tools options).
Proof.
  intros s. unfold ask_llm.
  now destruct (chatCompletion messages tools options (world s)).
Qed.

Lemma ask_llm_keeps_history messages tools options :
  keeps chatHistory (ask_llm messages tools options).
Proof.
  intros s. unfold ask_llm.
  now destruct (chatCompletion messages tools options (world s)).
Qed.

Lemma run_tool_keeps_asked name args : keeps asked (run_tool name args).
Proof. intros s. unfold run_tool. now destruct (executeTool name args (world s)). Qed.

Lemma run_tool_keeps_history name args : keeps chatHistory (run_tool name args).
Proof. intros s. unfold run_tool. now destruct (executeTool name args (world s)). Qed.

Lemma run_tool_executed name args s :
  executed (snd (run_tool name args s)) = executed s ++ [mkCall name args].
Proof. unfold run_tool. now destruct (executeTool name args (world s)). Qed.

Ltac keep :=
  repeat first
    [ apply keeps_bind; [|intros ?]
    | apply keeps_try_catch; [|intros ?]
    | apply keeps_if
    | apply keeps_ret
    | apply keeps_throw
    | apply keeps_lift
    | apply llm_configured_keeps_executed
    | apply llm_configured_keeps_asked
    | apply llm_configured_keeps_history
    | apply ask_llm_keeps_executed
    | apply ask_llm_keeps_history
    | apply run_tool_keeps_asked
    | apply run_tool_keeps_history ].

Lemma summarize_keeps_executed results toolsUsed originalMessage :
  keeps executed (summarizeResultsWithLLM results toolsUsed originalMessage).
Proof. unfold summarizeResultsWithLLM. keep. Qed.

Lemma summarize_keeps_history results toolsUsed originalMessage :
  keeps chatHistory (summarizeResultsWithLLM results toolsUsed originalMessage).
Proof. unfold summarizeResultsWithLLM. keep. Qed.

Lemma scan_one_spec (call : ToolCall) (s : State W) :
  exists r s',
    scan_one call s = (Ok r, s')
    /\ res_tool r = call_name call
    /\ executed s' = executed s ++ [call]
    /\ asked s' = asked s
    /\ chatHistory s' = chatHistory s.
Proof.
  unfold scan_one, try_catch, bind, run_tool, ret.
  destruct call as [name args]; cbn [call_name call_arguments].
  destruct (executeTool name args (world s)) as [[result|error] w];
    eexists; eexists; repeat split; reflexivity.
Qed.

(** Scanning a prefix of calls that all pass the gate: each is executed
    once, in order, none halts the scan, and the scan goes on with the
    calls that follow. *)
Lemma scan_prefix (autoMode : bool) (pre : list ToolCall) :
  (forall c, In c pre -> needsApproval (call_name c) autoMode = false) ->
  forall results toolsUsed s,
  exists rs s',
    map res_tool rs = map call_name pre
    /\ executed s' = executed s ++ pre
    /\ asked s' = asked s
    /\ chatHistory s' = chatHistory s
    /\ forall rest,
         scan_tool_calls (pre ++ rest) autoMode results toolsUsed s
         = scan_tool_calls rest autoMode (results ++ rs)
                           (toolsUsed ++ map call_name pre) s'.
Proof.
  induction pre as [|call pre IH]; intros Hclear results toolsUsed s.
  - exists [], s. cbn [map app]. rewrite !app_nil_r. repeat split; reflexivity.
  - assert (Hc : needsApproval (call_name call) autoMode = false)
      by (apply Hclear; now left).
    destruct (scan_one_spec call s) as (r & s1 & Hrun & Htool & Hex & Hask & Hhist).
    destruct (IH (fun c Hin => Hclear c (or_intror Hin))
                 (results ++ [r]) (toolsUsed ++ [call_name call]) s1)
      as (rs & s' & Hmap & Hex' & Hask' & Hhist' & Hgo).
    exists (r :: rs), s'. repeat split.
    + cbn [map]. now rewrite Htool, Hmap.
    + rewrite Hex', Hex, <- app_assoc. reflexivity.
    + now rewrite Hask'.
    + now rewrite Hhist'.
    + intros rest. cbn [app scan_tool_calls].
      unfold needsApproval in Hc. rewrite Hc.
      change (try_catch _ _) with (scan_one call).
      unfold bind at 1. rewrite Hrun. rewrite Hgo.
      cbn [map]. now rewrite <- !app_assoc.
Qed.


(** Whatever the calls, the scan never throws, and the calls it executes
    are calls of the sequence that passed the gate. *)
Lemma scan_gate (autoMode : bool) (calls : list ToolCall) :
  forall results toolsUsed s,
  exists done v s',
    scan_tool_calls calls autoMode results toolsUsed s = (Ok v, s')
    /\ executed s' = executed s ++ done
    /\ asked s' = asked s
    /\ chatHistory s' = chatHistory s
    /\ forall c, In c done ->
         In c calls /\ needsApproval (call_name c) autoMode = false.
Proof.
  induction calls as [|call calls IH]; intros results toolsUsed s.
  - exists [], (results, toolsUsed, None), s. cbn. rewrite app_nil_r.
    split; [reflexivity|]. split; [reflexivity|]. split; [reflexivity|].
    split; [reflexivity|]. intros c [].
  - cbn [scan_tool_calls].
    destruct (requiresApproval (call_name call) && negb autoMode) eqn:Hgate.
    + eexists [], _, s. unfold ret. rewrite app_nil_r.
      split; [reflexivity|]. split; [reflexivity|]. split; [reflexivity|].
      split; [reflexivity|]. intros c [].
    + change (try_catch _ _) with (scan_one call). unfold bind at 1.
      destruct (scan_one_spec call s) as (r & s1 & Hrun & _ & Hex & Hask & Hhist).
      rewrite Hrun.
      destruct (IH (results ++ [r]) (toolsUsed ++ [call_name call]) s1)
        as (done & v & s' & Hgo & Hex' & Hask' & Hhist' & Hdone).
      exists (call :: done), v, s'. split; [exact Hgo|].
      split; [rewrite Hex', Hex, <- app_assoc; reflexivity|].
      split; [now rewrite Hask'|]. split; [now rewrite Hhist'|].
      intros c [<-|Hin].
      * split; [now left | exact Hgate].
      * destruct (Hdone c Hin) as [Hcalls Hpass]. split; [now right | exact Hpass].
Qed.

Lemma handleToolCalls_gate (calls : list ToolCall) (autoMode : bool)
    (originalMessage : Json) (s : State W) :
  exists done,
    executed (snd (handleToolCalls calls autoMode originalMessage s))
    = executed s ++ done
    /\ forall c, In c done ->
         In c calls /\ needsApproval (call_name c) autoMode = false.
Proof.
  destruct (scan_gate autoMode calls [] [] s)
    as (done & [[results toolsUsed] pending] & s1 & Hscan & Hex & _ & _ & Hdone).
  exists done. split; [|exact Hdone].
  unfold handleToolCalls. unfold bind at 1. rewrite Hscan.
  destruct pending as [p|].
  - unfold bind, lift, ret.
    now destruct (getActionDescription (call_name p) (call_arguments p)).
  - now rewrite summarize_keeps_executed.
Qed.

Lemma executeApprovedAction_executed (action : ApprovedAction) (s : State W) :
  executed (snd (executeApprovedAction action s))
  = executed s ++ [mkCall (toolName action) (toolArguments action)].
Proof.
  unfold executeApprovedAction. unfold bind at 1. unfold try_catch, bind, run_tool, ret.
  destruct (executeTool (toolName action) (toolArguments action) (world s))
    as [[result|error] w].
  - now rewrite summarize_keeps_executed.
  - reflexivity.
Qed.

Lemma rules_loop_executed (ps : list Pattern) (message : string) (s : State W) :
  executed (snd (rules_loop ps message s))
  = executed s ++ match find (fun p => test (pat_match p) message) ps with
                  | Some p => [mkCall (pat_tool p) (pat_args p)]
                  | None => []
                  end.
Proof.
  induction ps as [|p ps IH]; cbn [rules_loop find].
  - unfold ret. cbn. now rewrite app_nil_r.
  - destruct (test (pat_match p) message); [|exact IH].
    unfold try_catch, bind, run_tool, lift, ret.
    destruct (executeTool (pat_tool p) (pat_args p) (world s)) as [[data|error] w];
      [|reflexivity].
    now destruct (formatToolResult (pat_tool p) data).
Qed.

(** The fallback on a string is the loop over the pattern table; on any
    other message it throws before the loop. *)
Lemma handleWithRules_text (text : string) (s : State W) :
  handleWithRules (JString text) s = rules_loop patterns text s.
Proof. reflexivity. Qed.

Lemma handleWithRules_not_text (message : Json) (s : State W) :
  toLowerCase message = Throw (type_error "toLowerCase") ->
  handleWithRules message s = (Throw (type_error "toLowerCase"), s).
Proof. intros H. unfold handleWithRules, bind, lift. now rewrite H. Qed.

Lemma handleWithRules_executed (message : Json) (s : State W) :
  executed (snd (handleWithRules message s))
  = executed s ++ match message with
                  | JString text =>
                      match first_match text with
                      | Some p => [mkCall (pat_tool p) (pat_args p)]
                      | None => []
                      end
                  | _ => []
                  end.
Proof.
  destruct message as [| | | |text| |];
    try (rewrite handleWithRules_not_text by reflexivity; cbn; now rewrite app_nil_r).
  rewrite handleWithRules_text. apply rules_loop_executed.
Qed.

(** C2 (amended).  In the tool-call scan a call is executed only when the
    gate lets it pass ([needsApproval] false for its tool and the turn's
    auto-mode).  The approved-action path executes the tool named in the
    approved action, once, without consulting the gate: whatever the
    registry flag of the tool and whatever auto-mode.  The rule-based
    fallback executes the tool bound to the first matching pattern, if
    any, without consulting the gate either. *)
Theorem gate_guards_the_scan_only :
  (forall calls autoMode originalMessage (s : State W),
     exists done,
       executed (snd (handleToolCalls calls autoMode originalMessage s))
       = executed s ++ done
       /\ forall c, In c done ->
            In c calls /\ needsApproval (call_name c) autoMode = false)
  /\ (forall input action (s : State W),
        approvedAction input = Some action ->
        executed (snd (processMessage input s))
        = executed s ++ [mkCall (toolName action) (toolArguments action)])
  /\ (forall message (s : State W),
        executed (snd (handleWithRules message s))
        = executed s ++ match message with
                        | JString text =>
                            match first_match text with
                            | Some p => [mkCall (pat_tool p) (pat_args p)]
                            | None => []
                            end
                        | _ => []
                        end).
Proof.
  repeat split.
  - intros. apply handleToolCalls_gate.
  - intros input action s Happroved. unfold processMessage. rewrite Happroved.
    apply executeApprovedAction_executed.
  - intros. apply handleWithRules_executed.
Qed.

Lemma format_results_data (results : list ToolResult) :
  forall content data c d,
    format_results results content data = Ok (c, d) ->
    d = fold_left (fun data r => if truthy (res_error r) then data else res_data r)
                  results data.
Proof.
  induction results as [|r results IH]; intros content data c d H; cbn in H |- *.
  - now inversion H.
  - destruct (truthy (res_error r)).
    + now apply IH in H.
    + destruct (formatToolResult (res_tool r) (res_data r)) as [text|e];
        cbn in H; [now apply IH in H | discriminate].
Qed.

Lemma formatResultsBasic_shape results toolsUsed response :
  formatResultsBasic results toolsUsed = Ok response ->
  exists text, response = Answer (JString text) (Some (last_data results)) toolsUsed.
Proof.
  unfold formatResultsBasic. intros H.
  destruct (format_results results "" JNull) as [[c d]|e] eqn:E; cbn in H;
    [|discriminate].
  apply format_results_data in E. inversion H. exists c. unfold last_data.
  now rewrite E.
Qed.

Lemma bind_ok {A B : Type} (m : M W A) (k : A -> M W B) s b s' :
  bind m k s = (Ok b, s') ->
  exists a s1, m s = (Ok a, s1) /\ k a s1 = (Ok b, s').
Proof.
  unfold bind. destruct (m s) as [[a|e] s1]; intros H; [|discriminate].
  now exists a, s1.
Qed.

(** A response of the summarizer lists the tools it was given; its data
    is that of [summary_data] when the model wrote the summary and that of
    [last_data] when the template formatter did. *)
Lemma summarize_shape results toolsUsed originalMessage s response s' :
  summarizeResultsWithLLM results toolsUsed originalMessage s = (Ok response, s') ->
  exists text data,
    response = Answer text (Some data) toolsUsed
    /\ (data = summary_data results \/ data = last_data results).
Proof.
  unfold summarizeResultsWithLLM. intros H.
  apply bind_ok in H. destruct H as (configured & s1 & _ & H).
  destruct configured; cbn [negb] in H.
  - unfold try_catch in H.
    match type of H with
    | match ?body s1 with _ => _ end = _ => destruct (body s1) as [[a|e] s2] eqn:E
    end.
    + inversion H; subst a s2; clear H.
      apply bind_ok in E. destruct E as (ctx & t1 & _ & E).
      apply bind_ok in E. destruct E as (resp & t2 & _ & E).
      apply bind_ok in E. destruct E as (summary & t3 & _ & E).
      apply bind_ok in E. destruct E as (text & t4 & _ & E).
      unfold ret in E. inversion E. exists text, (summary_data results).
      split; [reflexivity | now left].
    + unfold lift in H. inversion H as [[Hb Hs]].
      apply formatResultsBasic_shape in Hb. destruct Hb as (text & ->).
      exists (JString text), (last_data results). split; [reflexivity | now right].
  - unfold lift in H. inversion H as [[Hb Hs]].
    apply formatResultsBasic_shape in Hb. destruct Hb as (text & ->).
    exists (JString text), (last_data results). split; [reflexivity | now right].
Qed.

(** The summarizer answers whenever the model says whether it is
    configured and the template formatter can render the results. *)
Lemma summarize_total results toolsUsed originalMessage s configured w basic :
  isConfigured (world s) = (Ok configured, w) ->
  formatResultsBasic results toolsUsed = Ok basic ->
  exists response s',
    summarizeResultsWithLLM results toolsUsed originalMessage s = (Ok response, s').
Proof.
  intros Hconf Hbasic. unfold summarizeResultsWithLLM. unfold bind at 1.
  unfold llm_configured. rewrite Hconf. destruct configured; cbn [negb].
  - unfold try_catch.
    match goal with
    | |- exists _ _, match ?body ?st with _ => _ end = _ =>
        destruct (body st) as [[a|e] s2]
    end.
    + now exists a, s2.
    + unfold lift. rewrite Hbasic. now eexists; eexists.
  - unfold lift. rewrite Hbasic. now eexists; eexists.
Qed.

(** The summarizer, path by path: the model writes the summary when it is
    configured, the context can be built, and the completion and the
    reading of its text succeed; everything else ends in the template
    formatter. *)
Lemma summarize_run results toolsUsed originalMessage (s : State W) :
  summarizeResultsWithLLM results toolsUsed originalMessage s
  = let basic := formatResultsBasic results toolsUsed in
    match isConfigured (world s) with
    | (Throw e, w) => (Throw e, with_world s w)
    | (Ok false, w) => (basic, with_world s w)
    | (Ok true, w) =>
        match result_context results "" with
        | Throw _ => (basic, with_world s w)
        | Ok resultContext =>
            let prompt := summaryMessages originalMessage resultContext in
            match chatCompletion prompt None (mkOptions (5, 10)%Z 1024%Z) w with
            | (Throw _, w') =>
                (basic, mkState w' (chatHistory s) (executed s) (asked s ++ [prompt]))
            | (Ok summaryResponse, w') =>
                let s' := mkState w' (chatHistory s) (executed s) (asked s ++ [prompt]) in
                match getContent summaryResponse with
                | Throw _ => (basic, s')
                | Ok summary =>
                    if truthy summary
                    then (Ok (Answer summary (Some (summary_data results)) toolsUsed), s')
                    else match basic with
                         | Ok written =>
                             (Ok (Answer (match response_content written with
                                          | Some c => c
                                          | None => JUndefined
                                          end)
                                         (Some (summary_data results)) toolsUsed), s')
                         | Throw e => (Throw e, s')
                         end
                end
            end
        end
    end.
Proof.
  cbv zeta. unfold summarizeResultsWithLLM. unfold bind at 1. unfold llm_configured.
  destruct (isConfigured (world s)) as [[[|]|e] w]; cbn [negb]; try reflexivity.
  unfold try_catch. unfold bind at 1. unfold lift at 1.
  destruct (result_context results "") as [resultContext|e]; [|reflexivity].
  unfold bind at 1. unfold ask_llm. cbn [world with_world chatHistory executed asked].
  destruct (chatCompletion (summaryMessages originalMessage resultContext) None
                           (mkOptions (5, 10)%Z 1024%Z) w) as [[summaryResponse|e] w'];
    [|reflexivity].
  unfold bind at 1. unfold lift at 1.
  destruct (getContent summaryResponse) as [summary|e]; [|reflexivity].
  destruct (truthy summary).
  - reflexivity.
  - unfold bind, lift, ret.
    destruct (formatResultsBasic results toolsUsed) as [written|e]; reflexivity.
Qed.



(** ** The stored history *)

Lemma blind_ret {A : Type} (a : A) : blind (ret (S := State W) a).
Proof. intros h s. reflexivity. Qed.

Lemma blind_throw {A : Type} (e : JsError) : blind (throw (S := State W) (A := A) e).
Proof. intros h s. reflexivity. Qed.

Lemma blind_lift {A : Type} (o : Outcome A) : blind (lift (S := State W) o).
Proof. intros h s. reflexivity. Qed.

Lemma blind_bind {A B : Type} (m : M W A) (k : A -> M W B) :
  blind m -> (forall a, blind (k a)) -> blind (bind m k).
Proof.
  intros Hm Hk h s. unfold bind. rewrite Hm.
  destruct (m s) as [[a|e] s1]; cbn [fst snd]; [|reflexivity].
  rewrite Hk. now destruct (k a s1).
Qed.

Lemma blind_try_catch {A : Type} (m : M W A) (k : JsError -> M W A) :
  blind m -> (forall e, blind (k e)) -> blind (try_catch m k).
Proof.
  intros Hm Hk h s. unfold try_catch. rewrite Hm.
  destruct (m s) as [[a|e] s1]; cbn [fst snd]; [reflexivity|].
  rewrite Hk. now destruct (k e s1).
Qed.

Lemma blind_if {A : Type} (b : bool) (m1 m2 : M W A) :
  blind m1 -> blind m2 -> blind (if b then m1 else m2).
Proof. now destruct b. Qed.

Lemma blind_run_tool name args : blind (run_tool name args).
Proof.
  intros h s. unfold run_tool. cbn [with_history world executed asked chatHistory].
  now destruct (executeTool name args (world s)).
Qed.

Lemma blind_llm_configured : blind llm_configured.
Proof.
  intros h s. unfold llm_configured. cbn [with_history world].
  now destruct (isConfigured (world s)).
Qed.

Lemma blind_ask_llm messages tools options : blind (ask_llm messages tools options).
Proof.
  intros h s. unfold ask_llm. cbn [with_history world executed asked chatHistory].
  now destruct (chatCompletion messages tools options (world s)).
Qed.

Ltac blindly :=
  repeat first
    [ apply blind_bind; [|intros ?]
    | apply blind_try_catch; [|intros ?]
    | apply blind_if
    | apply blind_ret
    | apply blind_throw
    | apply blind_lift
    | apply blind_run_tool
    | apply blind_llm_configured
    | apply blind_ask_llm ].

Lemma blind_summarize results toolsUsed originalMessage :
  blind (summarizeResultsWithLLM results toolsUsed originalMessage).
Proof. unfold summarizeResultsWithLLM. blindly. Qed.

Lemma blind_scan (autoMode : bool) (calls : list ToolCall) :
  forall results toolsUsed, blind (scan_tool_calls calls autoMode results toolsUsed).
Proof.
  induction calls as [|call calls IH]; intros results toolsUsed; cbn [scan_tool_calls].
  - apply blind_ret.
  - apply blind_if; [apply blind_ret|]. apply blind_bind; [blindly | intros r; apply IH].
Qed.

Lemma blind_handleToolCalls calls autoMode originalMessage :
  blind (handleToolCalls calls autoMode originalMessage).
Proof.
  unfold handleToolCalls. apply blind_bind; [apply blind_scan|].
  intros [[results toolsUsed] [p|]]; [blindly | apply blind_summarize].
Qed.

Lemma blind_executeApprovedAction action : blind (executeApprovedAction action).
Proof.
  unfold executeApprovedAction. apply blind_bind; [blindly|].
  intros [result|response]; [apply blind_summarize | apply blind_ret].
Qed.

Lemma blind_rules_loop (ps : list Pattern) (message : string) :
  blind (rules_loop ps message).
Proof.
  induction ps as [|p ps IH]; cbn [rules_loop]; [apply blind_ret|].
  apply blind_if; [blindly | exact IH].
Qed.

Lemma blind_handleWithRules (message : Json) : blind (handleWithRules message).
Proof.
  unfold handleWithRules. apply blind_bind; [apply blind_lift|].
  intros _. apply blind_rules_loop.
Qed.

Lemma blind_consult_model messages tools : blind (consult_model messages tools).
Proof.
  unfold consult_model. apply blind_bind; [apply blind_llm_configured|].
  intros configured. apply blind_if; [apply blind_ret|].
  apply blind_bind; [apply blind_ask_llm|]. intros response.
  apply blind_bind; [apply blind_lift|]. intros [[|call rest]|]; blindly.
Qed.

Lemma with_history_same (s : State W) : with_history (chatHistory s) s = s.
Proof. now destruct s. Qed.

Lemma blind_keeps_history {A : Type} (m : M W A) : blind m -> keeps chatHistory m.
Proof.
  intros Hm s. specialize (Hm (chatHistory s) s). rewrite with_history_same in Hm.
  destruct (m s) as [r s1]; cbn [fst snd] in *. now inversion Hm.
Qed.

Lemma processMessage_fresh (input : TurnInput) (s : State W) :
  approvedAction input = None ->
  processMessage input s
  = after_remember input (with_history (slice_last 20 (history input)) s).
Proof. intros H. unfold processMessage. now rewrite H. Qed.

Lemma after_remember_keeps_history (input : TurnInput) :
  keeps chatHistory (after_remember input).
Proof.
  intros s. unfold after_remember. unfold bind at 1. unfold getHistory.
  apply (blind_keeps_history (m := bind _ _)).
  apply blind_bind.
  - apply blind_try_catch; [apply blind_consult_model|]. intros e; blindly.
  - intros [response| |toolCalls];
      [apply blind_ret | apply blind_handleWithRules | apply blind_handleToolCalls].
Qed.

(** C5 (amended).  What [processMessage] answers, and what it does to the
    world, to the tools and to the model, does not depend on the history
    stored by earlier turns: the continuity it uses is the caller's.  But
    the module does keep state between turns: after a turn without an
    approved action the stored history is the caller's history cut to its
    last 20 entries, which is what [getHistory] then returns; a turn with
    an approved action leaves the stored history as it was. *)
Theorem continuity_is_caller_supplied (input : TurnInput) (s : State W) :
  (forall h,
     fst (processMessage input (with_history h s)) = fst (processMessage input s)
     /\ world (snd (processMessage input (with_history h s)))
        = world (snd (processMessage input s))
     /\ executed (snd (processMessage input (with_history h s)))
        = executed (snd (processMessage input s))
     /\ asked (snd (processMessage input (with_history h s)))
        = asked (snd (processMessage input s)))
  /\ (approvedAction input = None ->
        chatHistory (snd (processMessage input s)) = slice_last 20 (history input)
        /\ fst (getHistory (snd (processMessage input s)))
           = Ok (slice_last 20 (history input)))
  /\ (forall action, approvedAction input = Some action ->
        chatHistory (snd (processMessage input s)) = chatHistory s).
Proof.
  split; [|split].
  - intros h. destruct (approvedAction input) as [action|] eqn:Happroved.
    + assert (Hrun : forall t, processMessage input t = executeApprovedAction action t)
        by (intros t; unfold processMessage; now rewrite Happroved).
      rewrite !Hrun. rewrite (blind_executeApprovedAction action h s).
      cbn [fst snd with_history world executed asked]. now repeat split.
    + rewrite !(processMessage_fresh _ _ Happroved). now repeat split.
  - intros Happroved. rewrite (processMessage_fresh _ _ Happroved).
    unfold getHistory. cbn [fst]. now rewrite after_remember_keeps_history.
  - intros action Happroved. unfold processMessage. rewrite Happroved.
    apply (blind_keeps_history (blind_executeApprovedAction action)).
Qed.

(** ** The prompts sent to the model *)

Section Prompts.
Variable P : list LlmMessage -> Prop.

Lemma grows_ret {A : Type} (a : A) : grows P (ret (S := State W) a).
Proof. intros s. exists []. cbn. now rewrite app_nil_r. Qed.

Lemma grows_throw {A : Type} (e : JsError) :
  grows P (throw (S := State W) (A := A) e).
Proof. intros s. exists []. cbn. now rewrite app_nil_r. Qed.

Lemma grows_lift {A : Type} (o : Outcome A) : grows P (lift (S := State W) o).
Proof. intros s. exists []. cbn. now rewrite app_nil_r. Qed.

Lemma grows_bind {A B : Type} (m : M W A) (k : A -> M W B) :
  grows P m -> (forall a, grows P (k a)) -> grows P (bind m k).
Proof.
  intros Hm Hk s. unfold bind. destruct (Hm s) as (x1 & E1 & F1).
  destruct (m s) as [[a|e] s1]; cbn [snd] in *.
  - destruct (Hk a s1) as (x2 & E2 & F2). exists (x1 ++ x2).
    rewrite E2, E1, app_assoc. split; [reflexivity | now apply Forall_app].
  - now exists x1.
Qed.

Lemma grows_try_catch {A : Type} (m : M W A) (k : JsError -> M W A) :
  grows P m -> (forall e, grows P (k e)) -> grows P (try_catch m k).
Proof.
  intros Hm Hk s. unfold try_catch. destruct (Hm s) as (x1 & E1 & F1).
  destruct (m s) as [[a|e] s1]; cbn [snd] in *.
  - now exists x1.
  - destruct (Hk e s1) as (x2 & E2 & F2). exists (x1 ++ x2).
    rewrite E2, E1, app_assoc. split; [reflexivity | now apply Forall_app].
Qed.

Lemma grows_if {A : Type} (b : bool) (m1 m2 : M W A) :
  grows P m1 -> grows P m2 -> grows P (if b then m1 else m2).
Proof. now destruct b. Qed.

Lemma grows_keeps {A : Type} (m : M W A) : keeps asked m -> grows P m.
Proof. intros Hm s. exists []. now rewrite Hm, app_nil_r. Qed.

Lemma grows_ask_llm messages tools options :
  P messages -> grows P (ask_llm messages tools options).
Proof.
  intros HP s. exists [messages]. unfold ask_llm.
  destruct (chatCompletion messages tools options (world s)).
  split; [reflexivity | now constructor].
Qed.

Hypothesis summaries : forall originalMessage resultContext,
  P (summaryMessages originalMessage resultContext).

Ltac growing :=
  repeat first
    [ apply grows_bind; [|intros ?]
    | apply grows_try_catch; [|intros ?]
    | apply grows_if
    | apply grows_ret
    | apply grows_throw
    | apply grows_lift
    | apply grows_keeps; apply llm_configured_keeps_asked
    | apply grows_keeps; apply run_tool_keeps_asked
    | apply grows_ask_llm; apply summaries ].

Lemma grows_summarize results toolsUsed originalMessage :
  grows P (summarizeResultsWithLLM results toolsUsed originalMessage).
Proof. unfold summarizeResultsWithLLM. growing. Qed.

Lemma grows_handleToolCalls calls autoMode originalMessage :
  grows P (handleToolCalls calls autoMode originalMessage).
Proof.
  unfold handleToolCalls. apply grows_bind.
  - apply grows_keeps. intros s.
    destruct (scan_gate autoMode calls [] [] s) as (done & v & s' & E & _ & Hask & _).
    now rewrite E.
  - intros [[results toolsUsed] [p|]]; [growing | apply grows_summarize].
Qed.

Lemma grows_executeApprovedAction action : grows P (executeApprovedAction action).
Proof.
  unfold executeApprovedAction. apply grows_bind; [growing|].
  intros [result|response]; [apply grows_summarize | apply grows_ret].
Qed.

Lemma grows_rules_loop (ps : list Pattern) (message : string) :
  grows P (rules_loop ps message).
Proof.
  induction ps as [|p ps IH]; cbn [rules_loop]; [apply grows_ret|].
  apply grows_if; [growing | exact IH].
Qed.

Lemma grows_handleWithRules (message : Json) : grows P (handleWithRules message).
Proof.
  unfold handleWithRules. apply grows_bind; [apply grows_lift|].
  intros _. apply grows_rules_loop.
Qed.

Lemma grows_consult_model messages tools :
  P messages -> grows P (consult_model messages tools).
Proof.
  intros HP. unfold consult_model. apply grows_bind; [growing|].
  intros configured. apply grows_if; [apply grows_ret|].
  apply grows_bind; [now apply grows_ask_llm|]. intros response.
  apply grows_bind; [apply grows_lift|]. intros [[|call rest]|]; growing.
Qed.

End Prompts.

Lemma slice_last_suffix {A : Type} (n : nat) (l : list A) :
  (exists older, l = older ++ slice_last n l)
  /\ List.length (slice_last n l) = Nat.min n (List.length l).
Proof.
  unfold slice_last. split.
  - exists (firstn (List.length l - n) l). now rewrite firstn_skipn.
  - rewrite length_skipn. lia.
Qed.

(** C6.  The history that [processMessage] stores and builds the model
    context from is the caller's history cut to its most recent 20
    entries: a suffix of it, of length [min 20 (length history)], so of 20
    entries when the caller gave more and never of more than 20.  Every
    prompt the turn sends to the model is either the context built from
    that cut history (the system prompt, its entries, the message: at most
    22 messages) or a summary request, which holds no history. *)
Theorem history_cut_to_last_20 (input : TurnInput) (s : State W) :
  let h := slice_last 20 (history input) in
  (exists older, history input = older ++ h)
  /\ List.length h = Nat.min 20 (List.length (history input))
  /\ (20 < List.length (history input) -> List.length h = 20)
  /\ List.length h <= 20
  /\ (approvedAction input = None ->
        chatHistory (snd (processMessage input s)) = h)
  /\ (List.length (chatHistory s) <= 20 ->
        List.length (chatHistory (snd (processMessage input s))) <= 20)
  /\ (exists extra,
        asked (snd (processMessage input s)) = asked s ++ extra
        /\ Forall (turn_prompt h (message input)) extra)
  /\ List.length (build_messages h (message input)) <= 22.
Proof.
  intros h. destruct (slice_last_suffix 20 (history input)) as [Hsuffix Hlen].
  fold h in Hsuffix, Hlen.
  assert (Hsum : forall originalMessage resultContext,
             turn_prompt h (message input)
                         (summaryMessages originalMessage resultContext)).
  { intros m c. right. now exists m, c. }
  assert (Hstored : approvedAction input = None ->
                    chatHistory (snd (processMessage input s)) = h).
  { intros Happroved. rewrite (processMessage_fresh _ _ Happroved).
    now rewrite after_remember_keeps_history. }
  split; [exact Hsuffix|]. split; [exact Hlen|]. split; [lia|]. split; [lia|].
  split; [exact Hstored|]. split; [|split].
  - intros Hinv. destruct (approvedAction input) as [action|] eqn:Happroved.
    + unfold processMessage. rewrite Happroved.
      now rewrite (blind_keeps_history (blind_executeApprovedAction action)).
    + rewrite Hstored by reflexivity. lia.
  - destruct (approvedAction input) as [action|] eqn:Happroved.
    + unfold processMessage. rewrite Happroved.
      now apply grows_executeApprovedAction.
    + rewrite (processMessage_fresh _ _ Happroved).
      unfold after_remember. unfold bind at 1. unfold getHistory at 1.
      cbn [with_history chatHistory]. fold h.
      match goal with
      | |- exists extra, asked (snd (?m ?st)) = _ /\ _ =>
          assert (G : grows (turn_prompt h (message input)) m)
      end.
      { apply grows_bind.
        - apply grows_try_catch.
          + apply grows_consult_model. now left.
          + intros e. apply grows_if; [apply grows_ret | apply grows_throw].
        - intros [response| |toolCalls].
          + apply grows_ret.
          + apply grows_handleWithRules.
          + now apply grows_handleToolCalls. }
      exact (G (with_history h s)).
  - unfold build_messages. cbn [List.length]. rewrite length_app, length_map.
    cbn [List.length]. lia.
Qed.

(** ** The rule-based fallback *)

(** The fallback always answers: what its tool or the formatter throws
    becomes an error line. *)
Lemma rules_loop_total (ps : list Pattern) (message : string) (s : State W) :
  exists response s', rules_loop ps message s = (Ok response, s').
Proof.
  induction ps as [|p ps IH]; cbn [rules_loop].
  - now eexists; eexists.
  - destruct (test (pat_match p) message); [|exact IH].
    unfold try_catch, bind, run_tool, lift, ret.
    destruct (executeTool (pat_tool p) (pat_args p) (world s)) as [[data|error] w].
    + destruct (formatToolResult (pat_tool p) data); now eexists; eexists.
    + now eexists; eexists.
Qed.

Lemma rules_loop_no_match (ps : list Pattern) (message : string) (s : State W) :
  find (fun p => test (pat_match p) message) ps = None ->
  rules_loop ps message s = (Ok (Answer (JString help_text) None []), s).
Proof.
  induction ps as [|p ps IH]; cbn [rules_loop find]; [reflexivity|].
  now destruct (test (pat_match p) message).
Qed.

Lemma handleWithRules_total (text : string) (s : State W) :
  exists response s', handleWithRules (JString text) s = (Ok response, s').
Proof. rewrite handleWithRules_text. apply rules_loop_total. Qed.

Lemma toLowerCase_not_text (message : Json) :
  is_string message = false -> toLowerCase message = Throw (type_error "toLowerCase").
Proof. destruct message; cbn; intros H; try discriminate; reflexivity. Qed.


End OrchestratorFacts.



(** C2, counterexample.  With auto-mode off, an approved action naming a
    tool that requires approval is executed. *)
Lemma approved_action_bypasses_gate :
  autoMode approve_sql = false
  /\ requiresApproval "execute_sql_query" = true
  /\ needsApproval "execute_sql_query" (autoMode approve_sql) = true
  /\ executed (start offline) = []
  /\ executed (snd (processMessage approve_sql (start offline))) = [call_sql].
Proof. repeat split; reflexivity. Qed.



(** C5, counterexample.  The module starts with no stored history; after
    one turn it holds the history of that turn, which [getHistory] returns:
    something persists between turns inside the orchestrator. *)
Lemma history_persists_between_turns :
  fst (getHistory (start offline)) = Ok []
  /\ fst (getHistory (snd (processMessage greeting (start offline))))
     = Ok [mkChat "user" "hi" "09:00"].
Proof. split; reflexivity. Qed.




(* ===================================================================== *)
(** * Properties of the query poller *)
(* ===================================================================== *)

Section PollerFacts.
Local Open Scope list_scope.
Local Open Scope Z_scope.
Context {JN : JsNumber} {JH : JsHost}.
Context {W : Type} {QS : QueryService W} {RT : Runtime W}.

Lemma sleeps_slept (tr : list PollEvent) (ms : Z) :
  sleeps (tr ++ [Slept ms]) = S (sleeps tr).
Proof. unfold sleeps. rewrite filter_app, length_app. cbn. lia. Qed.

Lemma sleeps_fetched (tr : list PollEvent) (id : Json) :
  sleeps (tr ++ [Fetched id]) = sleeps tr.
Proof. unfold sleeps. rewrite filter_app, length_app. cbn. lia. Qed.

Lemma sleeps_submitted (tr : list PollEvent) (queryData : Json) :
  sleeps (tr ++ [Submitted queryData]) = sleeps tr.
Proof. unfold sleeps. rewrite filter_app, length_app. cbn. lia. Qed.

Lemma submits_slept (tr : list PollEvent) (ms : Z) :
  submits (tr ++ [Slept ms]) = submits tr.
Proof. unfold submits. rewrite filter_app, length_app. cbn. lia. Qed.

Lemma submits_fetched (tr : list PollEvent) (id : Json) :
  submits (tr ++ [Fetched id]) = submits tr.
Proof. unfold submits. rewrite filter_app, length_app. cbn. lia. Qed.

Lemma submits_submitted (tr : list PollEvent) (queryData : Json) :
  submits (tr ++ [Submitted queryData]) = S (submits tr).
Proof. unfold submits. rewrite filter_app, length_app. cbn. lia. Qed.

Lemma running_fields (job : Json) :
  running job = true ->
  exists state id,
    get job "state" = Ok state /\ non_terminal state = true /\ get job "id" = Ok id.
Proof.
  unfold running. destruct job; cbn; intros H; try discriminate;
    eexists; eexists; repeat split; try reflexivity; exact H.
Qed.

Lemma poll_terminal (fuel : nat) (startTime : Z) (result state : Json)
    (s : PollState W) :
  get result "state" = Ok state ->
  non_terminal state = false ->
  poll (S fuel) startTime result s = (Ok (Some (mkHttp 200 result)), s).
Proof.
  intros Hget Hterm. cbn [poll]. unfold bind, lift. rewrite Hget, Hterm. reflexivity.
Qed.

Lemma lookup_set_same (k : string) (v : Json) (fields : list (string * Json)) :
  lookup k (set_field k v fields) = v.
Proof.
  induction fields as [|[k' v'] fields IH]; cbn [set_field].
  - cbn [lookup]. now rewrite String.eqb_refl.
  - destruct (String.eqb k k') eqn:E; cbn [lookup].
    + now rewrite String.eqb_refl.
    + now rewrite E.
Qed.

Lemma lookup_set_other (k k' : string) (v : Json) (fields : list (string * Json)) :
  String.eqb k k' = false ->
  lookup k (set_field k' v fields) = lookup k fields.
Proof.
  intros Hk. induction fields as [|[k2 v2] fields IH]; cbn [set_field].
  - cbn [lookup]. now rewrite Hk.
  - destruct (String.eqb k' k2) eqn:E; cbn [lookup].
    + apply String.eqb_eq in E. subst k2. now rewrite Hk.
    + destruct (String.eqb k k2); [reflexivity | exact IH].
Qed.

Lemma still_running_marked (result : Json) :
  exists fields,
    still_running result = JObject fields
    /\ lookup "polling" fields = JBool true
    /\ lookup "message" fields = JString "Query is still running. Check back later.".
Proof.
  unfold still_running. eexists. split; [reflexivity|]. split.
  - apply lookup_set_same.
  - rewrite lookup_set_other by reflexivity. apply lookup_set_same.
Qed.

(** The loop on a job that never ends.  [n] counts the sleeps made since
    [startTime]; each lasted [pollInterval], so [n] of them fit in the time
    elapsed. *)
Lemma poll_running (L : Z) :
  (forall ms w, now (sleep ms w) = now w + ms) ->
  (forall id w, exists job w',
      getQueryDetails id w = (Ok job, w')
      /\ running job = true
      /\ now w <= now w' <= now w + L) ->
  forall (fuel : nat) (startTime : Z) (result : Json) (s : PollState W) (n : Z),
    running result = true ->
    pollInterval * n <= now (poll_world s) - startTime ->
    n <= 16 ->
    now (poll_world s) - startTime <= timeout + pollInterval + L ->
    (1 <= fuel)%nat ->
    timeout < (Z.of_nat fuel - 1) * pollInterval + (now (poll_world s) - startTime) ->
    exists last s' k,
      poll fuel startTime result s
      = (Ok (Some (mkHttp 200 (still_running last))), s')
      /\ running last = true
      /\ sleeps (trace s') = (sleeps (trace s) + k)%nat
      /\ n + Z.of_nat k <= 16
      /\ submits (trace s') = submits (trace s)
      /\ timeout < now (poll_world s') - startTime <= timeout + pollInterval + L
      /\ ((last = result /\ s' = s)
          \/ exists id w0, getQueryDetails id w0 = (Ok last, poll_world s')).
Proof.
  intros Hsleep Hfetch.
  induction fuel as [|fuel IH];
    intros startTime result s n Hrun Hn Hn16 Hbound Hfuel Henough; [lia|].
  destruct (running_fields _ Hrun) as (state & id & Hstate & Hnon & Hid).
  cbn [poll]. unfold bind at 1. unfold lift at 1. rewrite Hstate, Hnon.
  unfold bind at 1. unfold date_now at 1.
  destruct (now (poll_world s) - startTime >? timeout) eqn:Hcheck.
  - exists result, s, 0%nat. unfold ret.
    apply Z.gtb_lt in Hcheck.
    split; [reflexivity|]. split; [exact Hrun|]. split; [lia|]. split; [lia|].
    split; [reflexivity|]. split; [lia|]. left. now split.
  - assert (Hle : now (poll_world s) - startTime <= timeout)
      by (rewrite Z.gtb_ltb in Hcheck; apply Z.ltb_ge in Hcheck; exact Hcheck).
    unfold bind at 1. unfold wait at 1.
    unfold bind at 1. unfold lift at 1. rewrite Hid.
    unfold bind at 1. unfold fetch at 1. cbn [poll_world trace].
    destruct (Hfetch id (sleep pollInterval (poll_world s)))
      as (job & w' & Hget & Hjob & Hclock).
    rewrite Hget. rewrite Hsleep in Hclock.
    unfold timeout, pollInterval in *.
    match goal with
    | |- exists last s' k, poll fuel startTime job ?st = _ /\ _ =>
        destruct (IH startTime job st (n + 1) Hjob) as (last & s' & k & Hgo & Hlast
                   & Hsl & Hk & Hsub & Htime & Hwhich);
        cbn [poll_world trace] in *; try lia
    end.
    exists last, s', (S k). split; [exact Hgo|]. split; [exact Hlast|].
    split; [rewrite Hsl, sleeps_fetched, sleeps_slept; lia|].
    split; [lia|].
    split; [rewrite Hsub, submits_fetched, submits_slept; reflexivity|].
    split; [lia|]. right.
    destruct Hwhich as [[-> ->]|Hlater]; [|exact Hlater].
    now exists id, (sleep 2000 (poll_world s)).
Qed.

Lemma get_any_key (v : Json) (k k' : string) (x : Json) :
  get v k = Ok x -> exists y, get v k' = Ok y.
Proof. destruct v; cbn; intros H; try discriminate; now eexists. Qed.

Lemma poll_trace (fuel : nat) :
  forall startTime result (s : PollState W),
  exists ids,
    trace (snd (poll fuel startTime result s)) = trace s ++ rounds ids.
Proof.
  induction fuel as [|fuel IH]; intros startTime result s; cbn [poll].
  - exists []. cbn. now rewrite app_nil_r.
  - unfold bind at 1. unfold lift at 1.
    destruct (get result "state") as [state|e] eqn:Hstate;
      [|exists []; cbn; now rewrite app_nil_r].
    destruct (non_terminal state); [|exists []; cbn; now rewrite app_nil_r].
    unfold bind at 1. unfold date_now at 1.
    destruct (now (poll_world s) - startTime >? timeout);
      [exists []; cbn; now rewrite app_nil_r|].
    unfold bind at 1. unfold wait at 1. unfold bind at 1. unfold lift at 1.
    destruct (get_any_key _ _ "id" Hstate) as (id & Hid). rewrite Hid.
    unfold bind at 1. unfold fetch at 1. cbn [poll_world trace].
    destruct (getQueryDetails id (sleep pollInterval (poll_world s))) as [[job|e] w'].
    + match goal with
      | |- exists ids, trace (snd (poll fuel startTime job ?st)) = _ =>
          destruct (IH startTime job st) as (ids & Hids)
      end.
      exists (id :: ids). rewrite Hids. cbn [trace rounds flat_map].
      now rewrite <- !app_assoc.
    + exists [id]. cbn. now rewrite <- app_assoc.
Qed.

Lemma submits_rounds (ids : list Json) : submits (rounds ids) = 0%nat.
Proof.
  unfold submits, rounds. induction ids as [|id ids IH]; [reflexivity|].
  cbn [flat_map app filter is_submit]. exact IH.
Qed.

Lemma sleeps_rounds (ids : list Json) : sleeps (rounds ids) = List.length ids.
Proof.
  unfold sleeps, rounds. induction ids as [|id ids IH]; [reflexivity|].
  cbn [flat_map app filter is_sleep List.length]. now rewrite IH.
Qed.

(** What the handler adds to the trace for a request with [sql]: one
    submission, then rounds of one sleep and one fetch. *)
Lemma post_queries_trace (fuel : nat) (body : QueryBody) (s : PollState W) :
  truthy (body_sql body) = true ->
  exists ids,
    trace (snd (post_queries fuel body s))
    = trace s ++ Submitted (query_data body (now (poll_world s))) :: rounds ids.
Proof.
  intros Hsql. unfold post_queries. rewrite Hsql. cbn [negb].
  unfold bind at 1. unfold date_now at 1. unfold bind at 1. unfold submit at 1.
  destruct (createQuery (query_data body (now (poll_world s))) (poll_world s))
    as [[created|e] w].
  - unfold bind at 1. unfold date_now at 1. cbn [poll_world].
    match goal with
    | |- exists ids, trace (snd (poll fuel ?t created ?st)) = _ =>
        destruct (poll_trace fuel t created st) as (ids & Hids)
    end.
    exists ids. rewrite Hids. cbn [trace]. now rewrite <- app_assoc.
  - exists []. reflexivity.
Qed.

(** C4 (amended).  A request without [sql] is refused with status 400 and
    nothing is submitted.  For a request with [sql], whatever the query
    service does and however the handler ends, the query is submitted
    exactly once; and for the job that the submission returns:
    - when it is in a terminal state, it is sent back unchanged after no
      sleep and no status fetch;
    - when it is running and never ends -- every status fetch reports it
      running --, then with exact timers and status fetches that take
      between 0 and [L] milliseconds the handler returns after at most 16
      sleeps the most recently fetched job, annotated with [polling: true]
      and the still-running message; it returns more than [timeout], and
      at most [timeout + pollInterval + L], after the submission returned:
      within [timeout + pollInterval] when the status fetches take no
      time. *)
Theorem submit_then_poll_is_bounded
    (fuel : nat) (body : QueryBody) (s : PollState W) :
  (truthy (body_sql body) = false ->
     post_queries fuel body s
     = (Ok (Some (mkHttp 400 (JObject [("error", JString "SQL query is required")]))), s))
  /\ (truthy (body_sql body) = true ->
      submits (trace (snd (post_queries fuel body s))) = S (submits (trace s))
      /\ forall created w,
           createQuery (query_data body (now (poll_world s))) (poll_world s)
           = (Ok created, w) ->
           let submitted :=
             mkPoll w (trace s ++ [Submitted (query_data body (now (poll_world s)))]) in
           (forall state,
              get created "state" = Ok state -> non_terminal state = false ->
              post_queries (S fuel) body s = (Ok (Some (mkHttp 200 created)), submitted)
              /\ sleeps (trace submitted) = sleeps (trace s))
           /\ (forall L,
                 (forall ms w, now (sleep ms w) = now w + ms) ->
                 (forall id w, exists job w',
                     getQueryDetails id w = (Ok job, w')
                     /\ running job = true
                     /\ now w <= now w' <= now w + L) ->
                 running created = true -> (17 <= fuel)%nat ->
                 exists last s',
                   post_queries fuel body s
                   = (Ok (Some (mkHttp 200 (still_running last))), s')
                   /\ (exists id w0, getQueryDetails id w0 = (Ok last, poll_world s'))
                   /\ (exists fields,
                         still_running last = JObject fields
                         /\ lookup "polling" fields = JBool true
                         /\ lookup "message" fields
                            = JString "Query is still running. Check back later.")
                   /\ (sleeps (trace s') <= sleeps (trace s) + 16)%nat
                   /\ timeout < now (poll_world s') - now w
                      <= timeout + pollInterval + L)).
Proof.
  split.
  - intros Hsql. unfold post_queries. now rewrite Hsql.
  - intros Hsql. split.
    { destruct (post_queries_trace fuel body s Hsql) as (ids & ->).
      change (Submitted (query_data body (now (poll_world s))) :: rounds ids)
        with ([Submitted (query_data body (now (poll_world s)))] ++ rounds ids).
      unfold submits at 1. rewrite !filter_app, !length_app.
      fold (submits (rounds ids)). fold (submits (trace s)). rewrite submits_rounds.
      cbn. lia. }
    intros created w Hcreate submitted.
    assert (Hrun : forall f,
               post_queries f body s = poll f (now w) created submitted).
    { intros f. unfold post_queries. rewrite Hsql. cbn [negb].
      unfold bind at 1. unfold date_now at 1.
      unfold bind at 1. unfold submit at 1. rewrite Hcreate.
      unfold bind at 1. unfold date_now at 1. reflexivity. }
    split.
    + intros state Hstate Hterm. split.
      * rewrite Hrun. now apply poll_terminal with state.
      * subst submitted. cbn [trace]. apply sleeps_submitted.
    + intros L Hsleep Hfetch Hrunning Hfuel.
      assert (HL : 0 <= L) by (destruct (Hfetch JNull w) as (j0 & w0 & _ & _ & Hw0); lia).
      destruct (@poll_running L Hsleep Hfetch fuel (now w) created submitted 0 Hrunning)
        as (last & s' & k & Hgo & _ & Hsl & Hk & Hsub & Htime & Hwhich);
        try (subst submitted; cbn [poll_world]; unfold timeout, pollInterval; lia).
      exists last, s'. rewrite Hrun. split; [exact Hgo|].
      subst submitted. cbn [poll_world trace] in *.
      rewrite sleeps_submitted in Hsl.
      split; [|split; [apply still_running_marked|]].
      * destruct Hwhich as [[_ ->]|Hlater]; [|exact Hlater].
        cbn [poll_world] in Htime. unfold timeout in Htime. lia.
      * split; [lia | exact Htime].
Qed.

End PollerFacts.

(** Witness, with status fetches that
    take no time: a job that has already succeeded comes back at once; a
    job that never ends comes back marked, 32000 ms later at most. *)
Lemma submit_then_poll_is_bounded_witness :
  post_queries (QS := RemoteQueries 0) 1 select_one (at_midnight (mkRemote 0 "SUCCESS"))
  = (Ok (Some (mkHttp 200 (remote_job "SUCCESS"))),
     mkPoll (mkRemote 0 "SUCCESS") [Submitted (query_data select_one 0)])
  /\ exists last s',
       post_queries (QS := RemoteQueries 0) 17 select_one
                    (at_midnight (mkRemote 0 "SUBMITTED"))
       = (Ok (Some (mkHttp 200 (still_running last))), s')
       /\ (clock (poll_world s') - 0 <= 32000)%Z.
Proof.
  assert (Hsleep : forall ms w, (now (sleep ms w) = now w + ms)%Z)
    by (intros ms w; reflexivity).
  assert (Hfetch : forall id w, exists job w',
             getQueryDetails (QueryService := RemoteQueries 0) id w = (Ok job, w')
             /\ running job = true
             /\ (now w <= now w' <= now w + 0)%Z).
  { intros id w. eexists; eexists. split; [reflexivity|]. split; [reflexivity|].
    cbn. lia. }
  split.
  - destruct (submit_then_poll_is_bounded (QS := RemoteQueries 0) 0%nat select_one
                (at_midnight (mkRemote 0 "SUCCESS"))) as [_ H].
    destruct (H eq_refl) as [_ Hjob].
    destruct (Hjob (remote_job "SUCCESS") (mkRemote 0 "SUCCESS") eq_refl)
      as [Hdone _].
    exact (proj1 (Hdone (JString "SUCCESS") eq_refl eq_refl)).
  - destruct (submit_then_poll_is_bounded (QS := RemoteQueries 0) 17%nat select_one
                (at_midnight (mkRemote 0 "SUBMITTED"))) as [_ H].
    destruct (H eq_refl) as [_ Hjob].
    destruct (Hjob (remote_job "SUBMITTED") (mkRemote 0 "SUBMITTED") eq_refl)
      as [_ Hpoll].
    destruct (Hpoll 0%Z Hsleep Hfetch eq_refl ltac:(lia))
      as (last & s' & Hgo & _ & _ & _ & Htime).
    exists last, s'. split; [exact Hgo|].
    cbn in Htime. unfold timeout, pollInterval in Htime. lia.
Defined.

(** C4, counterexample.  With exact timers and status fetches that take
    half a second, a job that never ends is returned 32500 ms after its
    submission, past [timeout + pollInterval]: the thirteenth sleep starts
    at 30000 ms, when the time budget is not yet exceeded. *)
Lemma poll_overruns_when_status_takes_time :
  clock (poll_world (at_midnight (mkRemote 0 "SUBMITTED"))) = 0%Z
  /\ fst (post_queries (QS := RemoteQueries 500) 20 select_one
            (at_midnight (mkRemote 0 "SUBMITTED")))
     = Ok (Some (mkHttp 200 (still_running (remote_job "IN_PROGRESS"))))
  /\ clock (poll_world (snd (post_queries (QS := RemoteQueries 500) 20 select_one
                               (at_midnight (mkRemote 0 "SUBMITTED")))))
     = 32500%Z
  /\ sleeps (trace (snd (post_queries (QS := RemoteQueries 500) 20 select_one
                           (at_midnight (mkRemote 0 "SUBMITTED")))))
     = 13%nat
  /\ (timeout + pollInterval < 32500 - 0)%Z.
Proof. repeat split; vm_compute; reflexivity. Qed.

(* ===================================================================== *)
(** * Further properties of the orchestrator *)
(* ===================================================================== *)

Section OrchestratorMore.
Local Open Scope list_scope.
Context {JN : JsNumber} {JH : JsHost}.
Context {W : Type} {TR : ToolRegistry W} {LLM : LlmService W}.

Lemma try_catch_ok {A : Type} (m : M W A) (h : JsError -> M W A) s a s' :
  try_catch m h s = (Ok a, s') ->
  m s = (Ok a, s') \/ exists e s1, m s = (Throw e, s1) /\ h e s1 = (Ok a, s').
Proof.
  unfold try_catch. destruct (m s) as [[x|e] s1]; intros H.
  - now left.
  - right. now exists e, s1.
Qed.

Lemma consult_model_keeps_executed messages tools :
  keeps executed (consult_model messages tools).
Proof.
  unfold consult_model. apply keeps_bind; [apply llm_configured_keeps_executed|].
  intros configured. apply keeps_if; [apply keeps_ret|].
  apply keeps_bind; [apply ask_llm_keeps_executed|]. intros response.
  apply keeps_bind; [apply keeps_lift|].
  intros [[|call rest]|];
    repeat first [apply keeps_bind; [|intros ?] | apply keeps_ret | apply keeps_lift].
Qed.

Lemma consult_model_responds_with_text messages tools s response s' :
  consult_model messages tools s = (Ok (Respond response), s') ->
  exists text, response = Answer text None [].
Proof.
  unfold consult_model. intros H.
  apply bind_ok in H. destruct H as (configured & s1 & _ & H).
  destruct configured; cbn [negb] in H; [|discriminate].
  apply bind_ok in H. destruct H as (r & s2 & _ & H).
  apply bind_ok in H. destruct H as (toolCalls & s3 & _ & H).
  destruct toolCalls as [[|call rest]|]; try discriminate.
  - apply bind_ok in H. destruct H as (text & s4 & _ & H). inversion H. now exists text.
  - apply bind_ok in H. destruct H as (text & s4 & _ & H). inversion H. now exists text.
Qed.

Lemma rules_loop_answers (ps : list Pattern) (message : string) s response s' :
  rules_loop ps message s = (Ok response, s') ->
  exists text data toolsUsed, response = Answer text data toolsUsed.
Proof.
  induction ps as [|p ps IH]; cbn [rules_loop]; intros H.
  - inversion H. now eexists; eexists; eexists.
  - destruct (test (pat_match p) message); [|now apply IH].
    unfold try_catch, bind, run_tool, lift, ret in H.
    destruct (executeTool (pat_tool p) (pat_args p) (world s)) as [[data|error] w].
    + destruct (formatToolResult (pat_tool p) data); inversion H;
        now eexists; eexists; eexists.
    + inversion H. now eexists; eexists; eexists.
Qed.

Lemma handleWithRules_answers (message : Json) s response s' :
  handleWithRules message s = (Ok response, s') ->
  exists text data toolsUsed, response = Answer text data toolsUsed.
Proof.
  destruct message as [| | | |text| |];
    try (rewrite handleWithRules_not_text by reflexivity; discriminate).
  rewrite handleWithRules_text. apply rules_loop_answers.
Qed.

Lemma executeApprovedAction_answers action s response s' :
  executeApprovedAction action s = (Ok response, s') ->
  exists text data toolsUsed, response = Answer text data toolsUsed.
Proof.
  unfold executeApprovedAction. intros H.
  apply bind_ok in H. destruct H as ([result|r] & s1 & Hrun & H).
  - apply summarize_shape in H. destruct H as (text & data & -> & _).
    now eexists; eexists; eexists.
  - unfold try_catch, bind, run_tool, ret in Hrun.
    destruct (executeTool (toolName action) (toolArguments action) (world s))
      as [[result|error] w]; inversion Hrun; subst.
    inversion H. now eexists; eexists; eexists.
Qed.

(** A scan that stops on a pending call stopped at the gate. *)
Lemma scan_pending (autoMode : bool) (calls : list ToolCall) :
  forall results toolsUsed s results' toolsUsed' pending s',
    scan_tool_calls calls autoMode results toolsUsed s
    = (Ok (results', toolsUsed', Some pending), s') ->
    In pending calls /\ needsApproval (call_name pending) autoMode = true.
Proof.
  induction calls as [|call calls IH];
    intros results toolsUsed s results' toolsUsed' pending s' H;
    cbn [scan_tool_calls] in H.
  - discriminate.
  - destruct (requiresApproval (call_name call) && negb autoMode) eqn:Hgate.
    + inversion H; subst. split; [now left | exact Hgate].
    + apply bind_ok in H. destruct H as (r & s1 & _ & H).
      apply IH in H. destruct H as [Hin Hneeds]. split; [now right | exact Hneeds].
Qed.

(** Where a pending-approval response of the scan comes from. *)
Lemma handleToolCalls_pending calls autoMode originalMessage s name args description s' :
  handleToolCalls calls autoMode originalMessage s
  = (Ok (PendingApproval name args description), s') ->
  autoMode = false
  /\ requiresApproval name = true
  /\ In (mkCall name args) calls
  /\ getActionDescription name args = Ok description
  /\ exists done,
       executed s' = executed s ++ done
       /\ forall c, In c done -> requiresApproval (call_name c) = false.
Proof.
  intros H. unfold handleToolCalls in H.
  destruct (scan_gate autoMode calls [] [] s)
    as (done & [[results toolsUsed] pending] & s1 & Hscan & Hex & _ & _ & Hdone).
  unfold bind at 1 in H. rewrite Hscan in H.
  destruct pending as [p|].
  - apply scan_pending in Hscan. destruct Hscan as [Hin Hneeds].
    unfold needsApproval in Hneeds. apply andb_prop in Hneeds.
    destruct Hneeds as [Hreq Hauto]. apply negb_true_iff in Hauto.
    unfold bind, lift, ret in H.
    destruct (getActionDescription (call_name p) (call_arguments p)) as [d|e] eqn:Hd;
      [|discriminate].
    inversion H; subst. destruct p as [n a]; cbn [call_name call_arguments] in *.
    split; [reflexivity|]. split; [exact Hreq|]. split; [exact Hin|].
    split; [exact Hd|]. exists done. split; [exact Hex|].
    intros c Hc. destruct (Hdone c Hc) as [_ Hpass].
    unfold needsApproval in Hpass. now rewrite andb_true_r in Hpass.
  - apply summarize_shape in H. destruct H as (text & data & Hresp & _). discriminate.
Qed.

(** X1.  A pending-approval response of [processMessage] comes from the
    gate only: the turn had no approved action, auto-mode was off, the
    named tool requires approval and its description could be rendered;
    and every tool executed in that turn is one that requires no approval
    (so the pending tool itself did not run).  With auto-mode on, or with
    an approved action, no pending-approval response is produced. *)
Theorem pending_only_from_the_gate
    (input : TurnInput) (s s' : State W) (name : string) (args : Json)
    (description : string) :
  processMessage input s = (Ok (PendingApproval name args description), s') ->
  approvedAction input = None
  /\ autoMode input = false
  /\ requiresApproval name = true
  /\ getActionDescription name args = Ok description
  /\ exists done,
       executed s' = executed s ++ done
       /\ forall c, In c done -> requiresApproval (call_name c) = false.
Proof.
  intros H. destruct (approvedAction input) as [action|] eqn:Happroved.
  - unfold processMessage in H. rewrite Happroved in H.
    apply executeApprovedAction_answers in H. destruct H as (t & d & u & H).
    discriminate.
  - rewrite (processMessage_fresh _ _ Happroved) in H. unfold after_remember in H.
    apply bind_ok in H. destruct H as (stored & s1 & Hstored & H).
    unfold getHistory in Hstored. inversion Hstored; subst stored s1; clear Hstored.
    apply bind_ok in H. destruct H as (step & s2 & Hstep & H).
    assert (Hex2 : executed s2 = executed s).
    { match type of Hstep with
      | ?m ?st = _ =>
          assert (Hk : keeps executed m)
            by (apply keeps_try_catch;
                [ apply consult_model_keeps_executed
                | intros e; apply keeps_if; [apply keeps_ret | apply keeps_throw] ]);
          specialize (Hk st)
      end.
      rewrite Hstep in Hk. exact Hk. }
    destruct step as [response| |toolCalls].
    + inversion H; subst response s2. apply try_catch_ok in Hstep.
      destruct Hstep as [Hconsult|(e & s3 & _ & Hhandler)].
      * apply consult_model_responds_with_text in Hconsult.
        destruct Hconsult as (text & Htext). discriminate.
      * destruct (truthy (err_message e)); discriminate.
    + apply handleWithRules_answers in H. destruct H as (t & d & u & H). discriminate.
    + apply handleToolCalls_pending in H.
      destruct H as (Hauto & Hreq & _ & Hd & done & Hex & Hdone).
      split; [reflexivity|]. split; [exact Hauto|]. split; [exact Hreq|].
      split; [exact Hd|]. exists done. split; [now rewrite Hex, Hex2 | exact Hdone].
Qed.

Lemma after_remember_executed (input : TurnInput) (s : State W) :
  exists done,
    executed (snd (after_remember input s)) = executed s ++ done
    /\ ((forall c, In c done -> needsApproval (call_name c) (autoMode input) = false)
        \/ done = match message input with
                  | JString text =>
                      match first_match text with
                      | Some p => [mkCall (pat_tool p) (pat_args p)]
                      | None => []
                      end
                  | _ => []
                  end).
Proof.
  unfold after_remember. unfold bind at 1. unfold getHistory at 1. unfold bind at 1.
  match goal with
  | |- context [try_catch ?m ?h s] =>
      assert (Hk : keeps executed (try_catch m h))
        by (apply keeps_try_catch;
            [ apply consult_model_keeps_executed
            | intros e; apply keeps_if; [apply keeps_ret | apply keeps_throw] ]);
      specialize (Hk s); destruct (try_catch m h s) as [[step|e] s2]
  end; cbn [snd] in Hk.
  - destruct step as [response| |toolCalls].
    + exists []. cbn. rewrite app_nil_r. split; [exact Hk|]. left. intros c [].
    + exists (match message input with
              | JString text =>
                  match first_match text with
                  | Some p => [mkCall (pat_tool p) (pat_args p)]
                  | None => []
                  end
              | _ => []
              end).
      split; [|now right]. rewrite handleWithRules_executed.
      now rewrite Hk.
    + destruct (handleToolCalls_gate toolCalls (autoMode input) (message input) s2)
        as (done & Hex & Hdone).
      exists done. split; [now rewrite Hex, Hk|]. left.
      intros c Hc. now apply Hdone.
  - exists []. cbn. rewrite app_nil_r. split; [exact Hk|]. left. intros c [].
Qed.

(** X2.  The tools a turn executes, whatever its outcome: with an approved
    action, that action and nothing else; otherwise either calls that the
    gate let pass (none at all when the model answers in text or fails
    without a message), or the single tool of the first fallback pattern
    that matches the message (none when the message is not a string). *)
Theorem turn_executes_only_these_tools (input : TurnInput) (s : State W) :
  exists done,
    executed (snd (processMessage input s)) = executed s ++ done
    /\ match approvedAction input with
       | Some action => done = [mkCall (toolName action) (toolArguments action)]
       | None =>
           (forall c, In c done -> needsApproval (call_name c) (autoMode input) = false)
           \/ done = match message input with
                     | JString text =>
                         match first_match text with
                         | Some p => [mkCall (pat_tool p) (pat_args p)]
                         | None => []
                         end
                     | _ => []
                     end
       end.
Proof.
  destruct (approvedAction input) as [action|] eqn:Happroved.
  - exists [mkCall (toolName action) (toolArguments action)]. split; [|reflexivity].
    unfold processMessage. rewrite Happroved. apply executeApprovedAction_executed.
  - rewrite (processMessage_fresh _ _ Happroved).
    destruct (after_remember_executed input
                (with_history (slice_last 20 (history input)) s)) as (done & Hex & Hdone).
    exists done. split; [exact Hex | exact Hdone].
Qed.

Lemma rules_loop_first_match (ps : list Pattern) (message : string) (s : State W) :
  rules_loop ps message s
  = match find (fun p => test (pat_match p) message) ps with
    | None => (Ok (Answer (JString help_text) None []), s)
    | Some p =>
        match executeTool (pat_tool p) (pat_args p) (world s) with
        | (Ok data, w) =>
            (Ok (match formatToolResult (pat_tool p) data with
                 | Ok text => Answer (JString text) (Some data) [pat_tool p]
                 | Throw e => rule_error (pat_tool p) e
                 end),
             after_tool s (pat_tool p) (pat_args p) w)
        | (Throw e, w) =>
            (Ok (rule_error (pat_tool p) e), after_tool s (pat_tool p) (pat_args p) w)
        end
    end.
Proof.
  induction ps as [|p ps IH]; cbn [rules_loop find]; [reflexivity|].
  destruct (test (pat_match p) message); [|exact IH].
  unfold try_catch, bind, run_tool, lift, ret, after_tool, rule_error.
  destruct (executeTool (pat_tool p) (pat_args p) (world s)) as [[data|error] w];
    [|reflexivity].
  now destruct (formatToolResult (pat_tool p) data).
Qed.

(** X3.  The rule-based fallback throws in one case only: when its
    message is not a string, it throws the TypeError of
    [message.toLowerCase()] before any pattern is tried, and runs nothing.
    On a string it never throws and uses the first pattern that matches,
    and only that one: with no match it answers the help text and runs
    nothing; with a match it runs the bound tool once with its static
    arguments and answers the formatted data, or, when the tool or the
    formatter throws, an error line with the tool name in [toolsUsed] and
    no data. *)
Theorem fallback_runs_the_first_match (message : Json) (s : State W) :
  handleWithRules message s
  = match message with
    | JString text =>
        match first_match text with
        | None => (Ok (Answer (JString help_text) None []), s)
        | Some p =>
            match executeTool (pat_tool p) (pat_args p) (world s) with
            | (Ok data, w) =>
                (Ok (match formatToolResult (pat_tool p) data with
                     | Ok text => Answer (JString text) (Some data) [pat_tool p]
                     | Throw e => rule_error (pat_tool p) e
                     end),
                 after_tool s (pat_tool p) (pat_args p) w)
            | (Throw e, w) =>
                (Ok (rule_error (pat_tool p) e),
                 after_tool s (pat_tool p) (pat_args p) w)
            end
        end
    | _ => (Throw (type_error "toLowerCase"), s)
    end.
Proof.
  destruct message as [| | | |text| |];
    try (now apply handleWithRules_not_text).
  rewrite handleWithRules_text. unfold first_match. apply rules_loop_first_match.
Qed.


Lemma format_results_texts (results : list ToolResult) :
  (forall r, In r results -> truthy (res_error r) = false ->
     exists text, formatToolResult (res_tool r) (res_data r) = Ok text) ->
  forall content data,
  exists texts,
    Forall2 rendered results texts
    /\ format_results results content data
       = Ok ((content ++ concat_all texts)%string,
             fold_left (fun data r => if truthy (res_error r) then data else res_data r)
                       results data).
Proof.
  induction results as [|r results IH]; intros Hok content data.
  - exists []. split; [constructor|]. cbn. now rewrite append_empty.
  - assert (Hrest : forall r', In r' results -> truthy (res_error r') = false ->
                      exists text, formatToolResult (res_tool r') (res_data r') = Ok text)
      by (intros r' Hin; apply Hok; now right).
    cbn [format_results fold_left]. destruct (truthy (res_error r)) eqn:Herr.
    + destruct (IH Hrest (content ++ warning_line r)%string data) as (texts & Hall & Hrun).
      exists (warning_line r :: texts). split.
      * constructor; [|exact Hall]. unfold rendered. now rewrite Herr.
      * unfold warning_line in *. rewrite Hrun. cbn [concat_all fold_right].
        now rewrite !append_assoc.
    + destruct (Hok r (or_introl eq_refl) Herr) as (text & Htext). rewrite Htext.
      cbn [obind].
      destruct (IH Hrest (content ++ text)%string (res_data r)) as (texts & Hall & Hrun).
      exists (text :: texts). split.
      * constructor; [|exact Hall]. unfold rendered. now rewrite Herr.
      * rewrite Hrun. cbn [concat_all fold_right]. now rewrite append_assoc.
Qed.


Lemma batch_line_printable (i : nat) (b : Json) :
  printable_batch b = true ->
  batch_line i b
  = Ok (toStr (num (Z.of_nat i + 1)) ++ ". Batch `"
        ++ match opt_get b "id" with
           | JString id => str_substring 0 12 id
           | _ => "undefined"
           end
        ++ "...` - Failed at " ++ date_locale_string (opt_get b "created") ++ nl)%string.
Proof.
  unfold printable_batch, batch_line. intros Hb.
  apply andb_prop in Hb. destruct Hb as [Hnn Hid].
  destruct b as [| | x | n | str | items | fields]; try discriminate;
    cbn in Hid |- *; try reflexivity.
  destruct (lookup "id" fields); try discriminate; reflexivity.
Qed.

Lemma batch_lines_text (line : nat -> Json -> string) (n : nat) :
  forall items i msg,
    (forall j b, In b (firstn n items) -> batch_line j b = Ok (line j b)) ->
    batch_lines i (firstn n items) msg
    = Ok (msg ++ concat_all (map (fun ib => line (fst ib) (snd ib))
                                 (combine (seq i n) items)))%string.
Proof.
  induction n as [|n IH]; intros items i msg Hline.
  - cbn. now rewrite append_empty.
  - destruct items as [|b rest].
    + cbn. now rewrite append_empty.
    + cbn [firstn batch_lines seq combine map fst snd concat_all fold_right].
      rewrite (Hline i b) by (now left). cbn [obind].
      rewrite IH by (intros j b' Hin; apply Hline; now right).
      fold (concat_all (map (fun ib => line (fst ib) (snd ib))
                            (combine (seq (S i) n) rest))).
      now rewrite append_assoc.
Qed.

(** X6.  The failed-batches case prints the first five batches, and only
    inspects those: when they are printable (not null, with an [id] that
    is a string or missing) the text is the header with the full count,
    then for each of the first five batches, in order, the line with its
    number from 1, the first 12 code units of its id ("undefined" without
    an id) and its date, and, when there are more than five, the line that
    counts the rest -- whatever the batches after the fifth are. *)
Theorem failed_batches_prints_the_first_five (data : Json) (items : list Json) :
  opt_get data "batches" = JArray items ->
  items <> [] ->
  forallb printable_batch (firstn 5 items) = true ->
  formatToolResult "get_failed_batches" data
  = Ok ("📊 I found **" ++ toStr (num (Z.of_nat (List.length items)))
        ++ " failed batches** that need attention:" ++ nl ++ nl
        ++ concat_all
             (map (fun ib : nat * Json =>
                     toStr (num (Z.of_nat (fst ib) + 1)) ++ ". Batch `"
                     ++ match opt_get (snd ib) "id" with
                        | JString id => str_substring 0 12 id
                        | _ => "undefined"
                        end
                     ++ "...` - Failed at "
                     ++ date_locale_string (opt_get (snd ib) "created") ++ nl)
                  (combine (seq 0 5) items))
        ++ (if (5 <? List.length items)%nat
            then nl ++ "...and " ++ toStr (num (Z.of_nat (List.length items) - 5))
                 ++ " more. Would you like me to analyze any specific batch?" ++ nl
            else ""))%string.
Proof.
  intros Hbatches Hsome Hprintable.
  assert (Hrun := batch_lines_text
                    (fun i b =>
                       toStr (num (Z.of_nat i + 1)) ++ ". Batch `"
                       ++ match opt_get b "id" with
                          | JString id => str_substring 0 12 id
                          | _ => "undefined"
                          end
                       ++ "...` - Failed at "
                       ++ date_locale_string (opt_get b "created") ++ nl)%string
                    5 items 0
                    ("📊 I found **" ++ toStr (num (Z.of_nat (List.length items)))
                     ++ " failed batches** that need attention:" ++ nl ++ nl)%string).
  cbv beta in Hrun.
  unfold formatToolResult. cbn [String.eqb Ascii.eqb Bool.eqb].
  unfold format_failed_batches. rewrite Hbatches. unfold js_or. cbn [truthy length_of].
  unfold strict_is_zero, num at 1. rewrite num_is_zero_of_Z.
  replace (Z.of_nat (List.length items) =? 0)%Z with false
    by (symmetry; apply Z.eqb_neq; destruct items; [contradiction | cbn; lia]).
  rewrite Hrun.
  - cbn [obind]. destruct (5 <? List.length items)%nat.
    + now rewrite !append_assoc.
    + now rewrite append_empty, !append_assoc.
  - intros j b Hin. apply batch_line_printable.
    rewrite forallb_forall in Hprintable. now apply Hprintable.
Qed.

(** X7.  On a host where a prefix of [n] code units has at most [n] code
    units and lengths add up under concatenation, the text that the
    summarizer embeds in its prompt for one successful result is at most
    3003 code units long: the serialized data itself when that has at most
    3000, and otherwise its first 3000 followed by an ellipsis. *)
Theorem embedded_result_is_bounded
    (resultContext tool : string) (data : Json) (args : option Json) (dataStr : string) :
  (forall n s, (str_length (str_substring 0 n s) <= n)%nat) ->
  (forall a b, str_length (a ++ b)%string = (str_length a + str_length b)%nat) ->
  str_length "..." = 3%nat ->
  json_stringify data = Some dataStr ->
  exists piece,
    result_context_step resultContext (ResData tool data args)
    = Ok (resultContext ++ nl ++ "=== " ++ tool ++ " Result ===" ++ nl ++ piece ++ nl)%string
    /\ (str_length piece <= 3003)%nat
    /\ ((str_length dataStr <= 3000)%nat -> piece = dataStr)
    /\ ((3000 < str_length dataStr)%nat ->
        piece = (str_substring 0 3000 dataStr ++ "...")%string).
Proof.
  intros Hsub Happ Hdots Hjson.
  unfold result_context_step. cbn [res_error truthy res_data res_tool]. rewrite Hjson.
  destruct (3000 <? str_length dataStr)%nat eqn:Hlong.
  - apply Nat.ltb_lt in Hlong.
    exists (str_substring 0 3000 dataStr ++ "...")%string.
    split; [reflexivity|]. split; [|split].
    + rewrite Happ, Hdots. pose proof (Hsub 3000%nat dataStr). lia.
    + intros Hshort. lia.
    + reflexivity.
  - apply Nat.ltb_ge in Hlong. exists dataStr.
    split; [reflexivity|]. split; [lia|]. split; [reflexivity | intros Hl; lia].
Qed.

(** X8.  [clearHistory] empties the stored history and touches nothing
    else; a turn answers, and acts on the world, the tools and the model,
    exactly as it would have without the clearing. *)
Theorem clearing_history_changes_no_answer (input : TurnInput) (s : State W) :
  let cleared := snd (clearHistory s) in
  fst (getHistory cleared) = Ok []
  /\ world cleared = world s
  /\ executed cleared = executed s
  /\ asked cleared = asked s
  /\ fst (processMessage input cleared) = fst (processMessage input s)
  /\ world (snd (processMessage input cleared)) = world (snd (processMessage input s))
  /\ executed (snd (processMessage input cleared))
     = executed (snd (processMessage input s))
  /\ asked (snd (processMessage input cleared)) = asked (snd (processMessage input s)).
Proof.
  intros cleared. split; [reflexivity|]. split; [reflexivity|].
  split; [reflexivity|]. split; [reflexivity|].
  change cleared with (with_history [] s).
  destruct (approvedAction input) as [action|] eqn:Happroved.
  - assert (Hrun : forall t, processMessage input t = executeApprovedAction action t)
      by (intros t; unfold processMessage; now rewrite Happroved).
    rewrite !Hrun. rewrite (blind_executeApprovedAction action [] s).
    cbn [fst snd with_history world executed asked]. now repeat split.
  - rewrite !(processMessage_fresh _ _ Happroved). now repeat split.
Qed.

(** X9.  When the model is configured and answers without tool calls (none
    at all, or an empty list), the turn answers the model's text with no
    tool used: no tool is executed, and the one prompt sent is the system
    prompt, the last 20 entries of the history and the message. *)
Theorem text_answer_runs_no_tool
    (input : TurnInput) (s : State W) (w1 w2 : W) (response : LlmResponse)
    (toolCalls : option (list ToolCall)) (text : Json) :
  approvedAction input = None ->
  isConfigured (world s) = (Ok true, w1) ->
  chatCompletion (build_messages (slice_last 20 (history input)) (message input))
                 (Some getToolDefinitions) (mkOptions (7, 10)%Z 4096%Z) w1
  = (Ok response, w2) ->
  parseToolCalls response = Ok toolCalls ->
  toolCalls = None \/ toolCalls = Some [] ->
  getContent response = Ok text ->
  processMessage input s
  = (Ok (Answer text None []),
     mkState w2 (slice_last 20 (history input)) (executed s)
             (asked s ++ [build_messages (slice_last 20 (history input))
                                         (message input)])).
Proof.
  intros Happroved Hconf Hchat Hparse Hnone Htext.
  rewrite (processMessage_fresh _ _ Happroved). unfold after_remember.
  unfold bind at 1. unfold getHistory at 1. cbn [with_history chatHistory].
  unfold bind at 1. unfold try_catch, consult_model.
  unfold bind at 1. unfold llm_configured. cbn [with_history world]. rewrite Hconf.
  cbn [negb]. unfold bind at 1. unfold ask_llm.
  cbn [with_world world executed asked chatHistory].
  rewrite Hchat. unfold bind at 1. unfold lift at 1. rewrite Hparse.
  destruct Hnone as [->| ->]; unfold bind, lift, ret; now rewrite Htext.
Qed.

(** The tool calls that the body of the [try] hands over are those that
    [parseToolCalls] read in the response of the model to the prompt. *)
Lemma consult_model_calls messages tools s calls s' :
  consult_model messages tools s = (Ok (ToToolCalls calls), s') ->
  exists w response,
    chatCompletion messages (Some tools) (mkOptions (7, 10)%Z 4096%Z) w
    = (Ok response, world s')
    /\ parseToolCalls response = Ok (Some calls).
Proof.
  unfold consult_model. intros H.
  apply bind_ok in H. destruct H as (configured & s1 & _ & H).
  destruct configured; cbn [negb] in H; [|discriminate].
  apply bind_ok in H. destruct H as (r & s2 & Hask & H).
  apply bind_ok in H. destruct H as (toolCalls & s3 & Hparse & H).
  unfold ask_llm in Hask.
  destruct (chatCompletion messages (Some tools) (mkOptions (7, 10)%Z 4096%Z) (world s1))
    as [o w2] eqn:Hchat.
  inversion Hask; subst o s2; clear Hask.
  unfold lift in Hparse. inversion Hparse as [[Hp Hs]]; subst s3.
  exists (world s1), r.
  destruct toolCalls as [[|call rest]|].
  - apply bind_ok in H. destruct H as (text & s4 & _ & H). discriminate.
  - inversion H; subst. now split.
  - apply bind_ok in H. destruct H as (text & s4 & _ & H). discriminate.
Qed.

(** X17.  The approval round trip.  The call that a pending-approval
    response holds is, name and arguments, one of the tool calls read in
    the model's response to the prompt of that turn, and no tool of that
    name ran in the turn; and a turn that hands the same name and
    arguments back as approved action executes exactly that call, once,
    and does not ask for approval again. *)
Theorem held_call_runs_when_handed_back
    (input : TurnInput) (s s' : State W) (name : string) (args : Json)
    (description : string) :
  processMessage input s = (Ok (PendingApproval name args description), s') ->
  (exists w w' response calls,
      chatCompletion (build_messages (slice_last 20 (history input)) (message input))
                     (Some getToolDefinitions) (mkOptions (7, 10)%Z 4096%Z) w
      = (Ok response, w')
      /\ parseToolCalls response = Ok (Some calls)
      /\ In (mkCall name args) calls)
  /\ (exists done,
        executed s' = executed s ++ done /\ ~ In name (map call_name done))
  /\ forall (approval : TurnInput) (t : State W),
       approvedAction approval = Some (mkAction name args) ->
       executed (snd (processMessage approval t)) = executed t ++ [mkCall name args]
       /\ forall n a d, fst (processMessage approval t) <> Ok (PendingApproval n a d).
Proof.
  intros H. destruct (approvedAction input) as [action|] eqn:Happroved.
  { unfold processMessage in H. rewrite Happroved in H.
    apply executeApprovedAction_answers in H. destruct H as (t & d & u & H).
    discriminate. }
  rewrite (processMessage_fresh _ _ Happroved) in H. unfold after_remember in H.
  apply bind_ok in H. destruct H as (stored & s1 & Hstored & H).
  unfold getHistory in Hstored. inversion Hstored; subst stored s1; clear Hstored.
  cbn [with_history chatHistory] in H.
  apply bind_ok in H. destruct H as (step & s2 & Hstep & H).
  assert (Hex2 : executed s2 = executed s).
  { match type of Hstep with
    | ?m ?st = _ =>
        assert (Hk : keeps executed m)
          by (apply keeps_try_catch;
              [ apply consult_model_keeps_executed
              | intros e; apply keeps_if; [apply keeps_ret | apply keeps_throw] ]);
        specialize (Hk st)
    end.
    rewrite Hstep in Hk. exact Hk. }
  apply try_catch_ok in Hstep.
  destruct step as [response| |toolCalls].
  - inversion H; subst response s2.
    destruct Hstep as [Hconsult|(e & s3 & _ & Hhandler)].
    + apply consult_model_responds_with_text in Hconsult.
      destruct Hconsult as (text & Htext). discriminate.
    + destruct (truthy (err_message e)); discriminate.
  - apply handleWithRules_answers in H. destruct H as (t & d & u & H). discriminate.
  - destruct Hstep as [Hconsult|(e & s3 & _ & Hhandler)];
      [|destruct (truthy (err_message e)); discriminate].
    apply consult_model_calls in Hconsult.
    destruct Hconsult as (w & response & Hchat & Hparse).
    apply handleToolCalls_pending in H.
    destruct H as (_ & Hreq & Hin & _ & done & Hex & Hdone).
    split; [|split].
    + exists w, (world s2), response, toolCalls. now repeat split.
    + exists done. split; [now rewrite Hex, Hex2|].
      intros Hname. apply in_map_iff in Hname. destruct Hname as (c & Hc & Hcin).
      apply Hdone in Hcin. rewrite Hc in Hcin. congruence.
    + intros approval t Hact. unfold processMessage. rewrite Hact. split.
      * apply executeApprovedAction_executed.
      * intros n a d Hp.
        destruct (executeApprovedAction (mkAction name args) t) as [o t'] eqn:Hrun.
        cbn [fst] in Hp. subst o.
        apply executeApprovedAction_answers in Hrun.
        destruct Hrun as (text & data & used & Hrun). discriminate.
Qed.

End OrchestratorMore.

(* ===================================================================== *)
(** * Further properties of the query poller *)
(* ===================================================================== *)

Section PollerMore.
Local Open Scope list_scope.
Local Open Scope Z_scope.
Context {JN : JsNumber} {JH : JsHost}.
Context {W : Type} {QS : QueryService W} {RT : Runtime W}.

Lemma set_field_keys (k : string) (v : Json) (fields : list (string * Json)) :
  exists extra,
    map fst (set_field k v fields) = map fst fields ++ extra
    /\ (extra = [] \/ extra = [k]).
Proof.
  induction fields as [|[k' v'] fields IH]; cbn [set_field].
  - exists [k]. split; [reflexivity | now right].
  - destruct (String.eqb k k') eqn:E.
    + apply String.eqb_eq in E. subst k'. exists []. cbn. rewrite app_nil_r.
      split; [reflexivity | now left].
    + destruct IH as (extra & Hkeys & Hextra). exists extra. cbn [map fst].
      rewrite Hkeys. split; [reflexivity | exact Hextra].
Qed.

(** X10.  The still-running annotation keeps the job: every property of
    the fetched job other than [message] and [polling] has the value it
    had, the keys of the job keep their order, and at most the two keys
    [message] and [polling] are added after them. *)
Theorem still_running_keeps_the_job (fields : list (string * Json)) :
  exists marked extra,
    still_running (JObject fields) = JObject marked
    /\ (forall k, String.eqb k "message" = false -> String.eqb k "polling" = false ->
          lookup k marked = lookup k fields)
    /\ map fst marked = map fst fields ++ extra
    /\ incl extra ["message"; "polling"]%string.
Proof.
  unfold still_running.
  destruct (set_field_keys "message"
              (JString "Query is still running. Check back later.") fields)
    as (x1 & Hk1 & Hx1).
  destruct (set_field_keys "polling" (JBool true)
              (set_field "message"
                 (JString "Query is still running. Check back later.") fields))
    as (x2 & Hk2 & Hx2).
  eexists. exists (x1 ++ x2). split; [reflexivity|]. split; [|split].
  - intros k Hm Hp. now rewrite (lookup_set_other _ _ _ _ Hp), (lookup_set_other _ _ _ _ Hm).
  - now rewrite Hk2, Hk1, app_assoc.
  - intros x Hin. apply in_app_or in Hin.
    destruct Hin as [Hin|Hin]; [destruct Hx1 as [->| ->] | destruct Hx2 as [->| ->]];
      cbn in Hin |- *; tauto.
Qed.

(** X11.  The calls the handler makes, whatever the request, the world and
    the outcome (an answer, an error, or a loop cut short): nothing at all
    for a request without [sql]; otherwise one submission, followed by
    rounds of one sleep of [pollInterval] and one status fetch each --
    never a second submission, never a fetch without the sleep before it,
    never a sleep without the fetch after it. *)
Theorem handler_submits_once_then_polls_in_rounds
    (fuel : nat) (body : QueryBody) (s : PollState W) :
  (truthy (body_sql body) = false ->
     trace (snd (post_queries fuel body s)) = trace s)
  /\ (truthy (body_sql body) = true ->
      exists ids,
        trace (snd (post_queries fuel body s))
        = trace s ++ Submitted (query_data body (now (poll_world s))) :: rounds ids).
Proof.
  unfold post_queries. split; intros Hsql; rewrite Hsql; cbn [negb].
  - reflexivity.
  - unfold bind at 1. unfold date_now at 1. unfold bind at 1. unfold submit at 1.
    destruct (createQuery (query_data body (now (poll_world s))) (poll_world s))
      as [[created|e] w].
    + unfold bind at 1. unfold date_now at 1. cbn [poll_world].
      match goal with
      | |- exists ids, trace (snd (poll fuel ?t created ?st)) = _ =>
          destruct (poll_trace fuel t created st) as (ids & Hids)
      end.
      exists ids. rewrite Hids. cbn [trace]. now rewrite <- app_assoc.
    + exists []. reflexivity.
Qed.

Lemma terminal_fields (job : Json) :
  terminal job = true ->
  exists state, get job "state" = Ok state /\ non_terminal state = false.
Proof.
  unfold terminal. destruct (get job "state") as [state|e]; [|discriminate].
  intros H. exists state. split; [reflexivity | now apply negb_true_iff].
Qed.

Lemma poll_ends (startTime : Z) (w wf : W) (job jf : Json) (ids : list Json) :
  ends_after startTime w job ids wf jf ->
  forall fuel tr,
    (List.length ids < fuel)%nat ->
    poll fuel startTime job (mkPoll w tr)
    = (Ok (Some (mkHttp 200 jf)), mkPoll wf (tr ++ rounds ids)).
Proof.
  induction 1 as [w job Hterm | w w' wf job id job' jf ids Hrun Htime Hid Hfetch Hrest IH];
    intros fuel tr Hfuel.
  - destruct fuel as [|fuel]; [cbn in Hfuel; lia|].
    destruct (terminal_fields _ Hterm) as (state & Hstate & Hnon).
    rewrite (poll_terminal fuel startTime job (mkPoll w tr) Hstate Hnon).
    cbn. now rewrite app_nil_r.
  - destruct fuel as [|fuel]; [cbn in Hfuel; lia|].
    destruct (running_fields _ Hrun) as (state & id0 & Hstate & Hnon & _).
    cbn [poll]. unfold bind at 1. unfold lift at 1. rewrite Hstate, Hnon.
    unfold bind at 1. unfold date_now at 1. cbn [poll_world].
    replace (now w - startTime >? timeout) with false
      by (symmetry; rewrite Z.gtb_ltb; apply Z.ltb_ge; exact Htime).
    unfold bind at 1. unfold wait at 1. unfold bind at 1. unfold lift at 1. rewrite Hid.
    unfold bind at 1. unfold fetch at 1. cbn [poll_world trace]. rewrite Hfetch.
    rewrite IH by (cbn in Hfuel; lia).
    cbn [rounds flat_map]. now rewrite <- !app_assoc.
Qed.

(** X12.  A job that ends is returned as soon as a status fetch reports
    it in a terminal state: for a request with [sql], when the job goes
    through the states of [ends_after] from the submitted one, the handler
    answers that terminal job, unchanged and without annotation, after
    exactly one sleep and one fetch per earlier status report -- none when
    the submission already returns it terminal -- and does not wait out
    the rest of the time budget. *)
Theorem handler_returns_a_job_when_it_ends
    (fuel : nat) (body : QueryBody) (s : PollState W)
    (created jf : Json) (w wf : W) (ids : list Json) :
  truthy (body_sql body) = true ->
  createQuery (query_data body (now (poll_world s))) (poll_world s) = (Ok created, w) ->
  ends_after (now w) w created ids wf jf ->
  (List.length ids < fuel)%nat ->
  post_queries fuel body s
  = (Ok (Some (mkHttp 200 jf)),
     mkPoll wf (trace s ++ Submitted (query_data body (now (poll_world s))) :: rounds ids))
  /\ sleeps (rounds ids) = List.length ids
  /\ terminal jf = true.
Proof.
  intros Hsql Hcreate Hends Hfuel. split; [|split].
  - unfold post_queries. rewrite Hsql. cbn [negb].
    unfold bind at 1. unfold date_now at 1. unfold bind at 1. unfold submit at 1.
    rewrite Hcreate. unfold bind at 1. unfold date_now at 1. cbn [poll_world].
    rewrite (poll_ends Hends) by exact Hfuel. now rewrite <- app_assoc.
  - clear. induction ids as [|id ids IH]; [reflexivity|].
    unfold sleeps, rounds in *. cbn [flat_map app filter is_sleep List.length].
    now rewrite IH.
  - clear - Hends. induction Hends; assumption.
Qed.

Lemma poll_fails (startTime : Z) (w wf : W) (job : Json) (ids : list Json)
    (e : JsError) :
  fails_after startTime w job ids wf e ->
  forall fuel tr,
    (List.length ids <= fuel)%nat ->
    poll fuel startTime job (mkPoll w tr) = (Throw e, mkPoll wf (tr ++ rounds ids)).
Proof.
  induction 1 as [w wf job id e Hrun Htime Hid Hfetch
                 | w w' wf job id job' ids e Hrun Htime Hid Hfetch Hrest IH];
    intros fuel tr Hfuel;
    (destruct fuel as [|fuel]; [cbn in Hfuel; lia|]);
    destruct (running_fields _ Hrun) as (state & id0 & Hstate & Hnon & _);
    cbn [poll]; unfold bind at 1; unfold lift at 1; rewrite Hstate, Hnon;
    unfold bind at 1; unfold date_now at 1; cbn [poll_world];
    replace (now w - startTime >? timeout) with false
      by (symmetry; rewrite Z.gtb_ltb; apply Z.ltb_ge; exact Htime);
    unfold bind at 1; unfold wait at 1; unfold bind at 1; unfold lift at 1;
    rewrite Hid; unfold bind at 1; unfold fetch at 1; cbn [poll_world trace];
    rewrite Hfetch.
  - cbn [rounds flat_map app]. now rewrite <- !app_assoc.
  - rewrite IH by (cbn in Hfuel; lia).
    cbn [rounds flat_map]. now rewrite <- !app_assoc.
Qed.

(** X13.  Failures of the query service reach the client as status 500
    with the message of the error, through the route wrapper: a submission
    that fails is answered so without any sleep or fetch; a submission
    that returns null or undefined is answered with the engine's
    TypeError; and a status fetch that fails, in whichever round for a job
    reported running until then and polled in time, is answered so right
    after that fetch, with no further sleep or fetch. *)
Theorem query_failures_are_answered_with_500
    (fuel : nat) (body : QueryBody) (s : PollState W) :
  truthy (body_sql body) = true ->
  let queryData := query_data body (now (poll_world s)) in
  (forall e w,
     createQuery queryData (poll_world s) = (Throw e, w) ->
     asyncHandler (post_queries fuel body) s
     = (Some (mkHttp 500 (JObject [("error", err_message e)])),
        mkPoll w (trace s ++ [Submitted queryData])))
  /\ (forall created w,
        createQuery queryData (poll_world s) = (Ok created, w) ->
        nullish created = true ->
        asyncHandler (post_queries (S fuel) body) s
        = (Some (mkHttp 500 (JObject [("error", JString (type_error_text "state"))])),
           mkPoll w (trace s ++ [Submitted queryData])))
  /\ (forall created w ids e wf,
        createQuery queryData (poll_world s) = (Ok created, w) ->
        fails_after (now w) w created ids wf e ->
        (List.length ids <= fuel)%nat ->
        asyncHandler (post_queries fuel body) s
        = (Some (mkHttp 500 (JObject [("error", err_message e)])),
           mkPoll wf (trace s ++ Submitted queryData :: rounds ids))).
Proof.
  intros Hsql queryData.
  assert (Hrun : forall f created w,
             createQuery queryData (poll_world s) = (Ok created, w) ->
             post_queries f body s
             = poll f (now w) created (mkPoll w (trace s ++ [Submitted queryData]))).
  { intros f created w Hcreate. unfold post_queries. rewrite Hsql. cbn [negb].
    unfold bind at 1. unfold date_now at 1. unfold bind at 1. unfold submit at 1.
    fold queryData. rewrite Hcreate. unfold bind at 1. unfold date_now at 1. reflexivity. }
  split; [|split].
  - intros e w Hcreate. unfold asyncHandler, post_queries. rewrite Hsql. cbn [negb].
    unfold bind at 1. unfold date_now at 1. unfold bind at 1. unfold submit at 1.
    fold queryData. now rewrite Hcreate.
  - intros created w Hcreate Hnull. unfold asyncHandler. rewrite (Hrun _ _ _ Hcreate).
    cbn [poll]. unfold bind at 1. unfold lift at 1.
    destruct created; try discriminate; reflexivity.
  - intros created w ids e wf Hcreate Hfails Hfuel.
    unfold asyncHandler. rewrite (Hrun _ _ _ Hcreate).
    rewrite (poll_fails Hfails) by exact Hfuel.
    now rewrite <- app_assoc.
Qed.

End PollerMore.

(* ===================================================================== *)
(** * Properties of the schema extraction *)
(* ===================================================================== *)

Section ExtractionFacts.
Local Open Scope list_scope.
Context {JN : JsNumber} {JH : JsHost} {JT : JsText}.

Lemma set_field_fresh (k : string) (v : Json) (fields : list (string * Json)) :
  ~ In k (map fst fields) ->
  map fst (set_field k v fields) = map fst fields ++ [k].
Proof.
  induction fields as [|[k' v'] fields IH]; cbn [set_field map fst]; intros Hfresh.
  - reflexivity.
  - destruct (String.eqb k k') eqn:E.
    + apply String.eqb_eq in E. subst k'. exfalso. apply Hfresh. now left.
    + cbn [map fst app]. rewrite IH; [reflexivity|].
      intros Hin. apply Hfresh. now right.
Qed.

Lemma Forall_set_field (P : string * Json -> Prop) k v fields :
  Forall P fields -> P (k, v) -> Forall P (set_field k v fields).
Proof.
  intros Hall Hnew. induction Hall as [|[k' v'] fields Hhead Htail IH]; cbn [set_field].
  - now constructor.
  - destruct (String.eqb k k'); constructor; assumption.
Qed.

Lemma extract_entry_shape (recur : Json -> Outcome Json) (n : nat) (value e : Json) :
  (forall p out, recur p = Ok out -> nesting out <= n) ->
  extract_entry recur value = Ok e ->
  exists type title description more,
    e = JObject (("type", type) :: ("title", title)
                 :: ("description", description) :: more)
    /\ fields_nesting nesting
         (("type", type) :: ("title", title) :: ("description", description) :: more)
       <= S n.
Proof.
  intros Hrec H. unfold extract_entry in H.
  destruct (get value "type") as [type|]; [|discriminate].
  destruct (get value "title") as [title|]; [|discriminate].
  destruct (get value "description") as [description|]; [|discriminate].
  destruct (get value "properties") as [properties|]; [|discriminate].
  cbn [obind] in H.
  destruct (get value "items") as [items|] eqn:Hitems.
  - destruct (truthy properties).
    + destruct (recur properties) as [nested|] eqn:Hnested; [|discriminate].
      apply Hrec in Hnested. cbn [obind app] in H.
      destruct (truthy items).
      * destruct (get items "type") as [itemType|]; [|discriminate].
        cbn [obind app] in H. inversion H. do 4 eexists. split; [reflexivity|].
        cbn. lia.
      * cbn [obind] in H. inversion H. do 4 eexists. split; [reflexivity|]. cbn. lia.
    + cbn [obind app] in H. destruct (truthy items).
      * destruct (get items "type") as [itemType|]; [|discriminate].
        cbn [obind app] in H. inversion H. do 4 eexists. split; [reflexivity|].
        cbn. lia.
      * cbn [obind] in H. inversion H. do 4 eexists. split; [reflexivity|]. cbn. lia.
  - destruct (truthy properties); [|discriminate].
    destruct (recur properties); discriminate.
Qed.

Lemma entries_nesting_set_field k entry fields n :
  fields_nesting nesting entry <= n ->
  entries_nesting nesting fields <= n ->
  entries_nesting nesting (set_field k (JObject entry) fields) <= n.
Proof.
  intros He. induction fields as [|[k' v'] fields IH]; cbn [set_field]; intros Hf.
  - cbn. lia.
  - destruct (String.eqb k k').
    + cbn [entries_nesting] in *. destruct v'; lia.
    + cbn [entries_nesting] in *. destruct v'; try (now apply IH).
      assert (entries_nesting nesting fields <= n) by lia.
      specialize (IH H). lia.
Qed.

Lemma extract_loop_spec (recur : Json -> Outcome Json) (n : nat) :
  (forall p out, recur p = Ok out -> nesting out <= n) ->
  forall entries extracted result,
    extract_loop recur entries extracted = Ok result ->
    NoDup (map fst extracted ++ map fst entries) ->
    Forall described_entry extracted ->
    entries_nesting nesting extracted <= S n ->
    map fst result = map fst extracted ++ filter own_key (map fst entries)
    /\ Forall described_entry result
    /\ entries_nesting nesting result <= S n.
Proof.
  intros Hrec. induction entries as [|[key value] rest IH];
    intros extracted result H Hnodup Hdesc Hnest; cbn [extract_loop] in H.
  - inversion H; subst. cbn. rewrite app_nil_r. now repeat split.
  - destruct (extract_entry recur value) as [e|] eqn:He; [|discriminate].
    cbn [obind] in H.
    destruct (extract_entry_shape _ _ Hrec He) as (t & ti & d & more & -> & Hdepth).
    cbn [map fst filter]. unfold assign in H. unfold own_key at 1.
    destruct (String.eqb key "__proto__") eqn:Hproto; cbn [negb].
    + apply IH in H; [exact H | | exact Hdesc | exact Hnest].
      cbn [map fst] in Hnodup. now apply NoDup_remove_1 in Hnodup.
    + cbn [map fst] in Hnodup.
      assert (Hfresh : ~ In key (map fst extracted)).
      { apply NoDup_remove_2 in Hnodup. intros Hin. apply Hnodup.
        apply in_or_app. now left. }
      apply IH in H.
      * rewrite set_field_fresh in H by exact Hfresh.
        rewrite <- app_assoc in H. exact H.
      * rewrite set_field_fresh by exact Hfresh. now rewrite <- app_assoc.
      * apply Forall_set_field; [exact Hdesc|]. now exists t, ti, d, more.
      * now apply entries_nesting_set_field.
Qed.

Lemma extract_spec (budget : nat) :
  forall properties out,
    extract budget properties = Ok out ->
    nesting out <= budget
    /\ forall fields,
         properties = JObject fields -> NoDup (map fst fields) -> (0 < budget)%nat ->
         exists extracted,
           out = JObject extracted
           /\ map fst extracted = filter own_key (map fst fields)
           /\ Forall described_entry extracted.
Proof.
  induction budget as [|budget IH]; intros properties out H; cbn [extract] in H.
  - inversion H. split; [cbn; lia | intros; lia].
  - destruct (entries_of properties) as [entries|] eqn:Hentries; [|discriminate].
    cbn [obind] in H.
    destruct (extract_loop (extract budget) entries []) as [extracted|] eqn:Hloop;
      [|discriminate].
    inversion H; subst out; clear H.
    assert (Hrec : forall p out, extract budget p = Ok out -> nesting out <= budget)
      by (intros p out Hp; now apply IH in Hp).
    split.
    + assert (Hnest : entries_nesting nesting extracted <= S budget).
      { clear - Hrec Hloop. revert Hloop.
        assert (Hacc : entries_nesting nesting [] <= S budget) by (cbn; lia).
        revert Hacc. generalize (@nil (string * Json)) as acc.
        induction entries as [|[key value] rest IHe]; intros acc Hacc Hloop;
          cbn [extract_loop] in Hloop.
        - now inversion Hloop; subst.
        - destruct (extract_entry (extract budget) value) as [e|] eqn:He; [|discriminate].
          cbn [obind] in Hloop.
          destruct (extract_entry_shape _ _ Hrec He) as (t & ti & d & more & -> & Hd).
          apply IHe in Hloop; [exact Hloop|]. unfold assign.
          destruct (String.eqb key "__proto__"); [exact Hacc|].
          now apply entries_nesting_set_field. }
      exact Hnest.
    + intros fields -> Hnodup _. cbn [entries_of] in Hentries.
      inversion Hentries; subst entries.
      destruct (@extract_loop_spec _ _ Hrec _ _ _ Hloop) as (Hkeys & Hdesc & _);
        [exact Hnodup | constructor | cbn; lia |].
      exists extracted. now repeat split.
Qed.

(** X14.  [extractProperties] keeps the keys: for an object whose keys are
    distinct, not beyond the depth limit, a result has exactly the keys of
    the input, in the same order, but for [__proto__] (which sets the
    prototype of the result instead of a property); and each of its
    entries is an object that starts with [type], [title] and
    [description]. *)
Theorem extracted_keys_are_the_input_keys
    (fields : list (string * Json)) (depth : nat) (out : Json) :
  depth <= 5 ->
  NoDup (map fst fields) ->
  extractProperties (JObject fields) depth = Ok out ->
  exists extracted,
    out = JObject extracted
    /\ map fst extracted = filter own_key (map fst fields)
    /\ Forall described_entry extracted.
Proof.
  intros Hdepth Hnodup H. unfold extractProperties in H.
  apply extract_spec in H. destruct H as [_ H].
  apply (H fields eq_refl Hnodup). lia.
Qed.

(** X15.  [extractProperties] cuts the nesting: a result called at [depth]
    nests [properties] at most [6 - depth] deep, so at most six levels from
    the top, however deep the schema is. *)
Theorem extraction_is_cut_at_depth_six (properties : Json) (depth : nat) (out : Json) :
  extractProperties properties depth = Ok out ->
  nesting out <= 6 - depth.
Proof.
  unfold extractProperties. intros H. now apply extract_spec in H.
Qed.

Lemma extract_loop_null (recur : Json -> Outcome Json) (k : string) (v : Json) :
  nullish v = true ->
  forall entries extracted,
    In (k, v) entries ->
    exists e, extract_loop recur entries extracted = Throw e.
Proof.
  intros Hnull. induction entries as [|[key value] rest IH]; intros extracted Hin.
  - destruct Hin.
  - cbn [extract_loop]. destruct Hin as [Heq|Hin].
    + inversion Heq; subst. destruct v; try discriminate; cbn; now eexists.
    + destruct (extract_entry recur value) as [e|e]; cbn [obind]; [|now eexists].
      now apply IH.
Qed.

(** X16.  What makes [extractProperties] throw or not at its edges: beyond
    the depth limit it returns the empty object without looking at its
    argument, even a null one; within the limit it throws a TypeError on
    null or undefined properties, and on an object one of whose values is
    null or undefined; and on a number or a boolean it returns the empty
    object. *)
Theorem extraction_edges (properties : Json) (depth : nat) :
  (5 < depth -> extractProperties properties depth = Ok (JObject []))
  /\ (depth <= 5 -> nullish properties = true ->
        extractProperties properties depth = Throw (type_error "Object.entries"))
  /\ (depth <= 5 ->
        forall fields k v,
          properties = JObject fields -> In (k, v) fields -> nullish v = true ->
          exists e, extractProperties properties depth = Throw e)
  /\ (depth <= 5 ->
        (exists b, properties = JBool b) \/ (exists n, properties = JNum n) ->
        extractProperties properties depth = Ok (JObject [])).
Proof.
  unfold extractProperties. split; [|split; [|split]].
  - intros Hdeep. now replace (6 - depth) with 0 by lia.
  - intros Hdepth Hnull. destruct (6 - depth) as [|budget] eqn:E; [lia|].
    destruct properties; try discriminate; reflexivity.
  - intros Hdepth fields k v -> Hin Hnull.
    destruct (6 - depth) as [|budget] eqn:E; [lia|]. cbn [extract entries_of obind].
    destruct (@extract_loop_null (extract budget) k v Hnull fields [] Hin) as (e & He).
    rewrite He. now eexists.
  - intros Hdepth Hscalar. destruct (6 - depth) as [|budget] eqn:E; [lia|].
    destruct Hscalar as [[b ->]|[n ->]]; reflexivity.
Qed.

End ExtractionFacts.

(* ===================================================================== *)
(** * Properties of the schema service *)
(* ===================================================================== *)

Section SchemaServiceFacts.
Local Open Scope list_scope.
Context {JN : JsNumber} {JH : JsHost} {JT : JsText} {JU : JsUrl}.
Context {W : Type} {PF : Platform W}.

(** ** Counting the requests *)

Lemma sends_ret {A : Type} (a : A) : sends 0 (ret a : Eff (NetState W) A).
Proof. intros s. exists []. cbn. now rewrite app_nil_r. Qed.

Lemma sends_throw {A : Type} (e : JsError) : sends 0 (throw e : Eff (NetState W) A).
Proof. intros s. exists []. cbn. now rewrite app_nil_r. Qed.

Lemma sends_lift {A : Type} (o : Outcome A) : sends 0 (lift o : Eff (NetState W) A).
Proof. intros s. exists []. cbn. now rewrite app_nil_r. Qed.

Lemma sends_more {A : Type} (n n' : nat) (m : Eff (NetState W) A) :
  n <= n' -> sends n m -> sends n' m.
Proof.
  intros Hn Hm s. destruct (Hm s) as (extra & Hreq & Hlen).
  exists extra. split; [exact Hreq | lia].
Qed.

Lemma sends_bind {A B : Type} (n1 n2 : nat) (m : Eff (NetState W) A)
    (k : A -> Eff (NetState W) B) :
  sends n1 m -> (forall a, sends n2 (k a)) -> sends (n1 + n2) (bind m k).
Proof.
  intros Hm Hk s. unfold bind. destruct (Hm s) as (extra1 & Hreq1 & Hlen1).
  destruct (m s) as [[a|e] s1]; cbn [snd] in *.
  - destruct (Hk a s1) as (extra2 & Hreq2 & Hlen2).
    exists (extra1 ++ extra2). rewrite Hreq2, Hreq1, app_assoc, length_app.
    split; [reflexivity | lia].
  - exists extra1. split; [exact Hreq1 | lia].
Qed.

Lemma sends_try_catch {A : Type} (n1 n2 : nat) (m : Eff (NetState W) A)
    (h : JsError -> Eff (NetState W) A) :
  sends n1 m -> (forall e, sends n2 (h e)) -> sends (n1 + n2) (try_catch m h).
Proof.
  intros Hm Hh s. unfold try_catch. destruct (Hm s) as (extra1 & Hreq1 & Hlen1).
  destruct (m s) as [[a|e] s1]; cbn [snd] in *.
  - exists extra1. split; [exact Hreq1 | lia].
  - destruct (Hh e s1) as (extra2 & Hreq2 & Hlen2).
    exists (extra1 ++ extra2). rewrite Hreq2, Hreq1, app_assoc, length_app.
    split; [reflexivity | lia].
Qed.

Lemma sends_access_token : sends 0 (access_token (W := W)).
Proof.
  intros s. unfold access_token. destruct (getAccessToken (net_world s)) as [r w].
  exists []. cbn. now rewrite app_nil_r.
Qed.

Lemma sends_send url init : sends 1 (send (W := W) url init).
Proof.
  intros s. unfold send. destruct (node_fetch url init (net_world s)) as [r w].
  exists [(url, init)]. cbn. split; [reflexivity | lia].
Qed.

Ltac count_requests :=
  repeat first
    [ apply sends_ret | apply sends_throw | apply sends_lift
    | apply sends_access_token | apply sends_send
    | match goal with
      | |- sends _ (if ?b then _ else _) => destruct b
      | |- sends 0 (bind _ _) => apply (sends_bind (n1 := 0) (n2 := 0)); [|intros ?]
      end ].

Lemma sends_aepFetch endpoint options : sends 1 (aepFetch (W := W) endpoint options).
Proof.
  unfold aepFetch.
  apply (sends_bind (n1 := 0) (n2 := 1)); [apply sends_access_token | intros token].
  apply (sends_bind (n1 := 1) (n2 := 0)); [apply sends_send | intros response].
  count_requests.
Qed.

Lemma sends_getUnionSchemaDetails unionId :
  sends 1 (getUnionSchemaDetails (W := W) unionId).
Proof.
  unfold getUnionSchemaDetails.
  apply (sends_bind (n1 := 0) (n2 := 1)); [apply sends_lift | intros encodedId].
  apply sends_aepFetch.
Qed.

Lemma sends_union_schema union : sends 1 (union_schema (W := W) union).
Proof.
  unfold union_schema.
  apply (sends_bind (n1 := 0) (n2 := 1)); [apply sends_lift | intros altId].
  apply (sends_bind (n1 := 0) (n2 := 1)); [count_requests | intros unionId].
  apply (sends_bind (n1 := 1) (n2 := 0));
    [apply sends_getUnionSchemaDetails | intros details].
  count_requests.
Qed.

(** ** One call of [aepFetch] *)

Lemma aepFetch_run endpoint options (s : NetState W) :
  aepFetch endpoint options s
  = match getAccessToken (net_world s) with
    | (Throw e, w) => (Throw e, mkNet w (requests s))
    | (Ok token, w) =>
        let url := (platformUrl ++ endpoint)%string in
        let init := JObject (set_field "headers"
                               (JObject (request_headers token options)) options) in
        match node_fetch url init w with
        | (Throw e, w') => (Throw e, mkNet w' (requests s ++ [(url, init)]))
        | (Ok response, w') =>
            (if resp_ok response then resp_json response
             else match resp_text response with
                  | Ok errorText => Throw (api_error (resp_status response) errorText)
                  | Throw e => Throw e
                  end,
             mkNet w' (requests s ++ [(url, init)]))
        end
    end.
Proof.
  unfold aepFetch, bind, access_token, send, lift, throw.
  destruct (getAccessToken (net_world s)) as [[token|e] w]; [|reflexivity].
  cbn [net_world requests].
  destruct (node_fetch _ _ w) as [[response|e] w']; [|reflexivity].
  destruct (resp_ok response); cbn [negb]; [reflexivity|].
  destruct (resp_text response); reflexivity.
Qed.

(** X18.  One call of [aepFetch] asks for one token and sends at most one
    request: none when no token can be had (the error of the token service
    is thrown as it is); otherwise exactly one, to the platform URL
    followed by the endpoint, whose init object is the options with
    [headers] replaced -- the bearer token of this call, the key, the
    organization, the sandbox and the accept type, when the options bring
    no headers of their own.  The call resolves to the parsed body of a
    response that is [ok], and throws "API Error <status>: <text>" for one
    that is not. *)
Theorem a_call_sends_one_request_with_the_token
    (endpoint : string) (options : list (string * Json)) (s : NetState W) :
  match getAccessToken (net_world s) with
  | (Throw e, w) => aepFetch endpoint options s = (Throw e, mkNet w (requests s))
  | (Ok token, w) =>
      exists init headers,
        requests (snd (aepFetch endpoint options s))
        = requests s ++ [((platformUrl ++ endpoint)%string, JObject init)]
        /\ lookup "headers" init = JObject headers
        /\ (forall k, String.eqb k "headers" = false -> lookup k init = lookup k options)
        /\ (nullish (lookup "headers" options) = true ->
            headers = [ ("Authorization", JString ("Bearer " ++ toStr token)%string);
                        ("x-api-key", apiKey);
                        ("x-gw-ims-org-id", imsOrg);
                        ("x-sandbox-name", sandboxName);
                        ("Accept", js_or (lookup "accept" options)
                                         (JString "application/json")) ])
        /\ forall response w',
             node_fetch (platformUrl ++ endpoint) (JObject init) w = (Ok response, w') ->
             fst (aepFetch endpoint options s)
             = if resp_ok response then resp_json response
               else match resp_text response with
                    | Ok errorText => Throw (api_error (resp_status response) errorText)
                    | Throw e => Throw e
                    end
  end.
Proof.
  rewrite aepFetch_run.
  destruct (getAccessToken (net_world s)) as [[token|e] w]; [|reflexivity].
  cbv zeta.
  exists (set_field "headers" (JObject (request_headers token options)) options),
         (request_headers token options).
  split; [|split; [|split; [|split]]].
  - destruct (node_fetch _ _ w) as [[response|e] w']; reflexivity.
  - apply lookup_set_same.
  - intros k Hk. now apply lookup_set_other.
  - intros Hnone. unfold request_headers, spread.
    destruct (lookup "headers" options); try discriminate; reflexivity.
  - intros response w' Hfetch. now rewrite Hfetch.
Qed.

(** ** The parameters of the list requests *)

Lemma get_opt_get (v : Json) (k : string) :
  nullish v = false -> get v k = Ok (opt_get v k).
Proof. destruct v; cbn; intros H; try discriminate; reflexivity. Qed.

Lemma get_nullish (v : Json) (k : string) :
  nullish v = true -> get v k = Throw (type_error k).
Proof. destruct v; cbn; intros H; try discriminate; reflexivity. Qed.

Lemma count_param_app name (a b : list (string * string)) :
  count_param name (a ++ b) = count_param name a + count_param name b.
Proof. unfold count_param. now rewrite filter_app, length_app. Qed.

Ltac split_filters filters :=
  repeat match goal with
         | |- context [truthy (opt_get filters ?k)] =>
             destruct (truthy (opt_get filters k))
         end.

Lemma schema_params_limit (filters : Json) :
  match schema_params filters with
  | Ok params =>
      count_param "limit" params = 1 /\ In ("limit"%string, page_size filters) params
  | Throw _ => nullish filters = true
  end.
Proof.
  destruct (nullish filters) eqn:Hnull.
  - unfold schema_params, append_filter. now rewrite get_nullish.
  - unfold schema_params, append_filter, default_limit, page_size.
    rewrite !get_opt_get by exact Hnull. cbn [obind].
    destruct (truthy (opt_get filters "limit")); split_filters filters;
      cbn [obind app]; (split; [reflexivity | cbn; tauto]).
Qed.

Lemma page_params_limit (filters : Json) :
  match page_params filters with
  | Ok params =>
      count_param "limit" params = 1 /\ In ("limit"%string, page_size filters) params
  | Throw _ => nullish filters = true
  end.
Proof.
  destruct (nullish filters) eqn:Hnull.
  - unfold page_params, append_filter. now rewrite get_nullish.
  - unfold page_params, append_filter, default_limit, page_size.
    rewrite !get_opt_get by exact Hnull. cbn [obind].
    destruct (truthy (opt_get filters "limit")); split_filters filters;
      cbn [obind app]; (split; [reflexivity | cbn; tauto]).
Qed.

Lemma descriptor_params_limit (filters : Json) :
  match descriptor_params filters with
  | Ok params =>
      count_param "limit" params
      = if truthy (opt_get filters "limit") then 1 else 0
  | Throw _ => nullish filters = true
  end.
Proof.
  destruct (nullish filters) eqn:Hnull.
  - unfold descriptor_params, append_filter. now rewrite get_nullish.
  - unfold descriptor_params, append_filter.
    rewrite !get_opt_get by exact Hnull. cbn [obind].
    destruct (truthy (opt_get filters "limit")); split_filters filters;
      cbn [obind app]; reflexivity.
Qed.

Lemma list_resources_request make resource container filters (s : NetState W) :
  requests (snd (list_resources make resource container filters s)) = requests s
  \/ exists params init,
       make (default_to (JObject []) filters) = Ok params
       /\ requests (snd (list_resources make resource container filters s))
          = requests s
            ++ [((platformUrl ++ registry ++ toStr (default_to (JString "tenant") container)
                  ++ "/" ++ resource ++ "?" ++ search_params params)%string, init)].
Proof.
  assert (Hrun : list_resources make resource container filters s
                 = match make (default_to (JObject []) filters) with
                   | Ok params =>
                       aepFetch (registry
                                 ++ toStr (default_to (JString "tenant") container)
                                 ++ "/" ++ resource ++ "?" ++ search_params params)%string
                                accept_ids s
                   | Throw e => (Throw e, s)
                   end).
  { unfold list_resources, bind, lift.
    destruct (make (default_to (JObject []) filters)); reflexivity. }
  rewrite Hrun. clear Hrun.
  destruct (make (default_to (JObject []) filters)) as [params|e] eqn:Hmake;
    [|now left].
  rewrite aepFetch_run.
  destruct (getAccessToken (net_world s)) as [[token|e] w]; [|now left].
  right.
  exists params,
         (JObject (set_field "headers" (JObject (request_headers token accept_ids))
                             accept_ids)).
  split; [reflexivity|]. cbv zeta.
  match goal with
  | |- context [node_fetch ?url ?init w] =>
      destruct (node_fetch url init w) as [[response|e] w']; reflexivity
  end.
Qed.

(** X19.  The list requests for schemas, field groups, classes and data
    types carry exactly one [limit] parameter, the caller's when it is
    truthy and 50 otherwise: a call sends nothing (no token, or null
    filters), or one request whose query string is made of parameters with
    one [limit] among them.  The request for descriptors has no default: it
    carries a [limit] only when the caller gives a truthy one. *)
Theorem list_requests_carry_one_limit (container filters : Json) (s : NetState W) :
  (forall list_fn resource,
      In (list_fn, resource)
         [ (listSchemas, "schemas"%string); (listFieldGroups, "fieldgroups"%string);
           (listClasses, "classes"%string); (listDataTypes, "datatypes"%string) ] ->
      requests (snd (list_fn container filters s)) = requests s
      \/ exists params init,
           requests (snd (list_fn container filters s))
           = requests s
             ++ [((platformUrl ++ registry
                   ++ toStr (default_to (JString "tenant") container)
                   ++ "/" ++ resource ++ "?" ++ search_params params)%string, init)]
           /\ count_param "limit" params = 1
           /\ In ("limit"%string, page_size (default_to (JObject []) filters)) params)
  /\ (requests (snd (listDescriptors filters s)) = requests s
      \/ exists params init,
           requests (snd (listDescriptors filters s))
           = requests s
             ++ [((platformUrl ++ registry ++ "tenant/descriptors?"
                   ++ search_params params)%string, init)]
           /\ count_param "limit" params
              = if truthy (opt_get (default_to (JObject []) filters) "limit")
                then 1 else 0).
Proof.
  split.
  - intros list_fn resource Hin.
    assert (Hmake : exists make,
               list_fn = list_resources make resource
               /\ forall f, match make f with
                            | Ok params =>
                                count_param "limit" params = 1
                                /\ In ("limit"%string, page_size f) params
                            | Throw _ => nullish f = true
                            end).
    { cbn [In] in Hin.
      destruct Hin as [H|[H|[H|[H|[]]]]]; inversion H; subst;
        [ exists schema_params; split; [reflexivity | apply schema_params_limit]
        | exists page_params; split; [reflexivity | apply page_params_limit] .. ]. }
    destruct Hmake as (make & -> & Hlimit).
    destruct (list_resources_request make resource container filters s)
      as [Hnone|(params & init & Hparams & Hreq)]; [now left|].
    right. exists params, init. split; [exact Hreq|].
    specialize (Hlimit (default_to (JObject []) filters)).
    now rewrite Hparams in Hlimit.
  - unfold listDescriptors.
    destruct (list_resources_request descriptor_params "descriptors"
                                     (JString "tenant") filters s)
      as [Hnone|(params & init & Hparams & Hreq)]; [now left|].
    right. exists params, init. split; [exact Hreq|].
    pose proof (descriptor_params_limit (default_to (JObject []) filters)) as Hlimit.
    now rewrite Hparams in Hlimit.
Qed.

(** ** The extraction of the union schemas *)

Lemma net_bind_ok {A B : Type} (m : Eff (NetState W) A) (k : A -> Eff (NetState W) B)
    s b s' :
  bind m k s = (Ok b, s') ->
  exists a s1, m s = (Ok a, s1) /\ k a s1 = (Ok b, s').
Proof.
  unfold bind. destruct (m s) as [[a|e] s1]; intros H; [|discriminate].
  now exists a, s1.
Qed.

Lemma net_lift_ok {A : Type} (o : Outcome A) (s : NetState W) a s' :
  lift o s = (Ok a, s') -> o = Ok a /\ s' = s.
Proof. unfold lift. intros H. inversion H. now split. Qed.

Lemma extract_object (budget : nat) (properties out : Json) :
  extract budget properties = Ok out -> exists fields, out = JObject fields.
Proof.
  destruct budget as [|budget]; cbn [extract]; intros H.
  - inversion H. now eexists.
  - destruct (entries_of properties) as [entries|e]; cbn [obind] in H; [|discriminate].
    destruct (extract_loop (extract budget) entries []) as [extracted|e];
      cbn [obind] in H; [|discriminate].
    inversion H. now eexists.
Qed.

Ltac next_step H :=
  apply net_bind_ok in H;
  let a := fresh "a" in
  let s := fresh "s" in
  let Ha := fresh "Ha" in
  destruct H as (a & s & Ha & H).

Lemma union_schema_shape (union : Json) (s : NetState W) schema s' :
  union_schema union s = (Ok schema, s') -> extracted_schema schema.
Proof.
  unfold union_schema. intros H.
  do 8 next_step H.
  apply net_bind_ok in H. destruct H as (extracted & s9 & Hextract & H).
  next_step H. inversion H; subst schema s'.
  apply net_lift_ok in Hextract. destruct Hextract as [Hextract _].
  unfold extractProperties in Hextract.
  destruct (extract_object _ _ Hextract) as (fields & ->).
  apply extract_spec in Hextract. destruct Hextract as [Hnest _].
  unfold extracted_schema. do 6 eexists. split; [reflexivity | exact Hnest].
Qed.

Lemma union_schema_null (union : Json) (s : NetState W) :
  nullish union = true ->
  union_schema union s = (Throw (type_error "meta:altId"), s).
Proof.
  intros Hnull. unfold union_schema. unfold bind at 1. unfold lift at 1.
  now rewrite get_nullish.
Qed.

(** One turn of the loop. *)
Lemma union_loop_step (union : Json) (rest extractedSchemas : list Json)
    (s : NetState W) :
  union_loop (union :: rest) extractedSchemas s
  = match union_schema union s with
    | (Ok schema, s1) => union_loop rest (extractedSchemas ++ [schema]) s1
    | (Throw _, s1) =>
        match get union "$id" with
        | Ok _ => union_loop rest extractedSchemas s1
        | Throw e => (Throw e, s1)
        end
    end.
Proof.
  cbn [union_loop]. unfold bind at 1. unfold try_catch. unfold bind at 1.
  destruct (union_schema union s) as [[schema|e] s1].
  - reflexivity.
  - unfold bind, lift, ret. destruct (get union "$id"); reflexivity.
Qed.

(** The loop throws on a null union only, and then the TypeError of its
    [catch]; what it adds are extracted schemas, at most one a union. *)
Lemma union_loop_spec (items : list Json) :
  forall (extractedSchemas : list Json) (s : NetState W),
    match fst (union_loop items extractedSchemas s) with
    | Ok schemas =>
        exists added,
          schemas = extractedSchemas ++ added
          /\ List.length added <= List.length items
          /\ Forall extracted_schema added
          /\ Forall (fun u => nullish u = false) items
    | Throw e =>
        e = type_error "$id" /\ Exists (fun u => nullish u = true) items
    end.
Proof.
  induction items as [|union rest IH]; intros acc s.
  - cbn. exists []. rewrite app_nil_r. repeat split; auto.
  - rewrite union_loop_step.
    destruct (union_schema union s) as [[schema|e] s1] eqn:Hschema.
    + assert (Hnull : nullish union = false).
      { destruct (nullish union) eqn:Hn; [|reflexivity].
        rewrite (union_schema_null _ s Hn) in Hschema. discriminate. }
      specialize (IH (acc ++ [schema]) s1).
      destruct (fst (union_loop rest (acc ++ [schema]) s1)) as [schemas|e'].
      * destruct IH as (added & -> & Hlen & Hall & Hitems).
        exists (schema :: added). rewrite <- app_assoc. cbn [app List.length].
        split; [reflexivity|]. split; [lia|].
        split; [|now constructor].
        constructor; [exact (union_schema_shape _ _ Hschema) | exact Hall].
      * destruct IH as (-> & Hex). split; [reflexivity | now apply Exists_cons_tl].
    + destruct (nullish union) eqn:Hnull.
      * rewrite (get_nullish _ "$id" Hnull). cbn [fst].
        split; [reflexivity | now apply Exists_cons_hd].
      * rewrite (get_opt_get _ "$id" Hnull). specialize (IH acc s1).
        destruct (fst (union_loop rest acc s1)) as [schemas|e'].
        -- destruct IH as (added & -> & Hlen & Hall & Hitems).
           exists added. cbn [List.length].
           split; [reflexivity|]. split; [lia|]. split; [exact Hall | now constructor].
        -- destruct IH as (-> & Hex). split; [reflexivity | now apply Exists_cons_tl].
Qed.

Lemma sends_union_loop (items : list Json) :
  forall extractedSchemas,
    sends (List.length items) (union_loop (W := W) items extractedSchemas).
Proof.
  induction items as [|union rest IH]; intros acc; cbn [union_loop List.length].
  - apply sends_ret.
  - apply (sends_bind (n1 := 1) (n2 := List.length rest)); [|intros schemas; apply IH].
    apply (sends_try_catch (n1 := 1) (n2 := 0)).
    + apply (sends_bind (n1 := 1) (n2 := 0)); [apply sends_union_schema|].
      intros schema. apply sends_ret.
    + intros e. count_requests.
Qed.

(** What [extractUnionSchemaForAI] does once the list of unions is there. *)
Lemma extraction_run (s s1 : NetState W) (unions results : Json) (items : list Json) :
  listUnionSchemas s = (Ok unions, s1) ->
  get unions "results" = Ok results ->
  iterable_items (js_or results (JArray [])) = Ok items ->
  extractUnionSchemaForAI s
  = match union_loop items [] s1 with
    | (Ok schemas, s') =>
        (Ok (JObject [ ("extractedAt", JString (toISOString (net_world s')));
                       ("sandbox", sandboxName);
                       ("schemas", JArray schemas) ]), s')
    | (Throw e, s') => (Throw (extraction_error e), s')
    end.
Proof.
  intros Hlist Hresults Hitems. unfold extractUnionSchemaForAI, try_catch.
  unfold bind at 1. rewrite Hlist.
  unfold bind at 1. unfold lift at 1. rewrite Hresults.
  unfold bind at 1. unfold lift at 1. rewrite Hitems.
  unfold bind at 1. destruct (union_loop items [] s1) as [[schemas|e] s'].
  - reflexivity.
  - reflexivity.
Qed.

(** X20.  A union whose details cannot be had or read is skipped, and the
    extraction goes on: once the list of unions is there and none of its
    elements is null or undefined, [extractUnionSchemaForAI] returns its
    report, whatever the detail requests do.  The report holds at most one
    schema a union, each with the six fields and with properties cut at
    six levels, and at most one request a union was sent for it. *)
Theorem extraction_skips_failing_unions
    (s s1 : NetState W) (unions results : Json) (items : list Json) :
  listUnionSchemas s = (Ok unions, s1) ->
  get unions "results" = Ok results ->
  iterable_items (js_or results (JArray [])) = Ok items ->
  Forall (fun u => nullish u = false) items ->
  exists schemas s',
    extractUnionSchemaForAI s
    = (Ok (JObject [ ("extractedAt", JString (toISOString (net_world s')));
                     ("sandbox", sandboxName);
                     ("schemas", JArray schemas) ]), s')
    /\ List.length schemas <= List.length items
    /\ Forall extracted_schema schemas
    /\ exists sent,
         requests s' = requests s1 ++ sent /\ List.length sent <= List.length items.
Proof.
  intros Hlist Hresults Hitems Hall.
  rewrite (extraction_run _ Hlist Hresults Hitems).
  pose proof (union_loop_spec items [] s1) as Hspec.
  destruct (sends_union_loop items [] s1) as (sent & Hsent & Hlen).
  destruct (union_loop items [] s1) as [[schemas|e] s']; cbn [fst snd] in *.
  - destruct Hspec as (added & -> & Hadded & Hshape & _). cbn [app].
    exists added, s'. split; [reflexivity|]. split; [exact Hadded|].
    split; [exact Hshape|]. now exists sent.
  - destruct Hspec as (_ & Hex). exfalso.
    apply Exists_exists in Hex. destruct Hex as (u & Hin & Hnull).
    rewrite Forall_forall in Hall. specialize (Hall u Hin). congruence.
Qed.

(** X21.  A null or undefined element in the list of unions is not
    skipped: the [catch] of its turn reads the id of the union for its log
    line and throws in turn, so the whole extraction fails, with the
    wrapped TypeError, whatever the other unions are. *)
Theorem a_null_union_aborts_the_extraction
    (s s1 : NetState W) (unions results : Json) (items : list Json) :
  listUnionSchemas s = (Ok unions, s1) ->
  get unions "results" = Ok results ->
  iterable_items (js_or results (JArray [])) = Ok items ->
  Exists (fun u => nullish u = true) items ->
  fst (extractUnionSchemaForAI s) = Throw (extraction_error (type_error "$id")).
Proof.
  intros Hlist Hresults Hitems Hex.
  rewrite (extraction_run _ Hlist Hresults Hitems).
  pose proof (union_loop_spec items [] s1) as Hspec.
  destruct (union_loop items [] s1) as [[schemas|e] s']; cbn [fst] in *.
  - destruct Hspec as (added & _ & _ & _ & Hall). exfalso.
    apply Exists_exists in Hex. destruct Hex as (u & Hin & Hnull).
    rewrite Forall_forall in Hall. specialize (Hall u Hin). congruence.
  - destruct Hspec as (-> & _). reflexivity.
Qed.

(** X22.  Whatever the platform does, [extractUnionSchemaForAI] either
    returns a report -- the time, the sandbox of the configuration and a
    list of extracted schemas -- or throws an error whose message is
    "Failed to extract union schemas: " followed by the message of the
    cause: no error of the token service, of the network or of the data
    leaves it unwrapped. *)
Theorem extraction_reports_or_wraps (s : NetState W) :
  match fst (extractUnionSchemaForAI s) with
  | Ok report =>
      exists extractedAt schemas,
        report = JObject [ ("extractedAt", JString extractedAt);
                           ("sandbox", sandboxName);
                           ("schemas", JArray schemas) ]
        /\ Forall extracted_schema schemas
  | Throw e =>
      exists cause,
        err_message e
        = JString ("Failed to extract union schemas: " ++ toStr (err_message cause))%string
  end.
Proof.
  unfold extractUnionSchemaForAI, try_catch.
  match goal with
  | |- context [match ?body s with _ => _ end] =>
      destruct (body s) as [[report|e] s'] eqn:H
  end; cbn [fst throw]; [|now exists e].
  next_step H. next_step H.
  apply net_bind_ok in H. destruct H as (items & s3 & _ & H).
  apply net_bind_ok in H. destruct H as (schemas & s4 & Hloop & H).
  next_step H. inversion H; subst report s'.
  pose proof (union_loop_spec items [] s3) as Hspec. rewrite Hloop in Hspec.
  cbn [fst] in Hspec. destruct Hspec as (added & -> & _ & Hshape & _).
  eexists. exists added. split; [reflexivity | exact Hshape].
Qed.

End SchemaServiceFacts.

(* ===================================================================== *)
(** * Properties of the profile lookup route *)
(* ===================================================================== *)

Section ProfileRouteFacts.
Local Open Scope list_scope.
Context {JN : JsNumber} {JH : JsHost}.
Context {W : Type} {PS : ProfileService W}.

Lemma lookup_rest_without (names : list string) (fields : list (string * Json))
    (k : string) :
  lookup k (rest_without names fields)
  = if existsb (String.eqb k) names then JUndefined else lookup k fields.
Proof.
  induction fields as [|[k' v] fields IH]; cbn [rest_without filter lookup fst].
  - now destruct (existsb (String.eqb k) names).
  - fold (rest_without names fields).
    destruct (existsb (String.eqb k') names) eqn:Hdrop; cbn [negb].
    + rewrite IH. destruct (String.eqb k k') eqn:E; [|reflexivity].
      apply String.eqb_eq in E. subst k'. now rewrite Hdrop.
    + cbn [lookup]. rewrite IH. destruct (String.eqb k k') eqn:E; [|reflexivity].
      apply String.eqb_eq in E. subst k'. now rewrite Hdrop.
Qed.

Lemma rest_without_keys (names : list string) (fields : list (string * Json)) :
  map fst (rest_without names fields)
  = filter (fun k => negb (existsb (String.eqb k) names)) (map fst fields).
Proof.
  induction fields as [|[k v] fields IH]; cbn [rest_without filter map fst];
    [reflexivity|].
  fold (rest_without names fields).
  destruct (existsb (String.eqb k) names); cbn [negb map fst]; now rewrite IH.
Qed.

(** X23.  The lookup route validates, then forwards: when [entityId] or
    [entityIdNS] is missing or empty in the query it answers 400 and does
    not call the profile service; otherwise it calls the service once with
    the two values and, as options, the other parameters of the query in
    their order -- never the two identity parameters --, and answers 200
    with the profile, or 500 with the message of the error the service
    threw. *)
Theorem lookup_route_validates_then_forwards
    (query : list (string * Json)) (w : W) :
  let entityId := lookup "entityId" query in
  let entityIdNS := lookup "entityIdNS" query in
  (truthy entityId && truthy entityIdNS = false ->
     asyncHandler (get_profiles_lookup query) w
     = (Some (mkHttp 400 (JObject [("error",
                                    JString "entityId and entityIdNS are required")])),
        w))
  /\ (truthy entityId && truthy entityIdNS = true ->
      exists options,
        asyncHandler (get_profiles_lookup query) w
        = match lookupProfile entityId entityIdNS (JObject options) w with
          | (Ok profile, w') => (Some (mkHttp 200 profile), w')
          | (Throw e, w') =>
              (Some (mkHttp 500 (JObject [("error", err_message e)])), w')
          end
        /\ lookup "entityId" options = JUndefined
        /\ lookup "entityIdNS" options = JUndefined
        /\ (forall k, String.eqb k "entityId" = false ->
                      String.eqb k "entityIdNS" = false ->
                      lookup k options = lookup k query)
        /\ map fst options
           = filter (fun k => negb (String.eqb k "entityId" || String.eqb k "entityIdNS"))
                    (map fst query)).
Proof.
  cbv zeta. unfold asyncHandler, get_profiles_lookup. split; intros Hvalid.
  - destruct (truthy (lookup "entityId" query)),
             (truthy (lookup "entityIdNS" query)); try discriminate; reflexivity.
  - apply andb_true_iff in Hvalid. destruct Hvalid as [-> ->]. cbn [negb orb].
    exists (rest_without ["entityId"; "entityIdNS"] query).
    split; [|split; [|split; [|split]]].
    + unfold bind, ret.
      destruct (lookupProfile _ _ _ w) as [[profile|e] w']; reflexivity.
    + rewrite lookup_rest_without. reflexivity.
    + rewrite lookup_rest_without. reflexivity.
    + intros k H1 H2. rewrite lookup_rest_without. cbn [existsb].
      now rewrite H1, H2.
    + rewrite rest_without_keys. apply filter_ext. intros k. cbn [existsb].
      now rewrite orb_false_r.
Qed.

End ProfileRouteFacts.

(* ===================================================================== *)
(** * Properties of the panel and its API client *)
(* ===================================================================== *)

Section PanelFacts.
Local Open Scope list_scope.
Context {JN : JsNumber} {JH : JsHost} {JT : JsText}.
Context {W : Type} {TR : ToolRegistry W} {LLM : LlmService W}.

Lemma slice_last_short {A : Type} (n : nat) (l : list A) :
  List.length l <= n -> slice_last n l = l.
Proof.
  intros Hlen. unfold slice_last.
  replace (List.length l - n) with 0 by lia. reflexivity.
Qed.

(** X24.  The service never cuts what the panel sends: the panel sends
    the last ten of its messages as history, so the cut of
    [processMessage] to the last twenty is the identity on it, and what
    the service stores after such a turn is exactly the history sent: a
    suffix of the panel's messages, of at most ten entries. *)
Theorem panel_history_is_stored_uncut
    (messages : list ChatMessage) (text : string) (autoMode : bool) (s : State W) :
  let turn := send_payload messages text autoMode in
  chatHistory (snd (processMessage turn s)) = history turn
  /\ List.length (history turn) = Nat.min 10 (List.length messages)
  /\ exists older, messages = older ++ history turn.
Proof.
  cbv zeta. unfold send_payload. cbn [history].
  destruct (slice_last_suffix 10 messages) as [Holder Hlen].
  split; [|split; [exact Hlen | exact Holder]].
  rewrite processMessage_fresh by reflexivity.
  rewrite after_remember_keeps_history. cbn [with_history chatHistory history].
  apply slice_last_short. rewrite Hlen. lia.
Qed.

End PanelFacts.

Section ClientFacts.
Context {JN : JsNumber} {JH : JsHost} {JT : JsText}.
Context {W : Type} {BR : Browser W}.

(** X25.  A response that is not [ok] never resolves a call of
    [fetchAPI]: the call throws, with the [error] field of the body when
    the body is JSON and the field is truthy, with "Network error" when
    the body is not JSON, with "API Error: <status>" when the field is
    missing or falsy, and with the engine's TypeError when the body is the
    JSON [null]. *)
Theorem a_refused_call_throws
    (endpoint : string) (options : list (string * Json)) (w w' : W)
    (response : FetchResponse) :
  browser_fetch (API_BASE ++ endpoint) (client_init options) w = (Ok response, w') ->
  resp_ok response = false ->
  fetchAPI endpoint options w
  = (Throw (mkError (JString (refusal_message response))), w').
Proof.
  intros Hfetch Hrefused. unfold fetchAPI, bind. rewrite Hfetch, Hrefused.
  cbn [negb]. unfold lift, throw, error_body, refusal_message, new_error.
  destruct (resp_json response) as [body|e].
  - destruct body as [| | | | | |fields]; cbn [get nullish opt_get]; try reflexivity.
    unfold js_or. destruct (truthy (lookup "error" fields)); reflexivity.
  - cbn [get lookup]. reflexivity.
Qed.

End ClientFacts.

(* ===================================================================== *)
(** * Runs of the further properties *)
(* ===================================================================== *)

Example list_request_of_a_page :
  map fst (requests (snd (listSchemas JUndefined
                            (JObject [("start", JString "a"); ("limit", JString "5")])
                            (net_start three_unions))))
  = [ "https://platform.adobe.io/data/foundation/schemaregistry/tenant/schemas?limit=5&start=a" ].
Proof. vm_compute. reflexivity. Qed.

Example stats_are_refused :
  fst (getRegistryStats (net_start three_unions))
  = Throw (mkError (JString "API Error 404: Not Found")).
Proof. vm_compute. reflexivity. Qed.

Example lost_details_are_still_asked_for :
  List.length (requests (snd (extractUnionSchemaForAI (net_start three_unions)))) = 4.
Proof. vm_compute. reflexivity. Qed.

(** Witness: the model asks for a read, a query and a read with
    auto-mode off; the turn halts on the query. *)
Lemma pending_only_from_the_gate_witness :
  processMessage (mkInput (JString "count the rows") false [] None) (start asks_for_sql)
  = (Ok (PendingApproval "execute_sql_query" (JObject [("sql", JString "SELECT 1")])
           ("Execute SQL query:" ++ nl ++ "```sql" ++ nl ++ "SELECT 1..." ++ nl ++ "```")),
     mkState asks_for_sql [] [call_failed_batches]
             [build_messages [] (JString "count the rows")])
  /\ requiresApproval "execute_sql_query" = true
  /\ requiresApproval (call_name call_failed_batches) = false.
Proof.
  assert (Hrun : processMessage (mkInput (JString "count the rows") false [] None)
                                (start asks_for_sql)
                 = (Ok (PendingApproval "execute_sql_query"
                          (JObject [("sql", JString "SELECT 1")])
                          ("Execute SQL query:" ++ nl ++ "```sql" ++ nl
                           ++ "SELECT 1..." ++ nl ++ "```")),
                    mkState asks_for_sql [] [call_failed_batches]
                            [build_messages [] (JString "count the rows")]))
    by reflexivity.
  destruct (pending_only_from_the_gate _ _ Hrun) as (_ & _ & Hreq & _ & _).
  split; [exact Hrun|]. split; [exact Hreq | reflexivity].
Defined.


(** Witness: five printable batches and a null sixth. *)
Lemma failed_batches_prints_the_first_five_witness :
  opt_get (JObject [("batches", JArray six_batches)]) "batches" = JArray six_batches
  /\ forallb printable_batch (firstn 5 six_batches) = true
  /\ formatToolResult "get_failed_batches" (JObject [("batches", JArray six_batches)])
     = Ok ("📊 I found **6 failed batches** that need attention:" ++ nl ++ nl
           ++ "1. Batch `b1...` - Failed at undefined" ++ nl
           ++ "2. Batch `b2...` - Failed at undefined" ++ nl
           ++ "3. Batch `b3...` - Failed at undefined" ++ nl
           ++ "4. Batch `undefined...` - Failed at undefined" ++ nl
           ++ "5. Batch `undefined...` - Failed at undefined" ++ nl
           ++ nl ++ "...and 1"
           ++ " more. Would you like me to analyze any specific batch?" ++ nl).
Proof.
  split; [reflexivity|]. split; [reflexivity|].
  rewrite (failed_batches_prints_the_first_five
             (JObject [("batches", JArray six_batches)]) (items := six_batches)
             eq_refl); [reflexivity | discriminate | reflexivity].
Defined.

Lemma ascii_prefix_length (n : nat) (s : string) :
  String.length (String.substring 0 n s) <= n.
Proof.
  revert s. induction n as [|n IH]; intros s; destruct s as [|c s]; cbn; try lia.
  specialize (IH s). lia.
Qed.

Lemma ascii_append_length (a b : string) :
  String.length (a ++ b) = String.length a + String.length b.
Proof. induction a as [|c a IH]; cbn; [reflexivity | now rewrite IH]. Qed.

(** Witness: on the ASCII host, a short result is embedded whole. *)
Lemma embedded_result_is_bounded_witness :
  json_stringify (JString "3 rows") = Some "3 rows"
  /\ result_context_step "" (ResData "execute_sql_query" (JString "3 rows") None)
     = Ok ("" ++ nl ++ "=== " ++ "execute_sql_query" ++ " Result ===" ++ nl
           ++ "3 rows" ++ nl).
Proof.
  split; [reflexivity|].
  destruct (embedded_result_is_bounded "" "execute_sql_query" (JString "3 rows") None
              (dataStr := "3 rows"))
    as (piece & Hrun & _ & Hshort & _).
  - intros n s. cbn [str_length str_substring AsciiHost]. rewrite Nat.sub_0_r.
    apply ascii_prefix_length.
  - intros a b. apply ascii_append_length.
  - reflexivity.
  - reflexivity.
  - rewrite Hrun. rewrite (Hshort ltac:(cbn; lia)). reflexivity.
Defined.

(** Witness: the model answers "Hello!" with an empty list of calls. *)
Lemma text_answer_runs_no_tool_witness :
  processMessage (mkInput (JString "hi") false [] None) (start chatty)
  = (Ok (Answer (JString "Hello!") None []),
     mkState chatty [] [] [build_messages [] (JString "hi")]).
Proof.
  eapply (text_answer_runs_no_tool (mkInput (JString "hi") false [] None) (start chatty));
    [ reflexivity | reflexivity | reflexivity | reflexivity | now right | reflexivity ].
Defined.

(** Witness: a job reported in progress twice more, then succeeded, is
    returned after two rounds, at 4000 ms. *)
Lemma handler_returns_a_job_when_it_ends_witness :
  post_queries (QS := CountdownQueries) (RT := CountdownClock) 3 select_one
               (mkPoll (mkCountdown 0 2) [])
  = (Ok (Some (mkHttp 200 (remote_job "SUCCESS"))),
     mkPoll (mkCountdown 4000 0)
            [ Submitted (query_data select_one 0);
              Slept 2000; Fetched (JString "q1");
              Slept 2000; Fetched (JString "q1") ]).
Proof.
  assert (Hends : ends_after (QS := CountdownQueries) (RT := CountdownClock) 0
                    (mkCountdown 0 2) (remote_job "IN_PROGRESS")
                    [JString "q1"; JString "q1"]
                    (mkCountdown 4000 0) (remote_job "SUCCESS")).
  { apply ends_later with (w' := mkCountdown 2000 1) (job' := remote_job "IN_PROGRESS");
      [ reflexivity | vm_compute; discriminate | reflexivity | reflexivity | ].
    apply ends_later with (w' := mkCountdown 4000 0) (job' := remote_job "SUCCESS");
      [ reflexivity | vm_compute; discriminate | reflexivity | reflexivity | ].
    apply ends_now. reflexivity. }
  destruct (handler_returns_a_job_when_it_ends (QS := CountdownQueries)
              (RT := CountdownClock) (fuel := 3) select_one
              (mkPoll (mkCountdown 0 2) [])
              (created := remote_job "IN_PROGRESS") (w := mkCountdown 0 2)
              eq_refl eq_refl Hends) as (Hrun & _ & _); [cbn; lia|].
  exact Hrun.
Defined.

(** Witness: the query service goes down after two status reports; the
    third fetch fails and is answered at once. *)
Lemma query_failures_are_answered_with_500_witness :
  asyncHandler (post_queries (QS := FlakyQueries) (RT := CountdownClock) 3 select_one)
               (mkPoll (mkCountdown 0 2) [])
  = (Some (mkHttp 500 (JObject [("error", JString "API Error 503: down")])),
     mkPoll (mkCountdown 6000 0)
            [ Submitted (query_data select_one 0);
              Slept 2000; Fetched (JString "q1");
              Slept 2000; Fetched (JString "q1");
              Slept 2000; Fetched (JString "q1") ]).
Proof.
  assert (Hfails : fails_after (QS := FlakyQueries) (RT := CountdownClock) 0
                     (mkCountdown 0 2) (remote_job "IN_PROGRESS")
                     [JString "q1"; JString "q1"; JString "q1"]
                     (mkCountdown 6000 0) (mkError (JString "API Error 503: down"))).
  { apply fails_later with (w' := mkCountdown 2000 1) (job' := remote_job "IN_PROGRESS");
      [ reflexivity | vm_compute; discriminate | reflexivity | reflexivity | ].
    apply fails_later with (w' := mkCountdown 4000 0) (job' := remote_job "IN_PROGRESS");
      [ reflexivity | vm_compute; discriminate | reflexivity | reflexivity | ].
    apply fails_now; [ reflexivity | vm_compute; discriminate | reflexivity | reflexivity ]. }
  destruct (query_failures_are_answered_with_500 (QS := FlakyQueries)
              (RT := CountdownClock) 3 select_one (mkPoll (mkCountdown 0 2) []) eq_refl)
    as (_ & _ & Hfetch).
  exact (Hfetch (remote_job "IN_PROGRESS") (mkCountdown 0 2) _ _ _ eq_refl Hfails
                ltac:(cbn; lia)).
Defined.

(** Witness: the extraction of a schema of four properties, one of them
    under the prototype key. *)
Lemma extracted_keys_are_the_input_keys_witness :
  NoDup (map fst person_schema)
  /\ exists extracted,
       extractProperties (JObject person_schema) 0 = Ok (JObject extracted)
       /\ map fst extracted = ["name"; "address"; "emails"].
Proof.
  assert (Hnodup : NoDup (map fst person_schema)).
  { cbn. repeat constructor; cbn; intuition discriminate. }
  split; [exact Hnodup|].
  destruct (extractProperties (JObject person_schema) 0) as [out|e] eqn:Hrun;
    [|discriminate].
  destruct (extracted_keys_are_the_input_keys person_schema (depth := 0)
              ltac:(lia) Hnodup Hrun) as (extracted & -> & Hkeys & _).
  exists extracted. split; [reflexivity | exact Hkeys].
Defined.

(** Witness: the same extraction nests at most six deep. *)
Lemma extraction_is_cut_at_depth_six_witness :
  exists out,
    extractProperties (JObject person_schema) 0 = Ok out /\ nesting out <= 6.
Proof.
  destruct (extractProperties (JObject person_schema) 0) as [out|e] eqn:Hrun;
    [|discriminate].
  exists out. split; [reflexivity|].
  exact (extraction_is_cut_at_depth_six (JObject person_schema) 0 Hrun).
Defined.

(** Witness: the model asks for a query with auto-mode off; the held call,
    handed back as approved action, is the one call of the next turn. *)
Lemma held_call_runs_when_handed_back_witness :
  processMessage (mkInput (JString "count the rows") false [] None) (start asks_for_sql)
  = (Ok (PendingApproval "execute_sql_query" (JObject [("sql", JString "SELECT 1")])
           ("Execute SQL query:" ++ nl ++ "```sql" ++ nl ++ "SELECT 1..." ++ nl ++ "```")),
     mkState asks_for_sql [] [call_failed_batches]
             [build_messages [] (JString "count the rows")])
  /\ executed (snd (processMessage approve_sql (start asks_for_sql))) = [call_sql].
Proof.
  assert (Hrun : processMessage (mkInput (JString "count the rows") false [] None)
                                (start asks_for_sql)
                 = (Ok (PendingApproval "execute_sql_query"
                          (JObject [("sql", JString "SELECT 1")])
                          ("Execute SQL query:" ++ nl ++ "```sql" ++ nl
                           ++ "SELECT 1..." ++ nl ++ "```")),
                    mkState asks_for_sql [] [call_failed_batches]
                            [build_messages [] (JString "count the rows")]))
    by reflexivity.
  destruct (held_call_runs_when_handed_back _ _ Hrun) as (_ & _ & Hback).
  split; [exact Hrun|].
  destruct (Hback approve_sql (start asks_for_sql) eq_refl) as [Hexecuted _].
  exact Hexecuted.
Defined.

(** Witness: of three unions the second has no details; the report holds
    the two others. *)
Lemma extraction_skips_failing_unions_witness :
  exists schemas s',
    extractUnionSchemaForAI (net_start three_unions)
    = (Ok (JObject [ ("extractedAt", JString "2025-01-01T00:00:00.000Z");
                     ("sandbox", JString "prod");
                     ("schemas", JArray schemas) ]), s')
    /\ List.length schemas <= 3.
Proof.
  assert (Hall : Forall (fun u => nullish u = false) listed_unions)
    by (repeat constructor).
  assert (Hlist : listUnionSchemas (net_start three_unions)
                  = (Ok (JObject [("results", JArray listed_unions)]),
                     snd (listUnionSchemas (net_start three_unions))))
    by reflexivity.
  destruct (extraction_skips_failing_unions
              (net_start three_unions) (results := JArray listed_unions)
              Hlist eq_refl eq_refl Hall)
    as (schemas & s' & Hrun & Hlen & _).
  exists schemas, s'. split; [exact Hrun | exact Hlen].
Defined.

(** Witness: a null after a union that can be extracted. *)
Lemma a_null_union_aborts_the_extraction_witness :
  fst (extractUnionSchemaForAI (net_start holed_unions))
  = Throw (mkError (JString
      "Failed to extract union schemas: Cannot read properties (reading '$id')")).
Proof.
  assert (Hlist : listUnionSchemas (net_start holed_unions)
                  = (Ok (JObject [("results",
                                   JArray [JObject [("$id", JString "event")]; JNull])]),
                     snd (listUnionSchemas (net_start holed_unions))))
    by reflexivity.
  assert (Hnull : Exists (fun u => nullish u = true)
                         [JObject [("$id", JString "event")]; JNull])
    by (apply Exists_cons_tl, Exists_cons_hd; reflexivity).
  rewrite (a_null_union_aborts_the_extraction
             (net_start holed_unions)
             (results := JArray [JObject [("$id", JString "event")]; JNull])
             Hlist eq_refl eq_refl Hnull).
  reflexivity.
Defined.

(** Witness: the error of a backend that is down reaches the panel. *)
Lemma a_refused_call_throws_witness :
  fetchAPI "/agent/chat" [("method", JString "POST")] backend_down
  = (Throw (mkError (JString "API Error 503: down")), backend_down).
Proof.
  assert (Hfetch : browser_fetch (API_BASE ++ "/agent/chat")
                                 (client_init [("method", JString "POST")]) backend_down
                   = (Ok (mkResponse false (num 500) (Ok "{}")
                            (Ok (JObject [("error", JString "API Error 503: down")]))),
                      backend_down))
    by reflexivity.
  rewrite (a_refused_call_throws "/agent/chat" [("method", JString "POST")] backend_down
             Hfetch eq_refl).
  reflexivity.
Defined.
